(** * Dental clinic server: appointment booking and authorization

    A shallow embedding of the Express route handlers of the clinic server
    (routes/appointments.js, routes/users.js, routes/services.js,
    routes/payments.js, routes/reminders.js, routes/dashboard.js) over an
    explicit document store, with the properties of the handlers proved
    below the definitions.

    Conventions of the embedding:
    - a Mongo collection is the list of its documents in insertion order;
      [findById] and [findOne] return the first match;
    - an ObjectId is its hexadecimal string, compared with [String.eqb] as
      the handlers compare [x.toString()];
    - a handler is a function from the authenticated user ([req.user], set
      by the [auth] middleware), the request and the store to a response
      and the store after the request;
    - the amount of a payment is a double of IEEE 754 ([Number.t]), added
      and compared as doubles are; time values, durations, prices and
      counts are integers, and a time value that may be NaN is an
      [option Z] with [None] for NaN. *)

From Stdlib Require Import ZArith List Bool String Ascii Lia.
From Stdlib Require Import Sorted Permutation.
From Stdlib Require Import SpecFloat.
Import ListNotations.
Open Scope string_scope.
Open Scope Z_scope.

Set Implicit Arguments.

(** ** JavaScript dates *)

Module JsDate.

(** A Date object is its time value: milliseconds since the epoch, or NaN
    (an "Invalid Date"). *)
Definition t := option Z.

Definition msPerHour : Z := 3600000.
Definition msPerDay : Z := 86400000.
Definition HoursPerDay : Z := 24.

(** ECMAScript abstract operations on a finite time value. *)
Definition Day (tv : Z) : Z := tv / msPerDay.
Definition WeekDay (tv : Z) : Z := (Day tv + 4) mod 7.
Definition HourFromTime (tv : Z) : Z := (tv / msPerHour) mod HoursPerDay.

Section LocalTime.

(** Offset of the host's civil time from UTC at a given instant. *)
Variable LocalTZA : Z -> Z.

Definition LocalTime (tv : Z) : Z := tv + LocalTZA tv.

(** [Date.prototype.getDay]: 0 = Sunday ... 6 = Saturday, NaN on an
    invalid date. *)
Definition getDay (d : t) : option Z :=
  match d with
  | Some tv => Some (WeekDay (LocalTime tv))
  | None => None
  end.

(** [Date.prototype.getHours]. *)
Definition getHours (d : t) : option Z :=
  match d with
  | Some tv => Some (HourFromTime (LocalTime tv))
  | None => None
  end.

End LocalTime.

(** Names of the days of the week, in the numbering of [getDay]. *)
Inductive weekday :=
| Sunday | Monday | Tuesday | Wednesday | Thursday | Friday | Saturday.

Definition weekday_of (n : Z) : weekday :=
  match n with
  | 0 => Sunday
  | 1 => Monday
  | 2 => Tuesday
  | 3 => Wednesday
  | 4 => Thursday
  | 5 => Friday
  | _ => Saturday
  end.

End JsDate.

(** ** JavaScript values used by the handlers *)

(** [Array.prototype.includes] on an array of numbers: NaN is not in any of
    the arrays the handlers write. *)
Definition includesZ (arr : list Z) (x : option Z) : bool :=
  match x with
  | Some n => existsb (Z.eqb n) arr
  | None => false
  end.

(** [a < b] and [a >= b] on numbers: false as soon as one side is NaN. *)
Definition js_lt (a : option Z) (b : Z) : bool :=
  match a with
  | Some n => n <? b
  | None => false
  end.

Definition js_ge (a : option Z) (b : Z) : bool :=
  match a with
  | Some n => n >=? b
  | None => false
  end.

(** Truthiness of a string and of a number. *)
Definition truthy_string (s : option string) : bool :=
  match s with
  | Some s => negb (String.eqb s "")
  | None => false
  end.

Definition truthy_number (n : option Z) : bool :=
  match n with
  | Some n => negb (n =? 0)
  | None => false
  end.

Definition truthy_bool (b : option bool) : bool :=
  match b with
  | Some b => b
  | None => false
  end.

(** [a || b] on a string that may be undefined. *)
Definition or_string (a : option string) (b : string) : string :=
  match a with
  | Some s => if String.eqb s "" then b else s
  | None => b
  end.

(** The value of a path that has a default. *)
Definition orElse {A} (o : option A) (d : A) : A :=
  match o with
  | Some a => a
  | None => d
  end.

(** The sanitizer [trim()] of express-validator, and [trim: true] of a
    Mongoose string path: strips leading and trailing white space. *)
Definition isSpace (c : ascii) : bool :=
  match nat_of_ascii c with
  | 9%nat | 10%nat | 11%nat | 12%nat | 13%nat | 32%nat => true
  | _ => false
  end.

Fixpoint trimStart (s : string) : string :=
  match s with
  | String c s' => if isSpace c then trimStart s' else s
  | EmptyString => EmptyString
  end.

Fixpoint trimEnd (s : string) : string :=
  match s with
  | String c s' =>
      match trimEnd s' with
      | EmptyString => if isSpace c then EmptyString else String c EmptyString
      | r => String c r
      end
  | EmptyString => EmptyString
  end.

Definition trim (s : string) : string := trimEnd (trimStart s).

(** ** Requests and responses *)

(** An ObjectId, as the string the handlers compare. *)
Definition ObjectId := string.

(** A body field that a request validator of express-validator looks at:
    not sent at all, sent with a value the field's validator rejects, or
    sent with a value it accepts (carried here already parsed).  A value
    accepted by [isMongoId], [isISO8601], [isIn] or [isFloat] is a
    non-empty string or a number, so a well-formed field is truthy. *)
Inductive Field (A : Type) :=
| Absent
| Malformed
| Wellformed (a : A).

Arguments Absent {A}.
Arguments Malformed {A}.
Arguments Wellformed {A} a.

Definition isWellformed {A} (f : Field A) : bool :=
  match f with
  | Wellformed _ => true
  | _ => false
  end.

(** A validation chain without [optional()]: an error unless the value is
    there and accepted. *)
Definition required {A} (f : Field A) (msg : string) : list string :=
  if isWellformed f then [] else [msg].

(** A validation chain with [optional()]: skipped when the field is
    undefined. *)
Definition optional {A} (f : Field A) (msg : string) : list string :=
  match f with
  | Malformed => [msg]
  | _ => []
  end.

(** What a handler passes to [res.json], with the status set before. *)
Inductive Payload (A : Type) :=
| Message (m : string)
| Errors (msgs : list string)
| Json (a : A).

Arguments Message {A} m.
Arguments Errors {A} msgs.
Arguments Json {A} a.

Record Response (A : Type) := respond { statusCode : Z; payload : Payload A }.

Arguments respond {A} statusCode payload.

(** The message of the TypeError raised by reading [_id] of a populated
    reference that is null; the handler's [catch] sends it with status 500. *)
Definition nullReference : string :=
  "Cannot read properties of null (reading '_id')".

(** The failure kinds of the specification, as the handlers report them. *)
Definition Forbidden {A} (r : Response A) : Prop := statusCode r = 403.
Definition NotFound {A} (r : Response A) : Prop := statusCode r = 404.

(** ** JavaScript numbers

    A number of JavaScript, which is also a double of the database: a
    value of IEEE 754 binary64, with the operations of the Standard
    Library's specification of floating point. *)

Module Number.

Definition t : Type := spec_float.

Definition prec : Z := 53.
Definition emax : Z := 1024.

(** The number [0]. *)
Definition zero : t := S754_zero false.

(** [x + y]: the sum rounded to the nearest double, ties to even. *)
Definition add (x y : t) : t := SFadd prec emax x y.

(** [x <= y]: false as soon as one side is NaN. *)
Definition leb (x y : t) : bool := SFleb x y.

(** Truthiness: [0], [-0] and NaN are falsy. *)
Definition truthy (x : t) : bool :=
  match x with
  | S754_zero _ | S754_nan => false
  | _ => true
  end.

(** [x || 0] *)
Definition orZero (x : t) : t := if truthy x then x else zero.

(** The double nearest to an integer: what a numeric literal denotes. *)
Definition ofZ (n : Z) : t := binary_normalize prec emax n 0 false.

(** The integer that a number is, for a number that is one. *)
Definition toZ (x : t) : option Z :=
  match x with
  | S754_zero _ => Some 0
  | S754_finite s m e =>
      if 0 <=? e then Some (cond_Zopp s (Zpos m * 2 ^ e))
      else if Zpos m mod 2 ^ (- e) =? 0
           then Some (cond_Zopp s (Zpos m / 2 ^ (- e)))
           else None
  | _ => None
  end.

(** [m * 2 ^ k] on a mantissa. *)
Definition shl (m : positive) (k : nat) : positive := Nat.iter k xO m.

(** The double of a positive integer below [2 ^ prec], written out: the
    mantissa is the integer shifted to [prec] binary digits. *)
Definition ofPos (m : positive) : t :=
  let k := Z.to_nat (prec - Zpos (digits2_pos m)) in
  S754_finite false (shl m k) (- Z.of_nat k).

End Number.

(** ** Models *)

(** A role is the string the handlers compare: "patient", "doctor" or
    "assistant". *)
Definition Role := string.

(** [roles.includes(role)]. *)
Definition includes (roles : list Role) (role : Role) : bool :=
  existsb (String.eqb role) roles.

Module User.

(** The user document as the handlers read it (the schema also holds the
    password hash and contact data). *)
Record doc := mk { _id : ObjectId; name : string; email : string; role : Role }.

End User.

Module Appointment.

Inductive Status := scheduled | completed | cancelled.

Definition Status_eqb (a b : Status) : bool :=
  match a, b with
  | scheduled, scheduled | completed, completed | cancelled, cancelled => true
  | _, _ => false
  end.

(** appointmentSchema *)
Record doc := mk {
  _id : ObjectId;
  user : ObjectId;
  doctor : ObjectId;
  date : Z;
  status : Status;
  notes : option string;
  service : ObjectId;
  createdAt : Z
}.

End Appointment.

Module Service.

(** The service document, from the fields routes/services.js reads and
    writes. *)
Record doc := mk {
  _id : ObjectId;
  name : string;
  description : option string;
  duration : Z;
  price : Z;
  isActive : bool;
  createdBy : ObjectId
}.

End Service.

Module Payment.

Inductive Status := pending | completed | failed.

Definition Status_eqb (a b : Status) : bool :=
  match a, b with
  | pending, pending | completed, completed | failed, failed => true
  | _, _ => false
  end.

(** paymentSchema; [amount] has the type Number. *)
Record doc := mk {
  _id : ObjectId;
  user : ObjectId;
  appointment : ObjectId;
  amount : Number.t;
  status : Status;
  paymentMethod : option string;
  createdAt : Z
}.

End Payment.

Module Reminder.

(** The reminder document, from the fields routes/reminders.js reads and
    writes. *)
Record doc := mk {
  _id : ObjectId;
  user : ObjectId;
  appointment : ObjectId;
  title : string;
  message : string;
  date : Z;
  isRead : bool
}.

End Reminder.

Module PatientInfo.

Record Contact := mkContact {
  contactName : option string;
  phone : option string;
  relationship : option string
}.

(** patientInfoSchema *)
Record doc := mk {
  _id : ObjectId;
  patientId : ObjectId;
  age : option Z;
  gender : option string;
  address : option string;
  bloodType : option string;
  medicalHistory : option string;
  allergies : option string;
  medications : option string;
  emergencyContact : option Contact;
  lastVisit : option Z;
  createdAt : Z;
  updatedAt : Z
}.

Definition genders : list string := ["male"; "female"; "other"].

Definition bloodTypes : list string :=
  ["A+"; "A-"; "B+"; "B-"; "AB+"; "AB-"; "O+"; "O-"].

(** The [enum] validator of a string path: run on a value that is set. *)
Definition enumOk (values : list string) (v : option string) : bool :=
  match v with
  | Some s => existsb (String.eqb s) values
  | None => true
  end.

(** Schema validation run by [save]. *)
Definition validate (d : doc) : bool :=
  enumOk genders (gender d) && enumOk bloodTypes (bloodType d).

(** The message of the ValidationError thrown by [save]. *)
Definition validationFailed : string := "PatientInfo validation failed".

End PatientInfo.

(** ** The store *)

Record Store := mkStore {
  users : list User.doc;
  appointments : list Appointment.doc;
  services : list Service.doc;
  payments : list Payment.doc;
  reminders : list Reminder.doc;
  patientInfos : list PatientInfo.doc
}.

Section Collection.

Variable Doc : Type.
Variable id_of : Doc -> ObjectId.

(** [Model.findById(id)] *)
Definition findById (c : list Doc) (id : ObjectId) : option Doc :=
  find (fun d => String.eqb (id_of d) id) c.

(** [doc.save()] on a document made with [new Model(...)]. *)
Definition insertDoc (c : list Doc) (d : Doc) : list Doc := c ++ [d].

(** [doc.save()] on a document that was read from the collection. *)
Definition replaceDoc (c : list Doc) (d : Doc) : list Doc :=
  map (fun x => if String.eqb (id_of x) (id_of d) then d else x) c.

(** [doc.remove()] and [Model.findByIdAndDelete(id)]. *)
Definition removeDoc (c : list Doc) (id : ObjectId) : list Doc :=
  filter (fun x => negb (String.eqb (id_of x) id)) c.

End Collection.

(** What mongoose makes of a string where a query has an ObjectId: the
    ObjectId the string denotes, or the CastError that the query throws,
    with its message. *)
Inductive Cast :=
| CastError (message : string)
| Casted (id : ObjectId).

(** What a handler takes from the process it runs in: the host's time
    zone, the clock read by [Date.now()], the ObjectId given to the next
    new document, the default of [isActive] in the service schema, and
    the cast of a string to an ObjectId. *)
Record Env := mkEnv {
  LocalTZA : Z -> Z;
  Date_now : Z;
  newObjectId : ObjectId;
  Service_isActive_default : bool;
  castObjectId : string -> Cast
}.

(** [.sort({ key: -1 })] and [.sort({ key: 1 })]: documents ordered by a
    numeric key; documents with equal keys keep their order. *)
Section Sort.

Variable Doc : Type.
Variable key : Doc -> Z.

Fixpoint insertDesc (d : Doc) (l : list Doc) : list Doc :=
  match l with
  | [] => [d]
  | x :: l' => if key x <? key d then d :: l else x :: insertDesc d l'
  end.

Definition sortDesc (l : list Doc) : list Doc := fold_right insertDesc [] l.

Fixpoint insertAsc (d : Doc) (l : list Doc) : list Doc :=
  match l with
  | [] => [d]
  | x :: l' => if key d <? key x then d :: l else x :: insertAsc d l'
  end.

Definition sortAsc (l : list Doc) : list Doc := fold_right insertAsc [] l.

End Sort.

(** ** routes/appointments.js *)

Module AppointmentRoutes.

Import Appointment.

(** [req.body] of POST and PUT /api/appointments: the fields of the
    validation chain and [createdAt], the one other path of the schema
    that [new Appointment(req.body)] and [Object.assign] would take from
    the body. *)
Record Body := mkBody {
  b_user : Field ObjectId;
  b_doctor : Field ObjectId;
  b_date : Field JsDate.t;
  b_service : Field ObjectId;
  b_status : Field Status;
  b_notes : option string;
  b_createdAt : option Z
}.

(** The errors of the chain [validateAppointment], in its order. *)
Definition validateAppointment (b : Body) : list string :=
  required (b_user b) "Invalid user ID"
  ++ required (b_doctor b) "Invalid doctor ID"
  ++ required (b_date b) "Invalid date format"
  ++ required (b_service b) "Invalid service ID"
  ++ optional (b_status b) "Invalid status".

(** The sanitizer of the chain: [body('notes').optional().trim()]. *)
Definition sanitize (b : Body) : Body :=
  mkBody (b_user b) (b_doctor b) (b_date b) (b_service b) (b_status b)
         (option_map trim (b_notes b)) (b_createdAt b).

(** [req.body.user = req.user._id] *)
Definition setUser (b : Body) (id : ObjectId) : Body :=
  mkBody (Wellformed id) (b_doctor b) (b_date b) (b_service b) (b_status b)
         (b_notes b) (b_createdAt b).

(** Setting one path of a document from the body: an undefined value
    leaves the path as it is, a value the schema cannot take makes [save]
    throw. *)
Definition setPath {A} (f : Field A) (old : A) : option A :=
  match f with
  | Absent => Some old
  | Malformed => None
  | Wellformed a => Some a
  end.

Definition setDate (f : Field JsDate.t) (old : option Z) : option Z :=
  match f with
  | Absent => old
  | Malformed => None
  | Wellformed d => d
  end.

(** The message of the ValidationError thrown by [save]. *)
Definition validationFailed : string := "Appointment validation failed".

(** [new Appointment(req.body)], with the defaults of the schema, as
    [save] would validate it: [None] when a required path is missing or
    cannot be cast. *)
Definition new (env : Env) (b : Body) : option doc :=
  match b_user b, b_doctor b, setDate (b_date b) None, b_service b,
        setPath (b_status b) scheduled with
  | Wellformed u, Wellformed d, Some tv, Wellformed s, Some st =>
      Some (mk (newObjectId env) u d tv st (option_map trim (b_notes b)) s
               (orElse (b_createdAt b) (Date_now env)))
  | _, _, _, _, _ => None
  end.

(** [Object.assign(appointment, req.body)], as [save] would validate it. *)
Definition assign (a : doc) (b : Body) : option doc :=
  match setPath (b_user b) (user a), setPath (b_doctor b) (doctor a),
        setDate (b_date b) (Some (date a)), setPath (b_service b) (service a),
        setPath (b_status b) (status a) with
  | Some u, Some d, Some tv, Some s, Some st =>
      Some (mk (_id a) u d tv st
               (match b_notes b with
                | Some n => Some (trim n)
                | None => notes a
                end)
               s (orElse (b_createdAt b) (createdAt a)))
  | _, _, _, _, _ => None
  end.

(** [!service || !service.isActive] after [Service.findById(id)]. *)
Definition serviceUnavailable (st : Store) (id : ObjectId) : bool :=
  match findById Service._id (services st) id with
  | Some service => negb (Service.isActive service)
  | None => true
  end.

(** GET /api/appointments *)
Definition getAll (u : User.doc) (st : Store) : Response (list doc) :=
  let query :=
    if String.eqb (User.role u) "patient"
    then fun a => String.eqb (user a) (User._id u)
    else fun _ => true in
  respond 200 (Json (filter query (appointments st))).

(** GET /api/appointments/:id.  The owner is read from the populated
    reference [appointment.user], null when the user is gone. *)
Definition getById (u : User.doc) (id : ObjectId) (st : Store) : Response doc :=
  match findById _id (appointments st) id with
  | None => respond 404 (Message "Appointment not found")
  | Some appointment =>
      if String.eqb (User.role u) "patient" then
        match findById User._id (users st) (user appointment) with
        | None => respond 500 (Message nullReference)
        | Some owner =>
            if negb (String.eqb (User._id owner) (User._id u))
            then respond 403 (Message "Not authorized to view this appointment")
            else respond 200 (Json appointment)
        end
      else respond 200 (Json appointment)
  end.

(** GET /api/appointments/user/:userId *)
Definition getByUser (u : User.doc) (userId : ObjectId) (st : Store)
  : Response (list doc) :=
  if negb (String.eqb (User._id u) userId)
     && negb (includes ["doctor"; "assistant"] (User.role u))
  then respond 403 (Message "Not authorized to view these appointments")
  else respond 200 (Json (sortDesc date
         (filter (fun a => String.eqb (user a) userId) (appointments st)))).

(** POST /api/appointments *)
Definition create (env : Env) (u : User.doc) (body : Body) (st : Store)
  : Response (option doc) * Store :=
  let body := sanitize body in
  match validateAppointment body with
  | (_ :: _) as errs => (respond 400 (Errors errs), st)
  | [] =>
    let body := if String.eqb (User.role u) "patient"
                then setUser body (User._id u) else body in
    if match b_service body with
       | Wellformed id => serviceUnavailable st id
       | _ => true
       end
    then (respond 400 (Message "Selected service is not available"), st)
    else
      let appointmentDate :=
        match b_date body with Wellformed d => d | _ => None end in
      let dayOfWeek := JsDate.getDay (LocalTZA env) appointmentDate in
      let hour := JsDate.getHours (LocalTZA env) appointmentDate in
      if negb (includesZ [6; 0; 1; 2; 3] dayOfWeek)
      then (respond 400 (Message
             "Appointments can only be booked from Saturday to Wednesday"), st)
      else if js_lt hour 8 || js_ge hour 18
      then (respond 400 (Message
             "Appointments can only be booked between 8 AM and 6 PM"), st)
      else
        match new env body with
        | None => (respond 500 (Message validationFailed), st)
        | Some appointment =>
            let appts := insertDoc (appointments st) appointment in
            (respond 201 (Json (findById _id appts (_id appointment))),
             mkStore (users st) appts (services st) (payments st)
                     (reminders st) (patientInfos st))
        end
  end.

(** PUT /api/appointments/:id *)
Definition update (env : Env) (u : User.doc) (id : ObjectId) (body : Body)
  (st : Store) : Response (option doc) * Store :=
  let body := sanitize body in
  match validateAppointment body with
  | (_ :: _) as errs => (respond 400 (Errors errs), st)
  | [] =>
    match findById _id (appointments st) id with
    | None => (respond 404 (Message "Appointment not found"), st)
    | Some appointment =>
      let isPatient := String.eqb (User.role u) "patient" in
      let isStaff := includes ["doctor"; "assistant"] (User.role u) in
      let isOwner := String.eqb (user appointment) (User._id u) in
      if negb isStaff && negb isOwner
      then (respond 403 (Message "Not authorized to update this appointment"),
            st)
      else if isPatient
              && match b_status body with
                 | Wellformed s => negb (Status_eqb s (status appointment))
                 | _ => false
                 end
      then (respond 403 (Message "Patients cannot change appointment status"),
            st)
      else if match b_service body with
              | Wellformed s =>
                  negb (String.eqb s (service appointment))
                  && serviceUnavailable st s
              | _ => false
              end
      then (respond 400 (Message "Selected service is not available"), st)
      else
        let checked :=
          match b_date body with
          | Wellformed appointmentDate =>
              let dayOfWeek := JsDate.getDay (LocalTZA env) appointmentDate in
              let hour := JsDate.getHours (LocalTZA env) appointmentDate in
              if negb (includesZ [6; 0; 1; 2; 3] dayOfWeek)
              then Some
                "Appointments can only be scheduled from Saturday to Wednesday"
              else if js_lt hour 8 || js_ge hour 18
              then Some
                "Appointments can only be scheduled between 8 AM and 6 PM"
              else None
          | _ => None
          end in
        match checked with
        | Some msg => (respond 400 (Message msg), st)
        | None =>
          match assign appointment body with
          | None => (respond 500 (Message validationFailed), st)
          | Some appointment =>
              let appts := replaceDoc _id (appointments st) appointment in
              (respond 200 (Json (findById _id appts (_id appointment))),
               mkStore (users st) appts (services st) (payments st)
                       (reminders st) (patientInfos st))
          end
        end
    end
  end.

(** DELETE /api/appointments/:id *)
Definition cancel (u : User.doc) (id : ObjectId) (st : Store)
  : Response unit * Store :=
  match findById _id (appointments st) id with
  | None => (respond 404 (Message "Appointment not found"), st)
  | Some appointment =>
      if negb (String.eqb (user appointment) (User._id u))
      then (respond 403 (Message
              "Only the patient who booked the appointment can cancel it"), st)
      else (respond 200 (Message "Appointment cancelled successfully"),
            mkStore (users st) (removeDoc _id (appointments st) (_id appointment))
                    (services st) (payments st) (reminders st)
                    (patientInfos st))
  end.

End AppointmentRoutes.

(** ** routes/users.js *)

Module UserRoutes.

Import PatientInfo.

(** [req.body] of the patient-info routes.  [b_lastVisit] and
    [b_updateLastVisit] are keys a client may send besides the fields of
    the record. *)
Record Body := mkBody {
  b_patientId : option string;
  b_age : option Z;
  b_gender : option string;
  b_address : option string;
  b_bloodType : option string;
  b_medicalHistory : option string;
  b_allergies : option string;
  b_medications : option string;
  b_emergencyContact : option Contact;
  b_lastVisit : option Z;
  b_updateLastVisit : option bool
}.

(** [PatientInfo.findOne({ patientId })] *)
Definition findOne (st : Store) (target : ObjectId) : option doc :=
  find (fun d => String.eqb (patientId d) target) (patientInfos st).

Definition setPatientInfos (st : Store) (l : list doc) : Store :=
  mkStore (users st) (appointments st) (services st) (payments st)
          (reminders st) l.

(** [patientInfo[field] = req.body[field]] when the body has the field. *)
Definition setField {A} (new old : option A) : option A :=
  match new with
  | Some a => Some a
  | None => old
  end.

(** DELETE /api/users/:id *)
Definition deleteUser (u : User.doc) (id : ObjectId) (st : Store)
  : Response unit * Store :=
  if negb (String.eqb (User._id u) id)
     && negb (includes ["doctor"; "assistant"] (User.role u))
  then (respond 403 (Message "Not authorized to delete this user"), st)
  else
    match findById User._id (users st) id with
    | None => (respond 404 (Message "User not found"), st)
    | Some _ =>
        (respond 200 (Message "User deleted successfully"),
         mkStore (removeDoc User._id (users st) id) (appointments st)
                 (services st) (payments st) (reminders st) (patientInfos st))
    end.

(** GET /api/users/patient-info/:patientId *)
Definition getPatientInfo (u : User.doc) (patientId : string) (st : Store)
  : Response doc :=
  let targetPatientId :=
    if String.eqb patientId "me" then User._id u else patientId in
  if negb (String.eqb (User._id u) targetPatientId)
     && negb (includes ["doctor"; "assistant"] (User.role u))
  then respond 403 (Message "Not authorized to view this patient info")
  else
    match findOne st targetPatientId with
    | None => respond 404 (Message "Patient information not found")
    | Some patientInfo => respond 200 (Json patientInfo)
    end.

(** POST /api/users/patient-info *)
Definition createPatientInfo (env : Env) (u : User.doc) (body : Body)
  (st : Store) : Response doc * Store :=
  let targetPatientId := or_string (b_patientId body) (User._id u) in
  if negb (String.eqb (User._id u) targetPatientId)
     && negb (includes ["doctor"; "assistant"] (User.role u))
  then (respond 403 (Message "Not authorized to create info for this patient"),
        st)
  else
    match findOne st targetPatientId with
    | Some _ =>
        (respond 400 (Message "Patient information already exists"), st)
    | None =>
        let patientInfo :=
          mk (newObjectId env) targetPatientId (b_age body) (b_gender body)
             (b_address body) (b_bloodType body) (b_medicalHistory body)
             (b_allergies body) (b_medications body)
             (b_emergencyContact body) None (Date_now env) (Date_now env) in
        if validate patientInfo
        then (respond 201 (Json patientInfo),
              setPatientInfos st (insertDoc (patientInfos st) patientInfo))
        else (respond 500 (Message validationFailed), st)
    end.

(** PUT /api/users/patient-info/:patientId *)
Definition updatePatientInfo (env : Env) (u : User.doc) (patientId : string)
  (body : Body) (st : Store) : Response doc * Store :=
  let targetPatientId :=
    if String.eqb patientId "me" then User._id u else patientId in
  if negb (String.eqb (User._id u) targetPatientId)
     && negb (includes ["doctor"; "assistant"] (User.role u))
  then (respond 403 (Message "Not authorized to update this patient info"), st)
  else
    let found := findOne st targetPatientId in
    let patientInfo :=
      match found with
      | Some patientInfo => patientInfo
      | None =>
          mk (newObjectId env) targetPatientId None None None None None None
             None None None (Date_now env) (Date_now env)
      end in
    let patientInfo :=
      mk (_id patientInfo) (PatientInfo.patientId patientInfo)
         (setField (b_age body) (age patientInfo))
         (setField (b_gender body) (gender patientInfo))
         (setField (b_address body) (address patientInfo))
         (setField (b_bloodType body) (bloodType patientInfo))
         (setField (b_medicalHistory body) (medicalHistory patientInfo))
         (setField (b_allergies body) (allergies patientInfo))
         (setField (b_medications body) (medications patientInfo))
         (setField (b_emergencyContact body) (emergencyContact patientInfo))
         (if truthy_bool (b_updateLastVisit body)
          then Some (Date_now env) else lastVisit patientInfo)
         (createdAt patientInfo)
         (Date_now env) in
    if validate patientInfo
    then (respond 200 (Json patientInfo),
          setPatientInfos st
            match found with
            | Some _ => replaceDoc _id (patientInfos st) patientInfo
            | None => insertDoc (patientInfos st) patientInfo
            end)
    else (respond 500 (Message validationFailed), st).

End UserRoutes.

(** ** routes/services.js

    The handlers that change services run behind [authorize('doctor')]. *)

Module ServiceRoutes.

Import Service.

Record Body := mkBody {
  b_name : option string;
  b_description : option string;
  b_duration : option Z;
  b_price : option Z;
  b_isActive : option bool
}.

(** [Service.findOne({ name })] *)
Definition findOne (st : Store) (n : string) : option doc :=
  find (fun d => String.eqb (name d) n) (services st).

Definition setServices (st : Store) (l : list doc) : Store :=
  mkStore (users st) (appointments st) l (payments st) (reminders st)
          (patientInfos st).

(** GET /api/services *)
Definition getAll (st : Store) : Response (list doc) :=
  respond 200 (Json (services st)).

(** GET /api/services/active-services *)
Definition getActive (st : Store) : Response (list doc) :=
  respond 200 (Json (filter isActive (services st))).

(** GET /api/services/:id *)
Definition getById (id : ObjectId) (st : Store) : Response doc :=
  match findById _id (services st) id with
  | None => respond 404 (Message "Service not found")
  | Some service => respond 200 (Json service)
  end.

(** POST /api/services/create *)
Definition create (env : Env) (u : User.doc) (body : Body) (st : Store)
  : Response doc * Store :=
  if negb (truthy_string (b_name body))
     || negb (truthy_number (b_duration body))
     || negb (truthy_number (b_price body))
  then (respond 400 (Message "Please provide name, duration, and price"), st)
  else
    let name := orElse (b_name body) "" in
    match findOne st name with
    | Some existingService =>
        (respond 400 (Message "Service with this name already exists"), st)
    | None =>
        let service :=
          mk (newObjectId env) name (b_description body)
             (orElse (b_duration body) 0) (orElse (b_price body) 0)
             (Service_isActive_default env) (User._id u) in
        (respond 201 (Json service),
         setServices st (insertDoc (services st) service))
    end.

(** PUT /api/services/edit-service/:id *)
Definition edit (id : ObjectId) (body : Body) (st : Store)
  : Response doc * Store :=
  match findById _id (services st) id with
  | None => (respond 404 (Message "Service not found"), st)
  | Some service =>
      if match b_name body with
         | Some name =>
             negb (String.eqb name "")
             && negb (String.eqb name (Service.name service))
             && match findOne st name with
                | Some existingService => true
                | None => false
                end
         | None => false
         end
      then (respond 400 (Message "Service with this name already exists"), st)
      else
        let service :=
          mk (_id service)
             (or_string (b_name body) (name service))
             (match b_description body with
              | Some d => Some d
              | None => description service
              end)
             (if truthy_number (b_duration body)
              then orElse (b_duration body) 0 else duration service)
             (orElse (b_price body) (price service))
             (orElse (b_isActive body) (isActive service))
             (createdBy service) in
        (respond 200 (Json service),
         setServices st (replaceDoc _id (services st) service))
  end.

(** DELETE /api/services/delete-service/:id *)
Definition delete (id : ObjectId) (st : Store) : Response unit * Store :=
  match findById _id (services st) id with
  | None => (respond 404 (Message "Service not found"), st)
  | Some _ =>
      (respond 200 (Message "Service deleted successfully"),
       setServices st (removeDoc _id (services st) id))
  end.

End ServiceRoutes.

(** ** routes/payments.js *)

Module PaymentRoutes.

Import Payment.

Record Body := mkBody {
  b_user : Field ObjectId;
  b_appointment : Field ObjectId;
  b_amount : Field Number.t;
  b_status : Field Status;
  b_paymentMethod : option string;
  b_createdAt : option Z
}.

(** The errors of the chain [validatePayment], in its order. *)
Definition validatePayment (b : Body) : list string :=
  required (b_user b) "Invalid user ID"
  ++ required (b_appointment b) "Invalid appointment ID"
  ++ required (b_amount b) "Amount must be a positive number"
  ++ optional (b_status b) "Invalid status".

(** The sanitizer of the chain: [body('paymentMethod').optional().trim()]. *)
Definition sanitize (b : Body) : Body :=
  mkBody (b_user b) (b_appointment b) (b_amount b) (b_status b)
         (option_map trim (b_paymentMethod b)) (b_createdAt b).

(** [req.body.user = req.user._id] *)
Definition setUser (b : Body) (id : ObjectId) : Body :=
  mkBody (Wellformed id) (b_appointment b) (b_amount b) (b_status b)
         (b_paymentMethod b) (b_createdAt b).

Definition setPayments (st : Store) (l : list doc) : Store :=
  mkStore (users st) (appointments st) (services st) l (reminders st)
          (patientInfos st).

(** The message of the ValidationError thrown by [save]. *)
Definition validationFailed : string := "Payment validation failed".

(** [new Payment(req.body)], with the defaults of the schema, as [save]
    would validate it: [min: 0] asks for [amount >= 0]. *)
Definition new (env : Env) (b : Body) : option doc :=
  match b_user b, b_appointment b, b_amount b with
  | Wellformed u, Wellformed a, Wellformed n =>
      match b_status b with
      | Malformed => None
      | s =>
          if Number.leb Number.zero n
          then Some (mk (newObjectId env) u a n
                        (match s with Wellformed s => s | _ => pending end)
                        (option_map trim (b_paymentMethod b))
                        (orElse (b_createdAt b) (Date_now env)))
          else None
      end
  | _, _, _ => None
  end.

(** GET /api/payments, behind [authorize('doctor')]. *)
Definition getAll (st : Store) : Response (list doc) :=
  respond 200 (Json (sortDesc createdAt (payments st))).

(** GET /api/payments/:id.  The owner is read from the populated reference
    [payment.user], null when the user is gone. *)
Definition getById (u : User.doc) (id : ObjectId) (st : Store)
  : Response doc :=
  match findById _id (payments st) id with
  | None => respond 404 (Message "Payment not found")
  | Some payment =>
      match findById User._id (users st) (user payment) with
      | None => respond 500 (Message nullReference)
      | Some owner =>
          if negb (String.eqb (User._id owner) (User._id u))
             && negb (includes ["doctor"; "assistant"] (User.role u))
          then respond 403 (Message "Not authorized to view this payment")
          else respond 200 (Json payment)
      end
  end.

(** GET /api/payments/user/:userId *)
Definition getByUser (u : User.doc) (userId : ObjectId) (st : Store)
  : Response (list doc) :=
  if negb (String.eqb (User._id u) userId)
     && negb (includes ["doctor"] (User.role u))
  then respond 403 (Message "Not authorized to view these payments")
  else respond 200 (Json (sortDesc createdAt
         (filter (fun p => String.eqb (user p) userId) (payments st)))).

(** POST /api/payments *)
Definition create (env : Env) (u : User.doc) (body : Body) (st : Store)
  : Response (option doc) * Store :=
  let body := sanitize body in
  match validatePayment body with
  | (_ :: _) as errs => (respond 400 (Errors errs), st)
  | [] =>
    let body := if String.eqb (User.role u) "patient"
                then setUser body (User._id u) else body in
    match new env body with
    | None => (respond 500 (Message validationFailed), st)
    | Some payment =>
        let l := insertDoc (payments st) payment in
        (respond 201 (Json (findById _id l (_id payment))), setPayments st l)
    end
  end.

(** PUT /api/payments/:id, behind [authorize('doctor', 'assistant')].
    The status of the body is checked first; [Payment.findById] then casts
    the [:id] of the path, and the CastError of a string that is no
    ObjectId is caught by the handler and answered with 500. *)
Definition updateStatus (env : Env) (id : string) (st_new : Field Status)
  (st : Store) : Response (option doc) * Store :=
  match st_new with
  | Wellformed s =>
      match castObjectId env id with
      | CastError message => (respond 500 (Message message), st)
      | Casted id =>
          match findById _id (payments st) id with
          | None => (respond 404 (Message "Payment not found"), st)
          | Some payment =>
              let payment :=
                mk (_id payment) (user payment) (appointment payment)
                   (amount payment) s (paymentMethod payment)
                   (createdAt payment) in
              let l := replaceDoc _id (payments st) payment in
              (respond 200 (Json (findById _id l (_id payment))),
               setPayments st l)
          end
      end
  | _ => (respond 400 (Message "Invalid status"), st)
  end.

End PaymentRoutes.

(** ** routes/reminders.js *)

Module ReminderRoutes.

Import Reminder.

Definition setReminders (st : Store) (l : list doc) : Store :=
  mkStore (users st) (appointments st) (services st) (payments st) l
          (patientInfos st).

(** GET /api/reminders/user/:userId *)
Definition getByUser (u : User.doc) (userId : ObjectId) (st : Store)
  : Response (list doc) :=
  if negb (String.eqb (User._id u) userId)
     && negb (includes ["doctor"; "assistant"] (User.role u))
  then respond 403 (Message "Not authorized to view these reminders")
  else respond 200 (Json (sortAsc date
         (filter (fun r => String.eqb (user r) userId) (reminders st)))).

(** PUT /api/reminders/:id/read *)
Definition markRead (u : User.doc) (id : ObjectId) (st : Store)
  : Response doc * Store :=
  match findById _id (reminders st) id with
  | None => (respond 404 (Message "Reminder not found"), st)
  | Some reminder =>
      if negb (String.eqb (user reminder) (User._id u))
      then (respond 403
              (Message "Not authorized to update this reminder"), st)
      else
        let reminder :=
          mk (_id reminder) (user reminder) (appointment reminder)
             (title reminder) (message reminder) (date reminder) true in
        (respond 200 (Json reminder),
         setReminders st (replaceDoc _id (reminders st) reminder))
  end.

(** DELETE /api/reminders/:id *)
Definition delete (u : User.doc) (id : ObjectId) (st : Store)
  : Response unit * Store :=
  match findById _id (reminders st) id with
  | None => (respond 404 (Message "Reminder not found"), st)
  | Some reminder =>
      if negb (String.eqb (user reminder) (User._id u))
         && negb (includes ["doctor"; "assistant"] (User.role u))
      then (respond 403
              (Message "Not authorized to delete this reminder"), st)
      else (respond 200 (Message "Reminder deleted successfully"),
            setReminders st (removeDoc _id (reminders st) (_id reminder)))
  end.

End ReminderRoutes.

(** ** routes/dashboard.js

    The handlers run behind [authorize('doctor', 'assistant')]. *)

Module DashboardRoutes.

(** [Model.countDocuments(filter)] *)
Definition countDocuments {Doc} (query : Doc -> bool) (c : list Doc) : Z :=
  Z.of_nat (List.length (filter query c)).

(** One document of the result of
    [{ $group: { _id: null, total: { $sum: '$amount' } } }]. *)
Record Group := mkGroup { total : Number.t }.

(** The [$sum] accumulator over the documents of a group: from [0], the
    amounts are added as doubles in the order of the documents, and every
    addition rounds. *)
Definition sum (amounts : list Number.t) : Number.t :=
  fold_left Number.add amounts Number.zero.

(** [Payment.aggregate([{ $match: { status: 'completed' } }, { $group: ... }])]:
    grouping by the constant [null] yields one group when a document
    reaches the stage and none otherwise. *)
Definition aggregate (st : Store) : list Group :=
  match filter (fun p => Payment.Status_eqb (Payment.status p)
                                            Payment.completed)
               (payments st) with
  | [] => []
  | matched => [mkGroup (sum (map Payment.amount matched))]
  end.

Record Overview := mkOverview {
  totalPatients : Z;
  totalAppointments : Z;
  totalPayments : Z;
  totalRevenue : Number.t;
  recentPayments : list Payment.doc
}.

(** GET /api/dashboard/overview *)
Definition overview (st : Store) : Response Overview :=
  let totalPatients :=
    countDocuments (fun u => String.eqb (User.role u) "patient") (users st) in
  let totalAppointments := countDocuments (fun _ => true) (appointments st) in
  let totalPayments := countDocuments (fun _ => true) (payments st) in
  let recentPayments := firstn 5 (sortDesc Payment.createdAt (payments st)) in
  let totalRevenue := aggregate st in
  respond 200 (Json (mkOverview
    totalPatients
    totalAppointments
    totalPayments
    (match nth_error totalRevenue 0 with
     | Some g => Number.orZero (total g)
     | None => Number.zero
     end)
    recentPayments)).

(** The value of [totalRevenue] in the overview that is sent. *)
Definition revenueSent (st : Store) : option Number.t :=
  match payload (overview st) with
  | Json o => Some (totalRevenue o)
  | _ => None
  end.

End DashboardRoutes.

(** ** The router

    The requests whose authorization is decided in the handler itself,
    after [auth] has set [req.user], and the status each is answered
    with. *)

Inductive Request :=
| GET_appointments
| GET_appointment (id : ObjectId)
| GET_appointments_user (userId : ObjectId)
| POST_appointments (body : AppointmentRoutes.Body)
| PUT_appointment (id : ObjectId) (body : AppointmentRoutes.Body)
| DELETE_appointment (id : ObjectId)
| DELETE_user (id : ObjectId)
| GET_patient_info (patientId : string)
| POST_patient_info (body : UserRoutes.Body)
| PUT_patient_info (patientId : string) (body : UserRoutes.Body)
| GET_payment (id : ObjectId)
| GET_payments_user (userId : ObjectId)
| POST_payments (body : PaymentRoutes.Body)
| GET_reminders_user (userId : ObjectId)
| PUT_reminder_read (id : ObjectId)
| DELETE_reminder (id : ObjectId).

Definition reading {A} (r : Response A) (st : Store) : Z * Store :=
  (statusCode r, st).

Definition writing {A} (r : Response A * Store) : Z * Store :=
  (statusCode (fst r), snd r).

Definition serve (env : Env) (u : User.doc) (req : Request) (st : Store)
  : Z * Store :=
  match req with
  | GET_appointments => reading (AppointmentRoutes.getAll u st) st
  | GET_appointment id => reading (AppointmentRoutes.getById u id st) st
  | GET_appointments_user userId =>
      reading (AppointmentRoutes.getByUser u userId st) st
  | POST_appointments body => writing (AppointmentRoutes.create env u body st)
  | PUT_appointment id body =>
      writing (AppointmentRoutes.update env u id body st)
  | DELETE_appointment id => writing (AppointmentRoutes.cancel u id st)
  | DELETE_user id => writing (UserRoutes.deleteUser u id st)
  | GET_patient_info patientId =>
      reading (UserRoutes.getPatientInfo u patientId st) st
  | POST_patient_info body =>
      writing (UserRoutes.createPatientInfo env u body st)
  | PUT_patient_info patientId body =>
      writing (UserRoutes.updatePatientInfo env u patientId body st)
  | GET_payment id => reading (PaymentRoutes.getById u id st) st
  | GET_payments_user userId =>
      reading (PaymentRoutes.getByUser u userId st) st
  | POST_payments body => writing (PaymentRoutes.create env u body st)
  | GET_reminders_user userId =>
      reading (ReminderRoutes.getByUser u userId st) st
  | PUT_reminder_read id => writing (ReminderRoutes.markRead u id st)
  | DELETE_reminder id => writing (ReminderRoutes.delete u id st)
  end.

(** ** Vocabulary of the properties *)

Definition isStaff (u : User.doc) : Prop :=
  User.role u = "doctor" \/ User.role u = "assistant".

Definition isPatient (u : User.doc) : Prop := User.role u = "patient".

(** Wall-clock day of the week and hour of a time value on the host. *)
Definition dayOfWeek (env : Env) (tv : Z) : JsDate.weekday :=
  JsDate.weekday_of (JsDate.WeekDay (JsDate.LocalTime (LocalTZA env) tv)).

Definition hourOfDay (env : Env) (tv : Z) : Z :=
  JsDate.HourFromTime (JsDate.LocalTime (LocalTZA env) tv).

(** The bookable slots: Saturday to Wednesday, from 8:00 up to 18:00. *)
Definition bookable (env : Env) (tv : Z) : Prop :=
  In (dayOfWeek env tv)
     [JsDate.Saturday; JsDate.Sunday; JsDate.Monday; JsDate.Tuesday;
      JsDate.Wednesday]
  /\ 8 <= hourOfDay env tv < 18.

(** InvalidSchedule: status 400 with one of the working-hours messages. *)
Definition InvalidSchedule {A} (r : Response A) : Prop :=
  statusCode r = 400
  /\ exists m, payload r = Message m
     /\ In m ["Appointments can only be booked from Saturday to Wednesday";
              "Appointments can only be booked between 8 AM and 6 PM";
              "Appointments can only be scheduled from Saturday to Wednesday";
              "Appointments can only be scheduled between 8 AM and 6 PM"].

(** Conflict: status 400 with an "already exists" message. *)
Definition Conflict {A} (r : Response A) : Prop :=
  statusCode r = 400
  /\ exists m, payload r = Message m
     /\ In m ["Service with this name already exists";
              "Patient information already exists"].

(** ValidationFailed: status 400 with the errors of a validation chain. *)
Definition ValidationFailed {A} (r : Response A) : Prop :=
  statusCode r = 400 /\ exists errs, payload r = Errors errs /\ errs <> [].

(** The checks of PUT /api/appointments/:id that come before the one on
    the date: the actor is staff or the owner, a patient leaves the status
    as it is, and a new service is available. *)
Definition mayUpdate (u : User.doc) (a : Appointment.doc)
  (body : AppointmentRoutes.Body) (st : Store) : bool :=
  (includes ["doctor"; "assistant"] (User.role u)
   || String.eqb (Appointment.user a) (User._id u))
  && negb (String.eqb (User.role u) "patient"
           && match AppointmentRoutes.b_status body with
              | Wellformed s =>
                  negb (Appointment.Status_eqb s (Appointment.status a))
              | _ => false
              end)
  && negb match AppointmentRoutes.b_service body with
          | Wellformed s =>
              negb (String.eqb s (Appointment.service a))
              && AppointmentRoutes.serviceUnavailable st s
          | _ => false
          end.

(** The service of a new appointment exists and is active. *)
Definition serviceAvailable (body : AppointmentRoutes.Body) (st : Store)
  : bool :=
  match AppointmentRoutes.b_service body with
  | Wellformed s => negb (AppointmentRoutes.serviceUnavailable st s)
  | _ => false
  end.

(** The store after an accepted POST /api/appointments. *)
Definition created (st : Store) (a : Appointment.doc) : Store :=
  mkStore (users st) (insertDoc (appointments st) a) (services st)
          (payments st) (reminders st) (patientInfos st).

(** The store after an accepted PUT /api/appointments/:id. *)
Definition updated (st : Store) (a : Appointment.doc) : Store :=
  mkStore (users st) (replaceDoc Appointment._id (appointments st) a)
          (services st) (payments st) (reminders st) (patientInfos st).

(** [lastVisit] of the record of a patient, null when there is none. *)
Definition lastVisitOf (st : Store) (target : ObjectId) : option Z :=
  match UserRoutes.findOne st target with
  | Some patientInfo => PatientInfo.lastVisit patientInfo
  | None => None
  end.

(** The target of a patient-info route: the literal [me] is the caller. *)
Definition targetOf (u : User.doc) (patientId : string) : ObjectId :=
  if String.eqb patientId "me" then User._id u else patientId.

(** The requests that only the owner of the resource may make. *)
Definition ownerOnly (req : Request) : bool :=
  match req with
  | DELETE_appointment _ | PUT_reminder_read _ => true
  | _ => false
  end.

(** The request that, of the staff, only a doctor may make for any user. *)
Definition doctorOnly (req : Request) : bool :=
  match req with
  | GET_payments_user _ => true
  | _ => false
  end.

(** The sum of a list of whole numbers. *)
Fixpoint sumOf (amounts : list Z) : Z :=
  match amounts with
  | [] => 0
  | x :: rest => x + sumOf rest
  end.



(** The payments of the store that are completed. *)
Definition completedPayments (st : Store) : list Payment.doc :=
  filter (fun p => Payment.Status_eqb (Payment.status p) Payment.completed)
         (payments st).

(** ** Sample data *)

Module Sample.

(** The host keeps UTC; the clock reads Saturday 3 January 1970, 08:00. *)
(** The ids of the sample are short names: a name is an ObjectId as it
    stands, its letters in either case, and the empty string is none. *)
Definition toLowerCase (s : string) : string :=
  let lower (c : ascii) :=
    let n := nat_of_ascii c in
    if (Nat.leb 65 n && Nat.leb n 90)%bool then ascii_of_nat (n + 32) else c in
  (fix go (s : string) : string :=
     match s with
     | EmptyString => EmptyString
     | String c rest => String (lower c) (go rest)
     end) s.

Definition castSample (s : string) : Cast :=
  if String.eqb s EmptyString
  then CastError "Cast to ObjectId failed"
  else Casted (toLowerCase s).

Definition env : Env := mkEnv (fun _ => 0) 201600000 "new" true castSample.

Definition alice : User.doc := User.mk "u1" "Alice" "alice@clinic.test" "patient".
Definition bob : User.doc := User.mk "u2" "Bob" "bob@clinic.test" "patient".
Definition rho : User.doc := User.mk "d1" "Dr Rho" "rho@clinic.test" "doctor".
Definition amy : User.doc := User.mk "s1" "Amy" "amy@clinic.test" "assistant".

Definition cleaning : Service.doc :=
  Service.mk "v1" "Cleaning" (Some "Scale and polish") 30 40 true "d1".
Definition whitening : Service.doc :=
  Service.mk "v2" "Whitening" None 60 120 true "d1".

(** Alice's appointment on Sunday 4 January 1970, 09:00. *)
Definition visit : Appointment.doc :=
  Appointment.mk "a1" "u1" "d1" 291600000 Appointment.scheduled None "v1" 0.

Definition paid : Payment.doc :=
  Payment.mk "p1" "u1" "a1" (Number.ofZ 40) Payment.completed (Some "cash")
             10.
Definition due : Payment.doc :=
  Payment.mk "p2" "u2" "a1" (Number.ofZ 25) Payment.pending None 20.
Definition settled : Payment.doc :=
  Payment.mk "p3" "u2" "a1" (Number.ofZ 60) Payment.completed (Some "card")
             30.

Definition note : Reminder.doc :=
  Reminder.mk "r1" "u1" "a1" "Visit" "See you on Sunday" 250000000 false.

Definition record : PatientInfo.doc :=
  PatientInfo.mk "i1" "u1" (Some 34) (Some "female") None (Some "O+") None
                 None None None None 0 0.

Definition store : Store :=
  mkStore [alice; bob; rho; amy] [visit] [cleaning; whitening]
          [paid; due; settled] [note] [record].

(** Time values of the slots named in the specification. *)
Definition thursday_10_00 : Z := 36000000.
Definition saturday_07_59 : Z := 201540000.
Definition saturday_08_00 : Z := 201600000.
Definition wednesday_17_59 : Z := 583140000.
Definition wednesday_18_00 : Z := 583200000.

(** A booking of the cleaning with Dr Rho, sent with Bob's id as owner. *)
Definition booking (tv : Z) : AppointmentRoutes.Body :=
  AppointmentRoutes.mkBody (Wellformed "u2") (Wellformed "d1")
    (Wellformed (Some tv)) (Wellformed "v1") Absent None None.

(** The same with a status. *)
Definition bookingWithStatus (tv : Z) (s : Appointment.Status)
  : AppointmentRoutes.Body :=
  AppointmentRoutes.mkBody (Wellformed "u1") (Wellformed "d1")
    (Wellformed (Some tv)) (Wellformed "v1") (Wellformed s) None None.

(** A patch that leaves out the owner. *)
Definition patchWithoutUser : AppointmentRoutes.Body :=
  AppointmentRoutes.mkBody Absent (Wellformed "d1")
    (Wellformed (Some saturday_08_00)) (Wellformed "v1") Absent
    (Some "bring x-rays") None.

(** A payment of 40 for the visit, sent with Bob's id as payer. *)
Definition payment : PaymentRoutes.Body :=
  PaymentRoutes.mkBody (Wellformed "u2") (Wellformed "a1")
    (Wellformed (Number.ofZ 40)) Absent (Some "cash") None.

Definition noInfo : UserRoutes.Body :=
  UserRoutes.mkBody None None None None None None None None None None None.

(** Patient data with a literal [lastVisit], without the flag. *)
Definition infoWithLastVisit : UserRoutes.Body :=
  UserRoutes.mkBody None (Some 35) None None None None None None None
                    (Some 999) None.

Definition newService (n : string) : ServiceRoutes.Body :=
  ServiceRoutes.mkBody (Some n) None (Some 45) (Some 80) None.

Definition rename (n : string) : ServiceRoutes.Body :=
  ServiceRoutes.mkBody (Some n) None None None None.

End Sample.

(** More requests over the sample data. *)

Module MoreSample.

(** A booking whose date passed validation but is an Invalid Date. *)
Definition bookingInvalidDate : AppointmentRoutes.Body :=
  AppointmentRoutes.mkBody (Wellformed "u1") (Wellformed "d1")
    (Wellformed None) (Wellformed "v1") Absent None None.

(** A new service without a price. *)
Definition freeService : ServiceRoutes.Body :=
  ServiceRoutes.mkBody (Some "Checkup") None (Some 20) (Some 0) None.

(** A new service with a duration and a price. *)
Definition checkup : ServiceRoutes.Body :=
  ServiceRoutes.mkBody (Some "Checkup") None (Some 20) (Some 15) None.

(** An edit that sets the price and the duration to 0. *)
Definition makeFree : ServiceRoutes.Body :=
  ServiceRoutes.mkBody None None (Some 0) (Some 0) None.

(** An edit that takes a service out of the offer. *)
Definition withdraw : ServiceRoutes.Body :=
  ServiceRoutes.mkBody None None None None (Some false).

(** A patch with a status and nothing else. *)
Definition statusOnly : AppointmentRoutes.Body :=
  AppointmentRoutes.mkBody Absent Absent Absent Absent
    (Wellformed Appointment.completed) None None.


(** Bob's patient data, with a literal last visit and the flag. *)
Definition bobInfo : UserRoutes.Body :=
  UserRoutes.mkBody None (Some 41) (Some "male") None (Some "A+") None None
                    None None (Some 5) (Some true).

End MoreSample.

(** ** Further vocabulary *)

(** A list of documents ordered by a key, greatest first or least first. *)
Definition newestFirst {Doc} (key : Doc -> Z) (l : list Doc) : Prop :=
  StronglySorted (fun a b => key b <= key a) l.

Definition oldestFirst {Doc} (key : Doc -> Z) (l : list Doc) : Prop :=
  StronglySorted (fun a b => key a <= key b) l.

(** The user a request is about, for the requests that are about one:
    the user named in the path, or the user the addressed document belongs
    to (for an appointment or a payment that is read, as far as that user
    is still there; for an update, once the body has passed validation). *)
Definition ownerOf (u : User.doc) (st : Store) (req : Request)
  : option ObjectId :=
  match req with
  | GET_appointment id =>
      match findById Appointment._id (appointments st) id with
      | Some a =>
          match findById User._id (users st) (Appointment.user a) with
          | Some _ => Some (Appointment.user a)
          | None => None
          end
      | None => None
      end
  | GET_appointments_user userId => Some userId
  | PUT_appointment id body =>
      match AppointmentRoutes.validateAppointment body with
      | [] => option_map Appointment.user
                (findById Appointment._id (appointments st) id)
      | _ => None
      end
  | DELETE_appointment id =>
      option_map Appointment.user
        (findById Appointment._id (appointments st) id)
  | DELETE_user id => Some id
  | GET_patient_info patientId => Some (targetOf u patientId)
  | POST_patient_info body =>
      Some (or_string (UserRoutes.b_patientId body) (User._id u))
  | PUT_patient_info patientId _ => Some (targetOf u patientId)
  | GET_payment id =>
      match findById Payment._id (payments st) id with
      | Some p =>
          match findById User._id (users st) (Payment.user p) with
          | Some _ => Some (Payment.user p)
          | None => None
          end
      | None => None
      end
  | GET_payments_user userId => Some userId
  | GET_reminders_user userId => Some userId
  | PUT_reminder_read id =>
      option_map Reminder.user (findById Reminder._id (reminders st) id)
  | DELETE_reminder id =>
      option_map Reminder.user (findById Reminder._id (reminders st) id)
  | GET_appointments | POST_appointments _ | POST_payments _ => None
  end.

(** An update of an appointment that sends a status other than the one
    the appointment has. *)
Definition changesStatus (st : Store) (req : Request) : bool :=
  match req with
  | PUT_appointment id body =>
      match findById Appointment._id (appointments st) id,
            AppointmentRoutes.b_status body with
      | Some a, Wellformed s =>
          negb (Appointment.Status_eqb s (Appointment.status a))
      | _, _ => false
      end
  | _ => false
  end.

(** Every appointment of the store is at a bookable time. *)
Definition allBookable (env : Env) (st : Store) : Prop :=
  Forall (fun a => bookable env (Appointment.date a)) (appointments st).

(** No two services share an id or a name. *)
Definition servicesDistinct (st : Store) : Prop :=
  NoDup (map Service._id (services st))
  /\ NoDup (map Service.name (services st)).

(** No two records of patient data share an id or a patient. *)
Definition patientInfosDistinct (st : Store) : Prop :=
  NoDup (map PatientInfo._id (patientInfos st))
  /\ NoDup (map PatientInfo.patientId (patientInfos st)).

(** The amount of a payment as a whole number, for an amount that is
    one. *)
Definition wholeAmount (p : Payment.doc) : Z :=
  match Number.toZ (Payment.amount p) with
  | Some n => n
  | None => 0
  end.

(** The amounts of the payments are whole numbers, none negative, and add
    up to [2 ^ 53] at most. *)
Definition amountsWhole (st : Store) : Prop :=
  Forall (fun p => 0 <= wholeAmount p
                   /\ Payment.amount p = Number.ofZ (wholeAmount p))
         (payments st)
  /\ sumOf (map wholeAmount (payments st)) <= 2 ^ 53.

(** What a payment of a whole amount adds to the revenue. *)
Definition revenueOf (p : Payment.doc) : Z :=
  if Payment.Status_eqb (Payment.status p) Payment.completed
  then wholeAmount p else 0.

(** No payment of the store has a negative amount: [0 <= amount] holds of
    every one. *)
Definition amountsNonNegative (st : Store) : Prop :=
  Forall (fun p => Number.leb Number.zero (Payment.amount p) = true)
         (payments st).

(** A payment with another status. *)
Definition withStatus (p : Payment.doc) (s : Payment.Status) : Payment.doc :=
  Payment.mk (Payment._id p) (Payment.user p) (Payment.appointment p)
             (Payment.amount p) s (Payment.paymentMethod p)
             (Payment.createdAt p).

(** The appointments of a user, the payments of a user, the reminders of
    a user. *)
Definition appointmentsOf (st : Store) (userId : ObjectId)
  : list Appointment.doc :=
  filter (fun a => String.eqb (Appointment.user a) userId) (appointments st).

Definition paymentsOf (st : Store) (userId : ObjectId) : list Payment.doc :=
  filter (fun p => String.eqb (Payment.user p) userId) (payments st).

Definition remindersOf (st : Store) (userId : ObjectId) : list Reminder.doc :=
  filter (fun r => String.eqb (Reminder.user r) userId) (reminders st).

(** ** The working-hours check *)

Lemma WeekDay_range tv : 0 <= JsDate.WeekDay tv < 7.
Proof. unfold JsDate.WeekDay. apply Z.mod_pos_bound. lia. Qed.

Lemma HourFromTime_range tv : 0 <= JsDate.HourFromTime tv < 24.
Proof.
  unfold JsDate.HourFromTime, JsDate.HoursPerDay.
  apply Z.mod_pos_bound. lia.
Qed.

Lemma workingDay_spec n :
  0 <= n < 7 ->
  (existsb (Z.eqb n) [6; 0; 1; 2; 3] = true
   <-> In (JsDate.weekday_of n)
          [JsDate.Saturday; JsDate.Sunday; JsDate.Monday; JsDate.Tuesday;
           JsDate.Wednesday]).
Proof.
  intros Hn.
  assert (Hc : n = 0 \/ n = 1 \/ n = 2 \/ n = 3 \/ n = 4 \/ n = 5 \/ n = 6)
    by lia.
  destruct Hc as [-> | [-> | [-> | [-> | [-> | [-> | ->]]]]]]; simpl;
    intuition (discriminate || congruence).
Qed.

(** The two tests of the handlers let a time value through exactly when
    it is bookable. *)
Lemma workingHours_spec env tv :
  let d := Some tv in
  (includesZ [6; 0; 1; 2; 3] (JsDate.getDay (LocalTZA env) d)
   && negb (js_lt (JsDate.getHours (LocalTZA env) d) 8
            || js_ge (JsDate.getHours (LocalTZA env) d) 18)) = true
  <-> bookable env tv.
Proof.
  intros d. unfold d, bookable, dayOfWeek, hourOfDay. cbn [JsDate.getDay JsDate.getHours includesZ js_lt js_ge].
  rewrite andb_true_iff, negb_true_iff, orb_false_iff.
  rewrite workingDay_spec by apply WeekDay_range.
  rewrite Z.ltb_ge. unfold Z.geb.
  destruct (Z.compare_spec (JsDate.HourFromTime (JsDate.LocalTime (LocalTZA env) tv)) 18);
    intuition (try discriminate; try lia).
Qed.

(** ** Collections *)

Section CollectionLemmas.

Variable Doc : Type.
Variable id_of : Doc -> ObjectId.

Lemma findById_id c id d : findById id_of c id = Some d -> id_of d = id.
Proof.
  unfold findById. intros H. apply find_some in H.
  apply String.eqb_eq. exact (proj2 H).
Qed.

Lemma findById_In c id d : findById id_of c id = Some d -> In d c.
Proof. unfold findById. intros H. apply find_some in H. exact (proj1 H). Qed.

(** After [save] on a document read by its id, the id leads to the saved
    document, whatever else carries that id. *)
Lemma findById_replaceDoc c d d' :
  findById id_of c (id_of d') = Some d ->
  findById id_of (replaceDoc id_of c d') (id_of d') = Some d'.
Proof.
  unfold findById, replaceDoc. induction c as [|x c IH]; simpl.
  - discriminate.
  - destruct (String.eqb (id_of x) (id_of d')) eqn:Hx.
    + intros _. rewrite String.eqb_refl. reflexivity.
    + rewrite Hx. exact IH.
Qed.

(** Documents under another id are left as they were. *)
Lemma findById_replaceDoc_other c d' id :
  id <> id_of d' ->
  findById id_of (replaceDoc id_of c d') id = findById id_of c id.
Proof.
  intros Hne. unfold findById, replaceDoc. induction c as [|x c IH]; simpl.
  - reflexivity.
  - destruct (String.eqb (id_of x) (id_of d')) eqn:Hx.
    + apply String.eqb_eq in Hx.
      assert (Hd : String.eqb (id_of d') id = false)
        by (apply String.eqb_neq; congruence).
      rewrite Hd. rewrite Hx, Hd. exact IH.
    + destruct (String.eqb (id_of x) id); [reflexivity | exact IH].
Qed.

Lemma replaceDoc_length c d :
  List.length (replaceDoc id_of c d) = List.length c.
Proof. unfold replaceDoc. apply length_map. Qed.

End CollectionLemmas.

(** [find] after a document that matches is put in the place of the first
    match and of any other document the replacement hits. *)
Lemma find_map_replace {A} (p hit : A -> bool) (d' : A) (l : list A) d :
  find p l = Some d -> hit d = true -> p d' = true ->
  find p (map (fun x => if hit x then d' else x) l) = Some d'.
Proof.
  intros Hf Hh Hp. induction l as [|x l IH]; simpl in *.
  - discriminate.
  - destruct (p x) eqn:Hx.
    + injection Hf as ->. rewrite Hh, Hp. reflexivity.
    + destruct (hit x); [rewrite Hp; reflexivity|].
      rewrite Hx. apply IH, Hf.
Qed.

Lemma find_app_new {A} (p : A -> bool) (l : list A) d :
  find p l = None -> p d = true -> find p (l ++ [d]) = Some d.
Proof.
  intros Hf Hp. induction l as [|x l IH]; simpl in *.
  - rewrite Hp. reflexivity.
  - destruct (p x); [discriminate | apply IH, Hf].
Qed.

Lemma find_In_some {A} (p : A -> bool) (l : list A) d :
  In d l -> p d = true -> exists d', find p l = Some d'.
Proof.
  intros Hin Hp. destruct (find p l) eqn:Hf; eauto.
  exfalso. pose proof (find_none _ _ Hf _ Hin). congruence.
Qed.

(** ** White space *)

Lemma trimEnd_cons c s :
  trimEnd (String c s)
  = match trimEnd s with
    | EmptyString => if isSpace c then EmptyString else String c EmptyString
    | r => String c r
    end.
Proof. reflexivity. Qed.

Lemma trimEnd_idempotent s : trimEnd (trimEnd s) = trimEnd s.
Proof.
  induction s as [|c s IH]; trivial.
  rewrite trimEnd_cons. destruct (trimEnd s) as [|c' r] eqn:Hr.
  - destruct (isSpace c) eqn:Hc; trivial.
    rewrite trimEnd_cons. simpl. rewrite Hc. reflexivity.
  - rewrite trimEnd_cons, IH. reflexivity.
Qed.

Lemma trimStart_head s :
  trimStart s = "" \/ exists c r, trimStart s = String c r /\ isSpace c = false.
Proof.
  induction s as [|c s IH]; simpl; auto.
  destruct (isSpace c) eqn:Hc; eauto.
Qed.

Lemma trimStart_trimEnd c r :
  isSpace c = false -> trimStart (trimEnd (String c r)) = trimEnd (String c r).
Proof.
  intros Hc. simpl. destruct (trimEnd r); rewrite ?Hc; simpl; rewrite Hc;
    reflexivity.
Qed.

(** Trimming twice, in the validation chain and in the schema, is
    trimming once. *)
Lemma trim_idempotent s : trim (trim s) = trim s.
Proof.
  unfold trim.
  destruct (trimStart_head s) as [-> | (c & r & -> & Hc)]; [reflexivity|].
  rewrite trimStart_trimEnd by exact Hc. apply trimEnd_idempotent.
Qed.

(** ** Roles *)

Lemma staff_includes u :
  isStaff u -> includes ["doctor"; "assistant"] (User.role u) = true.
Proof. intros [-> | ->]; reflexivity. Qed.

Lemma staff_not_patient u :
  isStaff u -> String.eqb (User.role u) "patient" = false.
Proof. intros [-> | ->]; reflexivity. Qed.

Lemma patient_not_staff u :
  isPatient u -> includes ["doctor"; "assistant"] (User.role u) = false.
Proof. intros ->; reflexivity. Qed.

Lemma patient_eqb u : isPatient u -> String.eqb (User.role u) "patient" = true.
Proof. intros ->; reflexivity. Qed.

(** ** Appointments *)

Section AppointmentProperties.

Import Appointment AppointmentRoutes.

(** A body that passes [validateAppointment] has a well-formed user,
    doctor, date and service, and no malformed status. *)
Lemma validateAppointment_nil b :
  validateAppointment b = [] ->
  (exists u, b_user b = Wellformed u)
  /\ (exists d, b_doctor b = Wellformed d)
  /\ (exists dt, b_date b = Wellformed dt)
  /\ (exists s, b_service b = Wellformed s)
  /\ b_status b <> Malformed.
Proof.
  unfold validateAppointment, required, optional.
  destruct (b_user b), (b_doctor b), (b_date b), (b_service b), (b_status b);
    simpl; try discriminate; intros _; repeat split; eauto; discriminate.
Qed.

Lemma validateAppointment_sanitize b :
  validateAppointment (sanitize b) = validateAppointment b.
Proof. reflexivity. Qed.

(** POST /api/appointments on a validated body whose service is available
    is decided by the working-hours check alone. *)
Lemma create_validated env u body st tv :
  validateAppointment body = [] ->
  b_date body = Wellformed (Some tv) ->
  serviceAvailable body st = true ->
  (bookable env tv ->
   exists a,
     new env (if String.eqb (User.role u) "patient"
              then setUser (sanitize body) (User._id u) else sanitize body)
       = Some a
     /\ statusCode (fst (create env u body st)) = 201
     /\ snd (create env u body st) = created st a)
  /\ (~ bookable env tv ->
      InvalidSchedule (fst (create env u body st))
      /\ snd (create env u body st) = st).
Proof.
  intros Hv Hd Hs.
  destruct (validateAppointment_nil _ Hv)
    as ([bu Hu] & [bd Hdoc] & _ & [bs Hsvc] & Hst).
  pose proof (workingHours_spec env tv) as Hw. cbv zeta in Hw.
  unfold serviceAvailable in Hs. rewrite Hsvc in Hs.
  apply negb_true_iff in Hs.
  unfold create. rewrite validateAppointment_sanitize, Hv.
  set (body' := if String.eqb (User.role u) "patient"
                then setUser (sanitize body) (User._id u)
                else sanitize body).
  assert (Hsvc' : b_service body' = Wellformed bs)
    by (unfold body'; destruct (String.eqb (User.role u) "patient"); exact Hsvc).
  assert (Hd' : b_date body' = Wellformed (Some tv))
    by (unfold body'; destruct (String.eqb (User.role u) "patient"); exact Hd).
  assert (Hnew : exists a, new env body' = Some a).
  { unfold new. rewrite Hd', Hsvc'.
    assert (Hu' : exists x, b_user body' = Wellformed x)
      by (unfold body'; destruct (String.eqb (User.role u) "patient");
          simpl; eauto).
    assert (Hdoc' : b_doctor body' = Wellformed bd)
      by (unfold body'; destruct (String.eqb (User.role u) "patient");
          exact Hdoc).
    assert (Hst' : b_status body' = b_status body)
      by (unfold body'; destruct (String.eqb (User.role u) "patient");
          reflexivity).
    destruct Hu' as [x Hx]. rewrite Hx, Hdoc', Hst'. simpl.
    destruct (b_status body); simpl; eauto. congruence. }
  cbv zeta. rewrite Hsvc', Hs, Hd'.
  destruct (includesZ [6; 0; 1; 2; 3]
              (JsDate.getDay (LocalTZA env) (Some tv))) eqn:Hday;
    cbn [negb].
  - destruct (js_lt (JsDate.getHours (LocalTZA env) (Some tv)) 8
              || js_ge (JsDate.getHours (LocalTZA env) (Some tv)) 18)
      eqn:Hhour.
    + split.
      * intros Hb. apply Hw in Hb. discriminate.
      * intros _. split; [|reflexivity]. split; [reflexivity|].
        eexists. split; [reflexivity|]. simpl. auto.
    + split.
      * intros _. destruct Hnew as [a Ha]. exists a. rewrite Ha.
        repeat split; reflexivity.
      * intros Hnb. exfalso. apply Hnb, Hw. reflexivity.
  - split.
    + intros Hb. apply Hw in Hb. discriminate.
    + intros _. split; [|reflexivity]. split; [reflexivity|].
      eexists. split; [reflexivity|]. simpl. auto.
Qed.

(** [Object.assign] and [save] go through on a validated body with a valid
    date. *)
Lemma assign_validated a body tv :
  validateAppointment body = [] ->
  b_date body = Wellformed (Some tv) ->
  exists u d s,
    b_user body = Wellformed u /\ b_doctor body = Wellformed d
    /\ b_service body = Wellformed s
    /\ assign a (sanitize body)
       = Some (mk (_id a) u d tv
                  (match b_status body with
                   | Wellformed x => x
                   | _ => status a
                   end)
                  (match b_notes body with
                   | Some n => Some (trim n)
                   | None => notes a
                   end)
                  s (orElse (b_createdAt body) (createdAt a))).
Proof.
  intros Hv Hd.
  destruct (validateAppointment_nil _ Hv)
    as ([bu Hu] & [bd Hdoc] & _ & [bs Hsvc] & Hst).
  exists bu, bd, bs. repeat split; trivial.
  unfold assign, sanitize; cbn [b_user b_doctor b_date b_service b_status
                                b_notes b_createdAt].
  rewrite Hu, Hdoc, Hd, Hsvc. cbn [setPath setDate].
  destruct (b_status body); [| congruence |]; cbn [setPath];
    destruct (b_notes body); cbn [option_map]; rewrite ?trim_idempotent;
    reflexivity.
Qed.

(** PUT /api/appointments/:id on a validated body that passed the checks
    on the actor, the status and the service is decided by the
    working-hours check alone. *)
Lemma update_validated env u id body st a tv :
  validateAppointment body = [] ->
  findById _id (appointments st) id = Some a ->
  mayUpdate u a body st = true ->
  b_date body = Wellformed (Some tv) ->
  (bookable env tv ->
   exists a',
     assign a (sanitize body) = Some a'
     /\ statusCode (fst (update env u id body st)) = 200
     /\ snd (update env u id body st) = updated st a')
  /\ (~ bookable env tv ->
      InvalidSchedule (fst (update env u id body st))
      /\ snd (update env u id body st) = st).
Proof.
  intros Hv Hf Hm Hd.
  destruct (assign_validated a _ Hv Hd) as (bu & bd & bs & _ & _ & _ & Ha).
  pose proof (workingHours_spec env tv) as Hw. cbv zeta in Hw.
  unfold mayUpdate in Hm.
  apply andb_true_iff in Hm. destruct Hm as [Hm Hsvc].
  apply andb_true_iff in Hm. destruct Hm as [Hauth Hstat].
  apply negb_true_iff in Hsvc. apply negb_true_iff in Hstat.
  apply orb_true_iff in Hauth.
  unfold update. rewrite validateAppointment_sanitize, Hv, Hf. cbv zeta.
  replace (negb (includes ["doctor"; "assistant"] (User.role u))
           && negb (String.eqb (user a) (User._id u))) with false
    by (destruct Hauth as [-> | ->]; simpl;
        [reflexivity | rewrite andb_false_r; reflexivity]).
  change (b_status (sanitize body)) with (b_status body).
  change (b_service (sanitize body)) with (b_service body).
  change (b_date (sanitize body)) with (b_date body).
  rewrite Hstat, Hsvc, Hd.
  destruct (includesZ [6; 0; 1; 2; 3]
              (JsDate.getDay (LocalTZA env) (Some tv))) eqn:Hday;
    cbn [negb].
  - destruct (js_lt (JsDate.getHours (LocalTZA env) (Some tv)) 8
              || js_ge (JsDate.getHours (LocalTZA env) (Some tv)) 18)
      eqn:Hhour.
    + split.
      * intros Hb. apply Hw in Hb. discriminate.
      * intros _. split; [|reflexivity]. split; [reflexivity|].
        eexists. split; [reflexivity|]. simpl. auto.
    + split.
      * intros _. rewrite Ha. eexists. repeat split; reflexivity.
      * intros Hnb. exfalso. apply Hnb, Hw. reflexivity.
  - split.
    + intros Hb. apply Hw in Hb. discriminate.
    + intros _. split; [|reflexivity]. split; [reflexivity|].
      eexists. split; [reflexivity|]. simpl. auto 6.
Qed.

Lemma bookable_dec env tv : bookable env tv \/ ~ bookable env tv.
Proof.
  pose proof (workingHours_spec env tv) as Hw. cbv zeta in Hw.
  destruct (includesZ [6; 0; 1; 2; 3] (JsDate.getDay (LocalTZA env) (Some tv))
            && negb (js_lt (JsDate.getHours (LocalTZA env) (Some tv)) 8
                     || js_ge (JsDate.getHours (LocalTZA env) (Some tv)) 18)).
  - left. apply Hw. reflexivity.
  - right. intros Hb. apply Hw in Hb. discriminate.
Qed.

(** C1.  Once a request has reached the working-hours check (the body
    passed validation and the checks before it), creating an appointment at
    time value [tv], or moving one to [tv], is accepted if and only if the
    wall-clock day of [tv] is Saturday, Sunday, Monday, Tuesday or
    Wednesday and its wall-clock hour [h] satisfies [8 <= h < 18];
    otherwise the request fails with InvalidSchedule and nothing is
    stored. *)
Theorem working_hours_decide_booking env u body st tv :
  validateAppointment body = [] ->
  b_date body = Wellformed (Some tv) ->
  (serviceAvailable body st = true ->
   (statusCode (fst (create env u body st)) = 201 <-> bookable env tv)
   /\ (~ bookable env tv ->
       InvalidSchedule (fst (create env u body st))
       /\ snd (create env u body st) = st))
  /\ (forall id a,
       findById _id (appointments st) id = Some a ->
       mayUpdate u a body st = true ->
       (statusCode (fst (update env u id body st)) = 200 <-> bookable env tv)
       /\ (~ bookable env tv ->
           InvalidSchedule (fst (update env u id body st))
           /\ snd (update env u id body st) = st)).
Proof.
  intros Hv Hd. split.
  - intros Hs.
    destruct (create_validated env u body st Hv Hd Hs) as [Hyes Hno].
    split; [split|exact Hno].
    + intros H201. destruct (bookable_dec env tv) as [Hb | Hnb]; trivial.
      destruct (Hno Hnb) as [[H400 _] _]. rewrite H400 in H201. discriminate.
    + intros Hb. destruct (Hyes Hb) as (a & _ & H & _). exact H.
  - intros id a Hf Hm.
    destruct (update_validated env u id body st Hv Hf Hm Hd) as [Hyes Hno].
    split; [split|exact Hno].
    + intros H200. destruct (bookable_dec env tv) as [Hb | Hnb]; trivial.
      destruct (Hno Hnb) as [[H400 _] _]. rewrite H400 in H200. discriminate.
    + intros Hb. destruct (Hyes Hb) as (a' & _ & H & _). exact H.
Qed.

(** Staff are never refused by PUT /api/appointments/:id. *)
Lemma update_staff_allowed env u id body st :
  isStaff u -> ~ Forbidden (fst (update env u id body st)).
Proof.
  intros Hs. unfold Forbidden, update.
  destruct (validateAppointment (sanitize body)); [|simpl; discriminate].
  destruct (findById _id (appointments st) id); [|simpl; discriminate].
  cbv zeta. rewrite staff_includes, staff_not_patient by exact Hs.
  cbn [negb andb].
  repeat match goal with
         | |- context [if ?c then _ else _] => destruct c
         | |- context [match ?x with _ => _ end] => destruct x
         end; simpl; discriminate.
Qed.

(** C3, as the handler has it.  The status check comes after the
    validation of the body and before the checks of the date and of the
    service.  A patient who sends, for an appointment of their own, an
    update that passes [validateAppointment] (a well-formed user, doctor, date
    and service) with a status other than the current one is refused with
    Forbidden and the store is left as it was; staff sending the identical
    update are not refused, and the update is stored with the new status
    when its date is bookable and its service passes the service check. *)
Theorem patient_cannot_change_status env u staff id body st a s :
  validateAppointment body = [] ->
  findById _id (appointments st) id = Some a ->
  isPatient u ->
  user a = User._id u ->
  b_status body = Wellformed s ->
  s <> status a ->
  isStaff staff ->
  (Forbidden (fst (update env u id body st))
   /\ snd (update env u id body st) = st)
  /\ ~ Forbidden (fst (update env staff id body st))
  /\ (forall tv,
       b_date body = Wellformed (Some tv) ->
       bookable env tv ->
       mayUpdate staff a body st = true ->
       exists a',
         statusCode (fst (update env staff id body st)) = 200
         /\ snd (update env staff id body st) = updated st a'
         /\ findById _id (appointments (updated st a')) id = Some a'
         /\ status a' = s).
Proof.
  intros Hv Hf Hp Hown Hst Hne Hstaff. split; [|split].
  - unfold update. rewrite validateAppointment_sanitize, Hv, Hf. cbv zeta.
    rewrite patient_not_staff, patient_eqb by exact Hp.
    rewrite Hown, String.eqb_refl. cbn [negb andb].
    change (b_status (sanitize body)) with (b_status body). rewrite Hst.
    assert (Hs : Status_eqb s (status a) = false)
      by (destruct s, (status a); trivial; congruence).
    rewrite Hs. split; reflexivity.
  - apply update_staff_allowed, Hstaff.
  - intros tv Hd Hb Hm.
    destruct (update_validated env staff id body st Hv Hf Hm Hd) as [Hyes _].
    destruct (Hyes Hb) as (a' & Ha & H200 & Hsnd).
    destruct (assign_validated a _ Hv Hd) as (bu & bd & bs & _ & _ & _ & Ha').
    rewrite Ha' in Ha. injection Ha as <-.
    eexists. split; [exact H200|]. split; [exact Hsnd|]. split.
    + unfold updated; cbn [appointments].
      rewrite <- (findById_id _ _ _ Hf) in Hf |- *.
      apply (findById_replaceDoc _id (appointments st)
               (d := a) (mk (_id a) bu bd tv _ _ bs _)).
      exact Hf.
    + cbn [status]. rewrite Hst. reflexivity.
Qed.

(** A body without a well-formed user, doctor, date or service does not
    pass [validateAppointment]. *)
Lemma validateAppointment_required b :
  isWellformed (b_user b) && isWellformed (b_doctor b)
  && isWellformed (b_date b) && isWellformed (b_service b) = false ->
  validateAppointment b <> [].
Proof.
  intros H Hv. destruct (validateAppointment_nil _ Hv)
    as ([? Hu] & [? Hd] & [? Hdt] & [? Hs] & _).
  rewrite Hu, Hd, Hdt, Hs in H. discriminate.
Qed.

(** An update that passes every check is answered with 200 and stored:
    the fields of the body that are present are applied, the others are
    kept, and no other appointment is touched. *)
Lemma update_accepted env u id st body a tv :
  validateAppointment body = [] ->
  findById _id (appointments st) id = Some a ->
  mayUpdate u a body st = true ->
  b_date body = Wellformed (Some tv) ->
  bookable env tv ->
  exists a',
    statusCode (fst (update env u id body st)) = 200
    /\ snd (update env u id body st) = updated st a'
    /\ findById _id (appointments (updated st a')) id = Some a'
    /\ _id a' = _id a
    /\ b_user body = Wellformed (user a')
    /\ b_doctor body = Wellformed (doctor a')
    /\ date a' = tv
    /\ b_service body = Wellformed (service a')
    /\ (forall x, b_status body = Wellformed x -> status a' = x)
    /\ (b_status body = Absent -> status a' = status a)
    /\ (forall n, b_notes body = Some n -> notes a' = Some (trim n))
    /\ (b_notes body = None -> notes a' = notes a)
    /\ (forall c, b_createdAt body = Some c -> createdAt a' = c)
    /\ (b_createdAt body = None -> createdAt a' = createdAt a)
    /\ (forall id', id' <> id ->
        findById _id (appointments (updated st a')) id'
        = findById _id (appointments st) id').
Proof.
  intros Hv Hf Hm Hd Hb.
  destruct (update_validated env u id body st Hv Hf Hm Hd) as [Hyes _].
  destruct (Hyes Hb) as (a' & Ha & H200 & Hsnd).
  destruct (assign_validated a _ Hv Hd)
    as (bu & bd & bs & Hu & Hdoc & Hsvc & Ha').
  rewrite Ha' in Ha. injection Ha as <-.
  pose proof (findById_id _ _ _ Hf) as Hid.
  eexists. split; [exact H200|]. split; [exact Hsnd|].
  cbn [_id user doctor date service status notes createdAt].
  repeat split; trivial.
  + unfold updated; cbn [appointments]. rewrite <- Hid in Hf |- *.
    apply (findById_replaceDoc _id (appointments st)
             (d := a) (mk (_id a) bu bd tv _ _ bs _)).
    exact Hf.
  + intros x ->. reflexivity.
  + intros ->. reflexivity.
  + intros n ->. reflexivity.
  + intros ->. reflexivity.
  + intros c ->. reflexivity.
  + intros ->. reflexivity.
  + intros id' Hne. unfold updated; cbn [appointments].
    apply findById_replaceDoc_other. cbn [_id]. congruence.
Qed.

(** C5, as the handler has it.  An update has to carry a well-formed user,
    doctor, date and service: without one of them it is rejected with
    ValidationFailed and nothing is stored.  Of an update that is accepted,
    the fields that are present are applied (the notes trimmed); status,
    notes and [createdAt], when absent, keep their prior value, and so do
    the id of the appointment, every other appointment and every other
    collection. *)
Theorem update_applies_present_fields env u id st :
  (forall body,
     isWellformed (b_user body) && isWellformed (b_doctor body)
     && isWellformed (b_date body) && isWellformed (b_service body) = false ->
     ValidationFailed (fst (update env u id body st))
     /\ snd (update env u id body st) = st)
  /\ (forall body a tv,
       validateAppointment body = [] ->
       findById _id (appointments st) id = Some a ->
       mayUpdate u a body st = true ->
       b_date body = Wellformed (Some tv) ->
       bookable env tv ->
       exists a',
         statusCode (fst (update env u id body st)) = 200
         /\ snd (update env u id body st) = updated st a'
         /\ findById _id (appointments (updated st a')) id = Some a'
         /\ _id a' = _id a
         /\ b_user body = Wellformed (user a')
         /\ b_doctor body = Wellformed (doctor a')
         /\ date a' = tv
         /\ b_service body = Wellformed (service a')
         /\ (forall x, b_status body = Wellformed x -> status a' = x)
         /\ (b_status body = Absent -> status a' = status a)
         /\ (forall n, b_notes body = Some n -> notes a' = Some (trim n))
         /\ (b_notes body = None -> notes a' = notes a)
         /\ (forall c, b_createdAt body = Some c -> createdAt a' = c)
         /\ (b_createdAt body = None -> createdAt a' = createdAt a)
         /\ (forall id', id' <> id ->
             findById _id (appointments (updated st a')) id'
             = findById _id (appointments st) id')).
Proof.
  split.
  - intros body Hmiss. apply validateAppointment_required in Hmiss.
    unfold update. rewrite validateAppointment_sanitize.
    destruct (validateAppointment body) as [|e errs] eqn:Hv; [congruence|].
    split; [|reflexivity]. split; [reflexivity|].
    exists (e :: errs). split; [reflexivity | discriminate].
  - intros body a tv. apply update_accepted.
Qed.

(** C10.  An update that passes the checks of the handler (the actor is
    the owner or staff, a patient leaves the status alone, the service and
    the date are accepted) and names a user other than the current owner
    is stored with that user as owner: the update path does not force the
    owner to be the caller. *)
Theorem update_transfers_ownership env u id body st a tv x :
  validateAppointment body = [] ->
  findById _id (appointments st) id = Some a ->
  mayUpdate u a body st = true ->
  b_date body = Wellformed (Some tv) ->
  bookable env tv ->
  b_user body = Wellformed x ->
  x <> user a ->
  exists a',
    statusCode (fst (update env u id body st)) = 200
    /\ findById _id (appointments (snd (update env u id body st))) id
       = Some a'
    /\ user a' = x
    /\ user a' <> user a.
Proof.
  intros Hv Hf Hm Hd Hb Hx Hne.
  destruct (@update_accepted env u id st body a tv Hv Hf Hm Hd Hb)
    as (a' & H200 & Hsnd & Hfind & _ & Hu & _).
  rewrite Hx in Hu. injection Hu as ->.
  exists a'. rewrite Hsnd. repeat split; trivial.
Qed.

End AppointmentProperties.

(** ** Ownership of new records *)

Ltac case_handler H :=
  repeat match type of H with
         | context [match ?x with _ => _ end] =>
             destruct x eqn:?; cbn [fst snd statusCode] in H;
             try discriminate H
         end.

Lemma appointment_new_setUser env b id a :
  AppointmentRoutes.new env (AppointmentRoutes.setUser b id) = Some a ->
  Appointment.user a = id.
Proof.
  unfold AppointmentRoutes.new, AppointmentRoutes.setUser; simpl.
  intros H. case_handler H. injection H as <-. reflexivity.
Qed.

Lemma payment_new_setUser env b id p :
  PaymentRoutes.new env (PaymentRoutes.setUser b id) = Some p ->
  Payment.user p = id.
Proof.
  unfold PaymentRoutes.new, PaymentRoutes.setUser; simpl.
  intros H. case_handler H; injection H as <-; reflexivity.
Qed.

(** C4.  When a patient creates an appointment or a payment and a record
    is stored (the request is answered with 201), the record is appended
    with the patient's own id as its user, whatever user the body named. *)
Theorem patient_create_forces_owner env u st :
  isPatient u ->
  (forall body,
     statusCode (fst (AppointmentRoutes.create env u body st)) = 201 ->
     exists a,
       snd (AppointmentRoutes.create env u body st) = created st a
       /\ Appointment.user a = User._id u)
  /\ (forall body,
        statusCode (fst (PaymentRoutes.create env u body st)) = 201 ->
        exists p,
          snd (PaymentRoutes.create env u body st)
          = PaymentRoutes.setPayments st (insertDoc (payments st) p)
          /\ Payment.user p = User._id u).
Proof.
  intros Hp. split; intros body H201.
  - unfold AppointmentRoutes.create in *. cbv zeta in *.
    rewrite (patient_eqb Hp) in *.
    case_handler H201.
    eexists. split; [reflexivity|].
    eapply appointment_new_setUser; eassumption.
  - unfold PaymentRoutes.create in *. cbv zeta in *.
    rewrite (patient_eqb Hp) in *.
    case_handler H201.
    eexists. split; [reflexivity|].
    eapply payment_new_setUser; eassumption.
Qed.

(** ** Staff access *)

Ltac case_goal :=
  repeat match goal with
         | |- context [if ?c then _ else _] => destruct c
         | |- context [match ?x with _ => _ end] => destruct x
         end.

Lemma doctor_includes u :
  User.role u = "doctor" -> includes ["doctor"] (User.role u) = true.
Proof. intros ->. reflexivity. Qed.

(** Staff pass every check that a handler makes on the actor, except the
    two that ask for the owner. *)
Lemma staff_not_refused env u st req :
  isStaff u ->
  ownerOnly req = false ->
  (doctorOnly req = true -> User.role u = "doctor") ->
  fst (serve env u req st) <> 403.
Proof.
  intros Hs Ho Hd.
  destruct req; try discriminate Ho; cbn [serve reading writing fst].
  - discriminate.
  - unfold AppointmentRoutes.getById.
    rewrite staff_not_patient by exact Hs. case_goal; simpl; discriminate.
  - unfold AppointmentRoutes.getByUser.
    rewrite staff_includes by exact Hs. cbn [negb]. rewrite andb_false_r.
    simpl; discriminate.
  - unfold AppointmentRoutes.create. cbv zeta.
    case_goal; simpl; discriminate.
  - apply (update_staff_allowed env id body st Hs).
  - unfold UserRoutes.deleteUser.
    rewrite staff_includes by exact Hs. cbn [negb]. rewrite andb_false_r.
    case_goal; simpl; discriminate.
  - unfold UserRoutes.getPatientInfo. cbv zeta.
    rewrite staff_includes by exact Hs. cbn [negb]. rewrite andb_false_r.
    case_goal; simpl; discriminate.
  - unfold UserRoutes.createPatientInfo. cbv zeta.
    rewrite staff_includes by exact Hs. cbn [negb]. rewrite andb_false_r.
    case_goal; simpl; discriminate.
  - unfold UserRoutes.updatePatientInfo. cbv zeta.
    rewrite staff_includes by exact Hs. cbn [negb]. rewrite andb_false_r.
    case_goal; simpl; discriminate.
  - unfold PaymentRoutes.getById.
    rewrite staff_includes by exact Hs. cbn [negb].
    destruct (findById Payment._id (payments st) id) as [payment|];
      [|simpl; discriminate].
    destruct (findById User._id (users st) (Payment.user payment));
      [|simpl; discriminate].
    rewrite andb_false_r. simpl; discriminate.
  - unfold PaymentRoutes.getByUser.
    rewrite doctor_includes by (apply Hd; reflexivity).
    cbn [negb]. rewrite andb_false_r. simpl; discriminate.
  - unfold PaymentRoutes.create. cbv zeta.
    case_goal; simpl; discriminate.
  - unfold ReminderRoutes.getByUser.
    rewrite staff_includes by exact Hs. cbn [negb]. rewrite andb_false_r.
    simpl; discriminate.
  - unfold ReminderRoutes.delete.
    rewrite staff_includes by exact Hs. cbn [negb].
    destruct (findById Reminder._id (reminders st) id);
      [|simpl; discriminate].
    rewrite andb_false_r. simpl; discriminate.
Qed.

(** C2, as the handlers have it.  An actor whose role is doctor or
    assistant passes the check on the actor of every handler that makes
    one (reading, listing, creating and updating appointments, deleting a
    user, reading, creating and updating patient data, reading and creating
    payments, listing and deleting reminders), whoever owns the resource,
    and a doctor also passes the one on listing a user's payments; the
    exceptions are the cancellation of an appointment and the marking of a
    reminder as read, which are refused with Forbidden, the store untouched,
    to staff who are not the owner of the appointment or the addressee of
    the reminder. *)
Theorem staff_access env u st :
  isStaff u ->
  (forall req,
     ownerOnly req = false ->
     (doctorOnly req = true -> User.role u = "doctor") ->
     fst (serve env u req st) <> 403)
  /\ (forall id a,
        findById Appointment._id (appointments st) id = Some a ->
        Appointment.user a <> User._id u ->
        serve env u (DELETE_appointment id) st = (403, st))
  /\ (forall id r,
        findById Reminder._id (reminders st) id = Some r ->
        Reminder.user r <> User._id u ->
        serve env u (PUT_reminder_read id) st = (403, st)).
Proof.
  intros Hs. split; [|split].
  - intros req. apply staff_not_refused, Hs.
  - intros id a Hf Hne. cbn [serve writing].
    unfold AppointmentRoutes.cancel. rewrite Hf.
    apply String.eqb_neq in Hne. rewrite Hne. reflexivity.
  - intros id r Hf Hne. cbn [serve writing].
    unfold ReminderRoutes.markRead. rewrite Hf.
    apply String.eqb_neq in Hne. rewrite Hne. reflexivity.
Qed.

(** ** Services *)

Section ServiceProperties.

Import Service ServiceRoutes.

Lemma findOne_held st other :
  In other (services st) -> exists e, findOne st (name other) = Some e.
Proof.
  intros Hin. unfold findOne.
  apply (find_In_some _ _ other Hin). apply String.eqb_refl.
Qed.

(** C6.  While a service holds a name, creating a service with that name
    is answered with 400 and stores nothing, with Conflict when the request
    carries a duration and a price; renaming another service to that name
    fails with Conflict and stores nothing. *)
Theorem service_name_conflict env u st other body :
  In other (services st) ->
  b_name body = Some (name other) ->
  name other <> "" ->
  (statusCode (fst (create env u body st)) = 400
   /\ snd (create env u body st) = st
   /\ (truthy_number (b_duration body) = true ->
       truthy_number (b_price body) = true ->
       Conflict (fst (create env u body st))))
  /\ (forall id service,
        findById _id (services st) id = Some service ->
        name service <> name other ->
        Conflict (fst (edit id body st)) /\ snd (edit id body st) = st).
Proof.
  intros Hin Hname Hne.
  destruct (findOne_held st other Hin) as [e He].
  assert (Ht : truthy_string (b_name body) = true).
  { rewrite Hname. simpl. apply negb_true_iff, String.eqb_neq, Hne. }
  split.
  - unfold create. rewrite Ht. cbn [negb orb]. rewrite Hname.
    cbn [orElse]. rewrite He.
    destruct (truthy_number (b_duration body)),
             (truthy_number (b_price body)); cbn [negb orb fst snd statusCode];
      repeat split; try discriminate.
    eexists. split; [reflexivity|]. simpl. auto.
  - intros id service Hf Hdiff. unfold edit. rewrite Hf, Hname, He.
    apply String.eqb_neq in Hne. rewrite Hne.
    assert (Hd : String.eqb (name other) (name service) = false)
      by (apply String.eqb_neq; congruence).
    rewrite Hd. cbn [negb andb fst snd].
    repeat split. eexists. split; [reflexivity|]. simpl. auto.
Qed.

End ServiceProperties.

(** ** Patient data *)

Section PatientInfoProperties.

Import PatientInfo UserRoutes.

(** The actor may act on the target: it is the actor's own id, or the
    actor is staff. *)
Lemma patientInfo_gate u target :
  User._id u = target \/ isStaff u ->
  negb (String.eqb (User._id u) target)
  && negb (includes ["doctor"; "assistant"] (User.role u)) = false.
Proof.
  intros [<- | Hs].
  - rewrite String.eqb_refl. reflexivity.
  - rewrite staff_includes by exact Hs. apply andb_false_r.
Qed.

Lemma setField_None {A} (new : option A) : setField new None = new.
Proof. destruct new; reflexivity. Qed.

(** C7.  For an actor allowed to act on a patient (the patient or staff):
    POST /api/users/patient-info fails with Conflict and stores nothing
    when the patient has a record; PUT /api/users/patient-info/:patientId
    with fields the schema accepts succeeds when the patient has no record,
    by appending a new record of that patient. *)
Theorem patient_info_create_and_upsert env u st :
  (forall body existing,
     let target := or_string (b_patientId body) (User._id u) in
     User._id u = target \/ isStaff u ->
     findOne st target = Some existing ->
     Conflict (fst (createPatientInfo env u body st))
     /\ snd (createPatientInfo env u body st) = st
     /\ findOne (snd (createPatientInfo env u body st)) target
        = Some existing)
  /\ (forall patientId body,
        let target := targetOf u patientId in
        User._id u = target \/ isStaff u ->
        findOne st target = None ->
        enumOk genders (b_gender body) && enumOk bloodTypes (b_bloodType body)
        = true ->
        exists patientInfo,
          fst (updatePatientInfo env u patientId body st)
          = respond 200 (Json patientInfo)
          /\ snd (updatePatientInfo env u patientId body st)
             = setPatientInfos st (patientInfos st ++ [patientInfo])
          /\ PatientInfo.patientId patientInfo = target
          /\ findOne (snd (updatePatientInfo env u patientId body st)) target
             = Some patientInfo).
Proof.
  split.
  - intros body existing target Hauth Hf.
    unfold createPatientInfo. fold target.
    rewrite (patientInfo_gate Hauth), Hf. cbn [fst snd].
    repeat split; trivial. eexists. split; [reflexivity|]. simpl. auto.
  - intros patientId body target Hauth Hf Hok.
    unfold updatePatientInfo. unfold targetOf in target. fold target.
    cbv zeta. rewrite (patientInfo_gate Hauth), Hf.
    unfold validate.
    cbn [gender bloodType _id PatientInfo.patientId].
    rewrite !setField_None, Hok. cbn [fst snd].
    eexists. split; [reflexivity|]. split; [reflexivity|].
    split; [reflexivity|].
    unfold findOne, setPatientInfos, insertDoc; cbn [patientInfos].
    apply find_app_new; [exact Hf|]. cbn [PatientInfo.patientId].
    apply String.eqb_refl.
Qed.



End PatientInfoProperties.

(** ** Doubles *)

Section NumberProperties.

Lemma iter_pos_nat {A} (f : A -> A) p x :
  iter_pos f p x = Nat.iter (Pos.to_nat p) f x.
Proof.
  revert x. induction p as [p IH|p IH|]; intros x; cbn [iter_pos].
  - rewrite !IH. rewrite Pos2Nat.inj_xI.
    replace (S (2 * Pos.to_nat p))%nat
      with (Pos.to_nat p + (Pos.to_nat p + 1))%nat by lia.
    rewrite !Nat.iter_add. simpl. reflexivity.
  - rewrite !IH. rewrite Pos2Nat.inj_xO.
    replace (2 * Pos.to_nat p)%nat
      with (Pos.to_nat p + Pos.to_nat p)%nat by lia.
    rewrite Nat.iter_add. reflexivity.
  - reflexivity.
Qed.

Lemma Pos_iter_shl m d : Pos.iter xO m d = Number.shl m (Pos.to_nat d).
Proof. unfold Number.shl. rewrite Pos2Nat.inj_iter. reflexivity. Qed.

Lemma shr_nat mrs e n :
  shr mrs e n = (Nat.iter (Z.to_nat n) shr_1 mrs, e + Z.max n 0).
Proof.
  unfold shr. destruct n as [|p|p]; simpl.
  - f_equal. lia.
  - rewrite iter_pos_nat. f_equal.
  - f_equal. lia.
Qed.

Lemma shr_1_even p :
  shr_1 (Build_shr_record (Zpos (xO p)) false false)
  = Build_shr_record (Zpos p) false false.
Proof. reflexivity. Qed.

Lemma shl_S m k : Number.shl m (S k) = xO (Number.shl m k).
Proof. reflexivity. Qed.

(** Shifting to the right what was shifted to the left loses nothing. *)
Lemma shr_shl m k :
  Nat.iter k shr_1 (Build_shr_record (Zpos (Number.shl m k)) false false)
  = Build_shr_record (Zpos m) false false.
Proof.
  induction k as [|k IH]; [reflexivity|].
  rewrite Nat.iter_succ_r, shl_S, shr_1_even. exact IH.
Qed.

Lemma digits_shl m k :
  Zpos (digits2_pos (Number.shl m k)) = Zpos (digits2_pos m) + Z.of_nat k.
Proof.
  induction k as [|k IH].
  - simpl. lia.
  - rewrite shl_S. cbn [digits2_pos]. rewrite Pos2Z.inj_succ, IH. lia.
Qed.

Lemma shl_add m j k :
  Number.shl (Number.shl m j) k = Number.shl m (j + k).
Proof. unfold Number.shl. rewrite Nat.add_comm, Nat.iter_add. reflexivity. Qed.

Lemma shl_plus a b k :
  (Number.shl a k + Number.shl b k)%positive = Number.shl (a + b) k.
Proof.
  induction k as [|k IH]; [reflexivity|].
  rewrite !shl_S, <- IH. reflexivity.
Qed.

Lemma shl_pow m k : Zpos (Number.shl m k) = Zpos m * 2 ^ Z.of_nat k.
Proof.
  induction k as [|k IH]; [simpl; lia|].
  rewrite shl_S, Pos2Z.inj_xO, IH, Nat2Z.inj_succ, Z.pow_succ_r by lia. lia.
Qed.

Lemma shl_align_nat mx ex ex' :
  shl_align mx ex ex' = (Number.shl mx (Z.to_nat (ex - ex')), Z.min ex ex').
Proof.
  unfold shl_align. destruct (ex' - ex) as [|p|p] eqn:H.
  - replace (Z.to_nat (ex - ex')) with 0%nat by lia. simpl. f_equal. lia.
  - replace (Z.to_nat (ex - ex')) with 0%nat by lia. simpl. f_equal. lia.
  - rewrite Pos_iter_shl. f_equal; [f_equal|]; lia.
Qed.

Lemma binary_round_aux_stage s m1 e1 l1 m2 e2 l2 :
  shr_fexp Number.prec Number.emax m1 e1 l1
  = shr_fexp Number.prec Number.emax m2 e2 l2 ->
  binary_round_aux Number.prec Number.emax s m1 e1 l1
  = binary_round_aux Number.prec Number.emax s m2 e2 l2.
Proof. intros H. unfold binary_round_aux. rewrite H. reflexivity. Qed.

Lemma shr_fexp_shl m e j :
  e - Z.of_nat j <= fexp Number.prec Number.emax (Zpos (digits2_pos m) + e) ->
  shr_fexp Number.prec Number.emax (Zpos (Number.shl m j)) (e - Z.of_nat j)
    loc_Exact
  = (Nat.iter
       (Z.to_nat
          (fexp Number.prec Number.emax (Zpos (digits2_pos m) + e) - e))
       shr_1
       (Build_shr_record
          (Zpos (Number.shl m
                   (Z.to_nat
                      (e - fexp Number.prec Number.emax
                             (Zpos (digits2_pos m) + e)))))
          false false),
     fexp Number.prec Number.emax (Zpos (digits2_pos m) + e)).
Proof.
  set (E := fexp Number.prec Number.emax (Zpos (digits2_pos m) + e)).
  intros H. unfold shr_fexp. cbn [Zdigits2]. rewrite digits_shl.
  replace (Zpos (digits2_pos m) + Z.of_nat j + (e - Z.of_nat j))
    with (Zpos (digits2_pos m) + e) by lia.
  fold E. rewrite shr_nat. cbn [shr_record_of_loc].
  f_equal; [|lia].
  replace (Z.to_nat (E - (e - Z.of_nat j)))
    with (Z.to_nat (E - e) + (j - Z.to_nat (e - E)))%nat by lia.
  replace j with (Z.to_nat (e - E) + (j - Z.to_nat (e - E)))%nat at 2 by lia.
  rewrite <- shl_add, Nat.iter_add, shr_shl. reflexivity.
Qed.

(** Rounding does not tell [m * 2 ^ k] at exponent [e - k] from [m] at
    exponent [e]. *)
Lemma binary_round_shl s m e k :
  binary_round Number.prec Number.emax s (Number.shl m k) (e - Z.of_nat k)
  = binary_round Number.prec Number.emax s m e.
Proof.
  unfold binary_round. rewrite !shl_align_nat.
  rewrite digits_shl.
  replace (Zpos (digits2_pos m) + Z.of_nat k + (e - Z.of_nat k))
    with (Zpos (digits2_pos m) + e) by lia.
  set (E := fexp Number.prec Number.emax (Zpos (digits2_pos m) + e)).
  rewrite shl_add.
  apply binary_round_aux_stage.
  set (j1 := (k + Z.to_nat (e - Z.of_nat k - E))%nat).
  set (j2 := Z.to_nat (e - E)).
  replace (Z.min (e - Z.of_nat k) E) with (e - Z.of_nat j1) by lia.
  replace (Z.min e E) with (e - Z.of_nat j2) by lia.
  rewrite !shr_fexp_shl by (fold E; lia). reflexivity.
Qed.

(** A mantissa of [prec] digits with an exponent in range is kept as it
    is. *)
Lemma binary_round_canonical s m e :
  Zpos (digits2_pos m) = Number.prec ->
  3 - Number.emax - Number.prec <= e <= Number.emax - Number.prec ->
  binary_round Number.prec Number.emax s m e = S754_finite s m e.
Proof.
  intros Hd He. unfold binary_round. rewrite shl_align_nat, Hd.
  assert (HE : fexp Number.prec Number.emax (Number.prec + e) = e)
    by (unfold fexp, emin, Number.prec, Number.emax in *; lia).
  rewrite HE.
  replace (Z.to_nat (e - e)) with 0%nat by lia.
  replace (Z.min e e) with e by lia. change (Number.shl m 0) with m.
  assert (Hs : shr_fexp Number.prec Number.emax (Zpos m) e loc_Exact
               = (Build_shr_record (Zpos m) false false, e)).
  { pose proof (@shr_fexp_shl m e 0) as H.
    change (Number.shl m 0) with m in H.
    rewrite Hd, HE in H. replace (e - Z.of_nat 0) with e in H by lia.
    rewrite H by lia. replace (Z.to_nat (e - e)) with 0%nat by lia.
    reflexivity. }
  cbv beta iota.
  unfold binary_round_aux. rewrite Hs. cbv beta iota.
  cbn [shr_m shr_r shr_s loc_of_shr_record round_nearest_even].
  rewrite Hs. cbv beta iota. cbn [shr_m].
  destruct (Z.leb_spec e (Number.emax - Number.prec)); [reflexivity | lia].
Qed.

Lemma digits2_size m : digits2_pos m = Pos.size m.
Proof. induction m; simpl; congruence. Qed.

Lemma digits_bound m :
  Zpos m < 2 ^ Number.prec -> Zpos (digits2_pos m) <= Number.prec.
Proof.
  intros H. rewrite digits2_size.
  pose proof (Pos.size_le m) as Hle.
  destruct (Z_le_gt_dec (Zpos (Pos.size m)) Number.prec) as [|Hgt]; trivial.
  exfalso.
  assert (H2 : 2 ^ (Number.prec + 1) <= 2 ^ Zpos (Pos.size m))
    by (apply Z.pow_le_mono_r; lia).
  assert (H3 : 2 ^ Zpos (Pos.size m) <= Zpos (m~0)).
  { rewrite <- Pos2Z.inj_pow. apply Pos2Z.pos_le_pos. exact Hle. }
  rewrite Z.pow_add_r in H2 by (unfold Number.prec; lia).
  rewrite Pos2Z.inj_xO in H3. lia.
Qed.

(** The double of a positive integer below [2 ^ 53] is that integer. *)
Lemma ofZ_pos m :
  Zpos m < 2 ^ Number.prec -> Number.ofZ (Zpos m) = Number.ofPos m.
Proof.
  intros H. apply digits_bound in H.
  unfold Number.ofZ, binary_normalize, Number.ofPos.
  set (k := Z.to_nat (Number.prec - Zpos (digits2_pos m))).
  rewrite <- (binary_round_shl false m 0 k).
  apply binary_round_canonical.
  - rewrite digits_shl. lia.
  - unfold Number.prec, Number.emax in *. lia.
Qed.

(** The sum of two such doubles is the double nearest to the sum of the
    integers. *)
Lemma add_ofPos a b :
  Number.add (Number.ofPos a) (Number.ofPos b) = Number.ofZ (Zpos (a + b)).
Proof.
  unfold Number.ofPos.
  set (ka := Z.to_nat (Number.prec - Zpos (digits2_pos a))).
  set (kb := Z.to_nat (Number.prec - Zpos (digits2_pos b))).
  unfold Number.add, SFadd. cbn [cond_Zopp]. rewrite !shl_align_nat.
  cbn [fst]. rewrite !shl_add.
  set (K := Nat.max ka kb).
  replace (ka + Z.to_nat (- Z.of_nat ka
                          - Z.min (- Z.of_nat ka) (- Z.of_nat kb)))%nat
    with K by lia.
  replace (kb + Z.to_nat (- Z.of_nat kb
                          - Z.min (- Z.of_nat ka) (- Z.of_nat kb)))%nat
    with K by lia.
  replace (Z.min (- Z.of_nat ka) (- Z.of_nat kb)) with (0 - Z.of_nat K)
    by lia.
  change (Zpos (Number.shl a K) + Zpos (Number.shl b K))
    with (Zpos (Number.shl a K + Number.shl b K)).
  rewrite shl_plus. unfold binary_normalize, Number.ofZ.
  apply binary_round_shl.
Qed.

(** Whole numbers that add up to [2 ^ 53] at most are added exactly. *)
Lemma add_ofZ a b :
  0 <= a -> 0 <= b -> a + b <= 2 ^ 53 ->
  Number.add (Number.ofZ a) (Number.ofZ b) = Number.ofZ (a + b).
Proof.
  change (2 ^ 53) with 9007199254740992. intros Ha Hb Hab.
  destruct a as [|a|a]; [|destruct b as [|b|b]|]; try lia.
  - cbn [Z.add]. destruct b as [|b|b]; try lia; [reflexivity|].
    destruct (Z.eq_dec (Zpos b) 9007199254740992) as [-> | Hn];
      [reflexivity|].
    rewrite ofZ_pos
      by (change (2 ^ Number.prec) with 9007199254740992; lia).
    reflexivity.
  - rewrite Z.add_0_r.
    destruct (Z.eq_dec (Zpos a) 9007199254740992) as [-> | Hn];
      [reflexivity|].
    rewrite ofZ_pos
      by (change (2 ^ Number.prec) with 9007199254740992; lia).
    reflexivity.
  - rewrite !ofZ_pos
      by (change (2 ^ Number.prec) with 9007199254740992; lia).
    apply add_ofPos.
Qed.

(** A whole number up to [2 ^ 53] is read back from its double. *)
Lemma toZ_ofZ n : 0 <= n <= 2 ^ 53 -> Number.toZ (Number.ofZ n) = Some n.
Proof.
  change (2 ^ 53) with 9007199254740992. intros [H0 H1].
  destruct n as [|m|m]; try lia; [reflexivity|].
  destruct (Z.eq_dec (Zpos m) 9007199254740992) as [-> | Hn];
    [reflexivity|].
  rewrite ofZ_pos by (change (2 ^ Number.prec) with 9007199254740992; lia).
  unfold Number.ofPos, Number.toZ.
  set (k := Z.to_nat (Number.prec - Zpos (digits2_pos m))).
  rewrite shl_pow. cbn [cond_Zopp].
  destruct (Z.leb_spec 0 (- Z.of_nat k)) as [Hk | Hk].
  - replace (- Z.of_nat k) with 0 by lia.
    replace (Z.of_nat k) with 0 by lia. f_equal. simpl. lia.
  - rewrite Z.opp_involutive.
    rewrite Z.mod_mul by (apply Z.pow_nonzero; lia). cbn [Z.eqb].
    rewrite Z.div_mul by (apply Z.pow_nonzero; lia). reflexivity.
Qed.

Lemma orZero_ofZ n :
  0 <= n <= 2 ^ 53 -> Number.orZero (Number.ofZ n) = Number.ofZ n.
Proof.
  change (2 ^ 53) with 9007199254740992. intros [H0 H1].
  destruct n as [|m|m]; try lia; [reflexivity|].
  destruct (Z.eq_dec (Zpos m) 9007199254740992) as [-> | Hn];
    [reflexivity|].
  rewrite ofZ_pos by (change (2 ^ Number.prec) with 9007199254740992; lia).
  reflexivity.
Qed.

Lemma sumOf_nonneg l : Forall (fun x => 0 <= x) l -> 0 <= sumOf l.
Proof. induction 1; simpl; lia. Qed.

(** Whole amounts, none negative, that add up to [2 ^ 53] at most: the
    doubles add up to the double of their sum. *)
Lemma fold_add_ofZ l acc :
  0 <= acc -> Forall (fun x => 0 <= x) l -> acc + sumOf l <= 2 ^ 53 ->
  fold_left Number.add (map Number.ofZ l) (Number.ofZ acc)
  = Number.ofZ (acc + sumOf l).
Proof.
  revert acc. induction l as [|x l IH]; intros acc Hacc Hl Hb.
  - simpl. rewrite Z.add_0_r. reflexivity.
  - inversion Hl as [|? ? Hx Hl']; subst.
    pose proof (sumOf_nonneg Hl') as Hs.
    cbn [map fold_left sumOf] in *.
    rewrite add_ofZ by lia. rewrite IH by (trivial; lia).
    f_equal. lia.
Qed.


(** Non-negative numbers *)

Lemma shr_1_nonneg mrs : 0 <= shr_m mrs -> 0 <= shr_m (shr_1 mrs).
Proof.
  destruct mrs as [m r s]. simpl.
  destruct m as [|p|p]; simpl; try lia.
  destruct p; simpl; lia.
Qed.

Lemma shr_fexp_nonneg m e l :
  0 <= m -> 0 <= shr_m (fst (shr_fexp Number.prec Number.emax m e l)).
Proof.
  intros H. unfold shr_fexp. rewrite shr_nat. cbn [fst].
  assert (H0 : 0 <= shr_m (shr_record_of_loc m l))
    by (destruct l as [|[]]; simpl; exact H).
  induction (Z.to_nat _) as [|n IH]; [exact H0|].
  cbn [Nat.iter nat_rect]. apply shr_1_nonneg, IH.
Qed.

Lemma round_nearest_even_nonneg m l : 0 <= m -> 0 <= round_nearest_even m l.
Proof.
  intros H. destruct l as [|[]]; simpl; try lia.
  destruct (Z.even m); lia.
Qed.

Lemma binary_round_aux_nonneg m e l :
  0 <= m ->
  Number.leb Number.zero
    (binary_round_aux Number.prec Number.emax false m e l) = true.
Proof.
  intros H. unfold binary_round_aux.
  pose proof (shr_fexp_nonneg e l H) as H1.
  destruct (shr_fexp Number.prec Number.emax m e l) as [mrs' e'].
  simpl in H1.
  pose proof (shr_fexp_nonneg e' loc_Exact
                (round_nearest_even_nonneg (loc_of_shr_record mrs') H1))
    as H2.
  destruct (shr_fexp Number.prec Number.emax _ e' loc_Exact) as [mrs'' e''].
  simpl in H2.
  destruct (shr_m mrs'') as [|p|p]; try reflexivity.
  - destruct (e'' <=? _); reflexivity.
  - lia.
Qed.

Lemma binary_round_nonneg m e :
  Number.leb Number.zero
    (binary_round Number.prec Number.emax false m e) = true.
Proof.
  unfold binary_round. destruct (shl_align _ _ _) as [mz ez].
  apply binary_round_aux_nonneg. lia.
Qed.

(** The sum of two numbers that are not negative is not negative. *)
Lemma add_nonneg x y :
  Number.leb Number.zero x = true -> Number.leb Number.zero y = true ->
  Number.leb Number.zero (Number.add x y) = true.
Proof.
  destruct x as [sx|sx| |sx mx ex], y as [sy|sy| |sy my ey];
    try (destruct sx); try (destruct sy); try discriminate; try reflexivity.
  intros _ _. unfold Number.add, SFadd. cbn [cond_Zopp].
  unfold binary_normalize.
  match goal with
  | |- context [Z.add (Zpos ?a) (Zpos ?b)] =>
      change (Z.add (Zpos a) (Zpos b)) with (Zpos (a + b))
  end.
  apply binary_round_nonneg.
Qed.

Lemma fold_add_nonneg l acc :
  Number.leb Number.zero acc = true ->
  Forall (fun x => Number.leb Number.zero x = true) l ->
  Number.leb Number.zero (fold_left Number.add l acc) = true.
Proof.
  revert acc. induction l as [|x l IH]; intros acc Hacc Hl; simpl; trivial.
  inversion Hl as [|? ? Hx Hl']; subst.
  apply IH; trivial. apply add_nonneg; trivial.
Qed.

Lemma orZero_nonneg x :
  Number.leb Number.zero x = true ->
  Number.leb Number.zero (Number.orZero x) = true.
Proof. intros H. unfold Number.orZero. destruct (Number.truthy x); trivial. Qed.

End NumberProperties.

(** ** The dashboard *)

Section DashboardProperties.

Import DashboardRoutes.



(** What the overview sends as total revenue. *)
Lemma revenueSent_sum st :
  revenueSent st
  = Some (Number.orZero (sum (map Payment.amount (completedPayments st)))).
Proof.
  unfold revenueSent, overview, aggregate, completedPayments.
  cbn [payload totalRevenue].
  destruct (filter _ (payments st)) as [|p matched]; reflexivity.
Qed.

(** The revenue over whole amounts that add up to [2 ^ 53] at most. *)
Lemma revenueSent_whole st amounts :
  map Payment.amount (completedPayments st) = map Number.ofZ amounts ->
  Forall (fun n => 0 <= n) amounts ->
  sumOf amounts <= 2 ^ 53 ->
  revenueSent st = Some (Number.ofZ (sumOf amounts))
  /\ Number.toZ (Number.ofZ (sumOf amounts)) = Some (sumOf amounts).
Proof.
  intros Hm Hpos Hb. pose proof (sumOf_nonneg Hpos) as H0.
  rewrite revenueSent_sum, Hm. unfold sum.
  change Number.zero with (Number.ofZ 0).
  rewrite fold_add_ofZ by (trivial; lia). cbn [Z.add].
  rewrite orZero_ofZ by lia. split; [reflexivity|].
  apply toZ_ofZ. lia.
Qed.


End DashboardProperties.

(** ** Worked requests *)

Section Worked.

Import Sample.

(** The slots named in the specification, booked by Alice. *)
Example thursday_10_00_refused :
  fst (AppointmentRoutes.create env alice (booking thursday_10_00) store)
  = respond 400
      (Message "Appointments can only be booked from Saturday to Wednesday").
Proof. reflexivity. Qed.

Example saturday_07_59_refused :
  fst (AppointmentRoutes.create env alice (booking saturday_07_59) store)
  = respond 400
      (Message "Appointments can only be booked between 8 AM and 6 PM").
Proof. reflexivity. Qed.

Example saturday_08_00_booked :
  statusCode
    (fst (AppointmentRoutes.create env alice (booking saturday_08_00) store))
  = 201.
Proof. reflexivity. Qed.

Example wednesday_17_59_booked :
  statusCode
    (fst (AppointmentRoutes.create env alice (booking wednesday_17_59) store))
  = 201.
Proof. reflexivity. Qed.

Example wednesday_18_00_refused :
  fst (AppointmentRoutes.create env alice (booking wednesday_18_00) store)
  = respond 400
      (Message "Appointments can only be booked between 8 AM and 6 PM").
Proof. reflexivity. Qed.

(** An invalid date does not get past the check on the day. *)
Example invalid_date_refused :
  fst (AppointmentRoutes.create env alice
         (AppointmentRoutes.mkBody (Wellformed "u1") (Wellformed "d1")
            (Wellformed None) (Wellformed "v1") Absent None None) store)
  = respond 400
      (Message "Appointments can only be booked from Saturday to Wednesday").
Proof. reflexivity. Qed.

Lemma saturday_08_00_bookable : bookable env saturday_08_00.
Proof. apply workingHours_spec. reflexivity. Qed.

Lemma working_hours_decide_booking_witness :
  AppointmentRoutes.validateAppointment (booking saturday_08_00) = []
  /\ serviceAvailable (booking saturday_08_00) store = true
  /\ mayUpdate alice visit (booking saturday_08_00) store = true
  /\ (statusCode
        (fst (AppointmentRoutes.create env alice (booking saturday_08_00)
                store)) = 201
      <-> bookable env saturday_08_00)
  /\ (statusCode
        (fst (AppointmentRoutes.update env alice "a1" (booking saturday_08_00)
                store)) = 200
      <-> bookable env saturday_08_00).
Proof.
  destruct (working_hours_decide_booking env alice (booking saturday_08_00)
              store (tv := saturday_08_00) eq_refl eq_refl) as [Hc Hu].
  destruct (Hc eq_refl) as [Hc' _].
  destruct (Hu "a1" visit eq_refl eq_refl) as [Hu' _].
  split; [reflexivity|]. split; [reflexivity|]. split; [reflexivity|].
  split; [exact Hc' | exact Hu'].
Defined.

Lemma patient_cannot_change_status_witness :
  (Forbidden
     (fst (AppointmentRoutes.update env alice "a1"
             (bookingWithStatus saturday_08_00 Appointment.completed) store))
   /\ snd (AppointmentRoutes.update env alice "a1"
             (bookingWithStatus saturday_08_00 Appointment.completed) store)
      = store)
  /\ exists a',
       statusCode
         (fst (AppointmentRoutes.update env amy "a1"
                 (bookingWithStatus saturday_08_00 Appointment.completed)
                 store)) = 200
       /\ Appointment.status a' = Appointment.completed.
Proof.
  destruct (@patient_cannot_change_status env alice amy "a1"
              (bookingWithStatus saturday_08_00 Appointment.completed)
              store visit Appointment.completed
              eq_refl eq_refl eq_refl eq_refl eq_refl
              ltac:(discriminate) (or_intror eq_refl))
    as (Hpatient & _ & Hstaff).
  split; [exact Hpatient|].
  destruct (Hstaff saturday_08_00 eq_refl saturday_08_00_bookable eq_refl)
    as (a' & H200 & _ & _ & Hs).
  exists a'. split; assumption.
Defined.

Lemma patient_create_forces_owner_witness :
  AppointmentRoutes.b_user (booking saturday_08_00) = Wellformed "u2"
  /\ PaymentRoutes.b_user payment = Wellformed "u2"
  /\ (exists a,
        snd (AppointmentRoutes.create env alice (booking saturday_08_00) store)
        = created store a
        /\ Appointment.user a = "u1")
  /\ (exists p,
        snd (PaymentRoutes.create env alice payment store)
        = PaymentRoutes.setPayments store (insertDoc (payments store) p)
        /\ Payment.user p = "u1").
Proof.
  destruct (@patient_create_forces_owner env alice store eq_refl) as [Ha Hp].
  repeat split.
  - exact (Ha (booking saturday_08_00) eq_refl).
  - exact (Hp payment eq_refl).
Defined.

(** A patch with a status alone, other than the current one, for Alice's
    own appointment: Alice is not answered with Forbidden but with 400, as
    malformed, and so is the assistant, whose identical update does not
    succeed.  With a full body on a Thursday, Alice is refused with 403 and
    the identical update of the assistant is rejected with 400. *)
Lemma status_patch_rejected_as_malformed :
  isPatient alice /\ isStaff amy
  /\ findById Appointment._id (appointments store) "a1" = Some visit
  /\ Appointment.user visit = User._id alice
  /\ AppointmentRoutes.b_status MoreSample.statusOnly
     = Wellformed Appointment.completed
  /\ Appointment.status visit <> Appointment.completed
  /\ AppointmentRoutes.update env alice "a1" MoreSample.statusOnly store
     = (respond 400 (Errors ["Invalid user ID"; "Invalid doctor ID";
                             "Invalid date format"; "Invalid service ID"]),
        store)
  /\ AppointmentRoutes.update env amy "a1" MoreSample.statusOnly store
     = (respond 400 (Errors ["Invalid user ID"; "Invalid doctor ID";
                             "Invalid date format"; "Invalid service ID"]),
        store)
  /\ Forbidden
       (fst (AppointmentRoutes.update env alice "a1"
               (bookingWithStatus thursday_10_00 Appointment.completed)
               store))
  /\ AppointmentRoutes.update env amy "a1"
       (bookingWithStatus thursday_10_00 Appointment.completed) store
     = (respond 400
          (Message
             "Appointments can only be scheduled from Saturday to Wednesday"),
        store).
Proof.
  split; [reflexivity|]. split; [right; reflexivity|].
  split; [reflexivity|]. split; [reflexivity|]. split; [reflexivity|].
  split; [discriminate|]. split; [reflexivity|]. split; [reflexivity|].
  split; reflexivity.
Qed.

(** A patch without the owner, sent by a doctor for an appointment that is
    there, is rejected as malformed: the update does not succeed. *)
Lemma update_without_user_rejected :
  isStaff rho
  /\ findById Appointment._id (appointments store) "a1" = Some visit
  /\ AppointmentRoutes.b_user patchWithoutUser = Absent
  /\ AppointmentRoutes.update env rho "a1" patchWithoutUser store
     = (respond 400 (Errors ["Invalid user ID"]), store).
Proof. repeat split. left; reflexivity. Qed.

Lemma update_applies_present_fields_witness :
  (ValidationFailed
     (fst (AppointmentRoutes.update env rho "a1" patchWithoutUser store))
   /\ snd (AppointmentRoutes.update env rho "a1" patchWithoutUser store)
      = store)
  /\ exists a',
       snd (AppointmentRoutes.update env rho "a1" (booking saturday_08_00)
              store) = updated store a'
       /\ Appointment.date a' = saturday_08_00
       /\ Appointment.status a' = Appointment.scheduled
       /\ Appointment.notes a' = None
       /\ Appointment.createdAt a' = 0.
Proof.
  destruct (update_applies_present_fields env rho "a1" store) as [Hrej Happ].
  split; [exact (Hrej patchWithoutUser eq_refl)|].
  destruct (Happ (booking saturday_08_00) visit saturday_08_00
              eq_refl eq_refl eq_refl eq_refl saturday_08_00_bookable)
    as (a' & _ & Hsnd & _ & _ & _ & _ & Hd & _ & _ & Hst & _ & Hn & _ & Hc & _).
  exists a'. repeat split; trivial.
  - exact (Hst eq_refl).
  - exact (Hn eq_refl).
  - exact (Hc eq_refl).
Defined.

Lemma update_transfers_ownership_witness :
  isPatient alice
  /\ Appointment.user visit = User._id alice
  /\ exists a',
       statusCode
         (fst (AppointmentRoutes.update env alice "a1" (booking saturday_08_00)
                 store)) = 200
       /\ findById Appointment._id
            (appointments
               (snd (AppointmentRoutes.update env alice "a1"
                       (booking saturday_08_00) store))) "a1" = Some a'
       /\ Appointment.user a' = "u2"
       /\ Appointment.user a' <> Appointment.user visit.
Proof.
  split; [reflexivity|]. split; [reflexivity|].
  exact (@update_transfers_ownership env alice "a1" (booking saturday_08_00)
           store visit saturday_08_00 "u2"
           eq_refl eq_refl eq_refl eq_refl saturday_08_00_bookable eq_refl
           ltac:(discriminate)).
Defined.

(** A doctor is refused when marking as read a reminder addressed to a
    patient: a request of staff, other than the cancellation of an
    appointment, that is answered with Forbidden. *)
Lemma staff_refused_marking_read :
  isStaff rho
  /\ (forall id, PUT_reminder_read "r1" <> DELETE_appointment id)
  /\ serve env rho (PUT_reminder_read "r1") store = (403, store).
Proof.
  split; [left; reflexivity|]. split; [discriminate | reflexivity].
Qed.

(** An assistant is refused the payments of a patient, a doctor is not. *)
Example assistant_refused_payments_of_user :
  fst (serve env amy (GET_payments_user "u1") store) = 403
  /\ fst (serve env rho (GET_payments_user "u1") store) = 200.
Proof. split; reflexivity. Qed.

Lemma staff_access_witness :
  fst (serve env amy (PUT_appointment "a1" (booking saturday_08_00)) store)
  <> 403
  /\ fst (serve env rho (GET_payments_user "u1") store) <> 403
  /\ serve env amy (DELETE_appointment "a1") store = (403, store)
  /\ serve env amy (PUT_reminder_read "r1") store = (403, store).
Proof.
  destruct (@staff_access env amy store (or_intror eq_refl))
    as (Hopen & Hcancel & Hread).
  destruct (@staff_access env rho store (or_introl eq_refl))
    as (Hdoctor & _ & _).
  split; [|split; [|split]].
  - apply Hopen; [reflexivity | discriminate].
  - apply Hdoctor; [reflexivity | reflexivity].
  - apply (Hcancel "a1" visit eq_refl). discriminate.
  - apply (Hread "r1" note eq_refl). discriminate.
Defined.

Lemma service_name_conflict_witness :
  (Conflict (fst (ServiceRoutes.create env rho (newService "Cleaning") store))
   /\ snd (ServiceRoutes.create env rho (newService "Cleaning") store) = store)
  /\ Conflict (fst (ServiceRoutes.edit "v2" (rename "Cleaning") store))
  /\ snd (ServiceRoutes.edit "v2" (rename "Cleaning") store) = store.
Proof.
  destruct (@service_name_conflict env rho store cleaning
              (newService "Cleaning") (or_introl eq_refl) eq_refl
              ltac:(discriminate))
    as [(_ & Hst & Hc) _].
  destruct (@service_name_conflict env rho store cleaning
              (rename "Cleaning") (or_introl eq_refl) eq_refl
              ltac:(discriminate))
    as [_ Hr].
  split; [split; [exact (Hc eq_refl eq_refl) | exact Hst]|].
  apply (Hr "v2" whitening eq_refl). discriminate.
Defined.

Lemma patient_info_create_and_upsert_witness :
  (Conflict (fst (UserRoutes.createPatientInfo env alice noInfo store))
   /\ snd (UserRoutes.createPatientInfo env alice noInfo store) = store)
  /\ exists patientInfo,
       fst (UserRoutes.updatePatientInfo env bob "me" noInfo store)
       = respond 200 (Json patientInfo)
       /\ snd (UserRoutes.updatePatientInfo env bob "me" noInfo store)
          = UserRoutes.setPatientInfos store
              (patientInfos store ++ [patientInfo])
       /\ PatientInfo.patientId patientInfo = "u2".
Proof.
  split.
  - destruct (proj1 (patient_info_create_and_upsert env alice store)
                noInfo record (or_introl eq_refl) eq_refl) as (Hc & Hs & _).
    split; assumption.
  - destruct (proj2 (patient_info_create_and_upsert env bob store)
                "me" noInfo (or_introl eq_refl) eq_refl eq_refl)
      as (patientInfo & Hr & Hs & Hp & _).
    exists patientInfo. repeat split; assumption.
Defined.

(** A literal [lastVisit] is not written; the flag writes the clock. *)
Example lastVisit_literal_ignored :
  lastVisitOf
    (snd (UserRoutes.updatePatientInfo env alice "me" infoWithLastVisit store))
    "u1" = None
  /\ lastVisitOf
       (snd (UserRoutes.updatePatientInfo env alice "me"
               (UserRoutes.mkBody None None None None None None None None None
                                  (Some 999) (Some true)) store))
       "u1" = Some (Date_now env).
Proof. split; reflexivity. Qed.

Example revenue_of_sample :
  DashboardRoutes.revenueSent store = Some (Number.ofZ 100).
Proof. reflexivity. Qed.



End Worked.

(** ** Sorted listings *)

Section SortLemmas.

Variable Doc : Type.
Variable key : Doc -> Z.

Lemma insertDesc_perm d l : Permutation (insertDesc key d l) (d :: l).
Proof.
  induction l as [|x l IH]; simpl.
  - apply Permutation_refl.
  - destruct (key x <? key d).
    + apply Permutation_refl.
    + apply perm_trans with (x :: d :: l).
      * apply perm_skip, IH.
      * apply perm_swap.
Qed.

Lemma sortDesc_perm l : Permutation (sortDesc key l) l.
Proof.
  induction l as [|x l IH]; simpl.
  - apply perm_nil.
  - apply perm_trans with (x :: sortDesc key l).
    + apply insertDesc_perm.
    + apply perm_skip, IH.
Qed.

Lemma insertDesc_sorted d l :
  newestFirst key l -> newestFirst key (insertDesc key d l).
Proof.
  unfold newestFirst. induction l as [|x l IH]; simpl; intros Hs.
  - constructor; constructor.
  - inversion Hs as [|? ? Hs' Hall]; subst.
    destruct (key x <? key d) eqn:Hlt.
    + apply Z.ltb_lt in Hlt. constructor; [exact Hs|].
      constructor; [lia|].
      eapply Forall_impl; [|exact Hall]. simpl. intros; lia.
    + apply Z.ltb_ge in Hlt. constructor; [apply IH, Hs'|].
      apply Forall_forall. intros y Hy.
      apply (Permutation_in _ (insertDesc_perm d l)) in Hy.
      destruct Hy as [<- | Hy]; [exact Hlt|].
      rewrite Forall_forall in Hall. apply Hall, Hy.
Qed.

Lemma sortDesc_sorted l : newestFirst key (sortDesc key l).
Proof.
  induction l as [|x l IH]; simpl.
  - constructor.
  - apply insertDesc_sorted, IH.
Qed.

Lemma insertAsc_perm d l : Permutation (insertAsc key d l) (d :: l).
Proof.
  induction l as [|x l IH]; simpl.
  - apply Permutation_refl.
  - destruct (key d <? key x).
    + apply Permutation_refl.
    + apply perm_trans with (x :: d :: l).
      * apply perm_skip, IH.
      * apply perm_swap.
Qed.

Lemma sortAsc_perm l : Permutation (sortAsc key l) l.
Proof.
  induction l as [|x l IH]; simpl.
  - apply perm_nil.
  - apply perm_trans with (x :: sortAsc key l).
    + apply insertAsc_perm.
    + apply perm_skip, IH.
Qed.

Lemma insertAsc_sorted d l :
  oldestFirst key l -> oldestFirst key (insertAsc key d l).
Proof.
  unfold oldestFirst. induction l as [|x l IH]; simpl; intros Hs.
  - constructor; constructor.
  - inversion Hs as [|? ? Hs' Hall]; subst.
    destruct (key d <? key x) eqn:Hlt.
    + apply Z.ltb_lt in Hlt. constructor; [exact Hs|].
      constructor; [lia|].
      eapply Forall_impl; [|exact Hall]. simpl. intros; lia.
    + apply Z.ltb_ge in Hlt. constructor; [apply IH, Hs'|].
      apply Forall_forall. intros y Hy.
      apply (Permutation_in _ (insertAsc_perm d l)) in Hy.
      destruct Hy as [<- | Hy]; [exact Hlt|].
      rewrite Forall_forall in Hall. apply Hall, Hy.
Qed.

Lemma sortAsc_sorted l : oldestFirst key (sortAsc key l).
Proof.
  induction l as [|x l IH]; simpl.
  - constructor.
  - apply insertAsc_sorted, IH.
Qed.

(** In an ordered list, what comes first is ordered before what comes
    after. *)
Lemma newestFirst_split l1 l2 :
  newestFirst key (l1 ++ l2) ->
  forall a b, In a l1 -> In b l2 -> key b <= key a.
Proof.
  unfold newestFirst. induction l1 as [|x l1 IH]; simpl; intros Hs a b Ha Hb.
  - contradiction.
  - inversion Hs as [|? ? Hs' Hall]; subst. destruct Ha as [<- | Ha].
    + rewrite Forall_forall in Hall. apply Hall, in_or_app. right. exact Hb.
    + apply (IH Hs' a b Ha Hb).
Qed.

End SortLemmas.

(** The owner of a user id, or staff, passes a check of the form
    [id !== userId && !staff]. *)
Lemma self_or_staff_gate u userId :
  User._id u = userId \/ isStaff u ->
  negb (String.eqb (User._id u) userId)
  && negb (includes ["doctor"; "assistant"] (User.role u)) = false.
Proof.
  intros [<- | Hs].
  - rewrite String.eqb_refl. reflexivity.
  - rewrite staff_includes by exact Hs. apply andb_false_r.
Qed.

(** X1.  GET /api/appointments/user/:userId, asked by that user or by
    staff, answers 200 with the appointments of the user, each once, the
    latest date first. *)
Theorem appointments_of_user_latest_first u userId st :
  User._id u = userId \/ isStaff u ->
  exists l,
    AppointmentRoutes.getByUser u userId st = respond 200 (Json l)
    /\ Permutation l (appointmentsOf st userId)
    /\ newestFirst Appointment.date l
    /\ (forall a, In a l
          <-> In a (appointments st) /\ Appointment.user a = userId).
Proof.
  intros Hauth. unfold AppointmentRoutes.getByUser.
  rewrite (self_or_staff_gate Hauth).
  eexists. split; [reflexivity|].
  split; [apply sortDesc_perm|]. split; [apply sortDesc_sorted|].
  intros a. split.
  - intros Hin. apply (Permutation_in _ (sortDesc_perm _ _)) in Hin.
    apply filter_In in Hin. destruct Hin as [Hin He].
    apply String.eqb_eq in He. split; assumption.
  - intros [Hin He].
    apply (Permutation_in _ (Permutation_sym (sortDesc_perm _ _))).
    apply filter_In. split; [exact Hin|]. apply String.eqb_eq, He.
Qed.

(** X2.  GET /api/payments lists every payment once, the latest created
    first; GET /api/payments/user/:userId, asked by that user or by a
    doctor, does so for the payments of the user. *)
Theorem payments_latest_first u userId st :
  (exists l,
     PaymentRoutes.getAll st = respond 200 (Json l)
     /\ Permutation l (payments st)
     /\ newestFirst Payment.createdAt l)
  /\ (User._id u = userId \/ User.role u = "doctor" ->
      exists l,
        PaymentRoutes.getByUser u userId st = respond 200 (Json l)
        /\ Permutation l (paymentsOf st userId)
        /\ newestFirst Payment.createdAt l
        /\ (forall p, In p l
              <-> In p (payments st) /\ Payment.user p = userId)).
Proof.
  split.
  - eexists. split; [reflexivity|].
    split; [apply sortDesc_perm | apply sortDesc_sorted].
  - intros Hauth. unfold PaymentRoutes.getByUser.
    assert (Hg : negb (String.eqb (User._id u) userId)
                 && negb (includes ["doctor"] (User.role u)) = false).
    { destruct Hauth as [<- | ->].
      - rewrite String.eqb_refl. reflexivity.
      - apply andb_false_r. }
    rewrite Hg. eexists. split; [reflexivity|].
    split; [apply sortDesc_perm|]. split; [apply sortDesc_sorted|].
    intros p. split.
    + intros Hin. apply (Permutation_in _ (sortDesc_perm _ _)) in Hin.
      apply filter_In in Hin. destruct Hin as [Hin He].
      apply String.eqb_eq in He. split; assumption.
    + intros [Hin He].
      apply (Permutation_in _ (Permutation_sym (sortDesc_perm _ _))).
      apply filter_In. split; [exact Hin|]. apply String.eqb_eq, He.
Qed.

(** X3.  GET /api/reminders/user/:userId, asked by that user or by staff,
    answers 200 with the reminders of the user, each once, the earliest
    date first. *)
Theorem reminders_of_user_earliest_first u userId st :
  User._id u = userId \/ isStaff u ->
  exists l,
    ReminderRoutes.getByUser u userId st = respond 200 (Json l)
    /\ Permutation l (remindersOf st userId)
    /\ oldestFirst Reminder.date l
    /\ (forall r, In r l
          <-> In r (reminders st) /\ Reminder.user r = userId).
Proof.
  intros Hauth. unfold ReminderRoutes.getByUser.
  rewrite (self_or_staff_gate Hauth).
  eexists. split; [reflexivity|].
  split; [apply sortAsc_perm|]. split; [apply sortAsc_sorted|].
  intros r. split.
  - intros Hin. apply (Permutation_in _ (sortAsc_perm _ _)) in Hin.
    apply filter_In in Hin. destruct Hin as [Hin He].
    apply String.eqb_eq in He. split; assumption.
  - intros [Hin He].
    apply (Permutation_in _ (Permutation_sym (sortAsc_perm _ _))).
    apply filter_In. split; [exact Hin|]. apply String.eqb_eq, He.
Qed.

(** X4.  The recent payments of the dashboard overview are at most five
    payments of the store, the latest created first, and no payment that
    is left out was created after one that is listed. *)
Theorem overview_recent_payments st :
  exists o rest,
    DashboardRoutes.overview st = respond 200 (Json o)
    /\ (List.length (DashboardRoutes.recentPayments o) <= 5)%nat
    /\ List.length (DashboardRoutes.recentPayments o)
       = Nat.min 5 (List.length (payments st))
    /\ newestFirst Payment.createdAt (DashboardRoutes.recentPayments o)
    /\ Permutation (DashboardRoutes.recentPayments o ++ rest) (payments st)
    /\ (forall p q,
          In p (DashboardRoutes.recentPayments o) -> In q rest ->
          Payment.createdAt q <= Payment.createdAt p).
Proof.
  unfold DashboardRoutes.overview.
  eexists. exists (skipn 5 (sortDesc Payment.createdAt (payments st))).
  split; [reflexivity|]. cbn [DashboardRoutes.recentPayments].
  pose proof (sortDesc_sorted Payment.createdAt (payments st)) as Hs.
  pose proof (sortDesc_perm Payment.createdAt (payments st)) as Hp.
  rewrite <- (firstn_skipn 5 (sortDesc Payment.createdAt (payments st)))
    in Hs.
  split; [apply firstn_le_length|].
  split; [rewrite length_firstn, (Permutation_length Hp); reflexivity|].
  split.
  - unfold newestFirst in *.
    remember (firstn 5 (sortDesc Payment.createdAt (payments st))) as l1.
    remember (skipn 5 (sortDesc Payment.createdAt (payments st))) as l2.
    clear - Hs. induction l1 as [|x l1 IH]; simpl in *; [constructor|].
    inversion Hs as [|? ? Hs' Hall]; subst. constructor; [apply IH, Hs'|].
    rewrite Forall_forall in *. intros y Hy. apply Hall, in_or_app. auto.
  - split; [rewrite firstn_skipn; exact Hp|].
    intros p q. apply (newestFirst_split _ _ Hs).
Qed.

(** ** More on collections *)

Section MoreCollectionLemmas.

Variable Doc : Type.
Variable id_of : Doc -> ObjectId.

Lemma findById_None c id :
  findById id_of c id = None <-> ~ In id (map id_of c).
Proof.
  unfold findById. split.
  - intros Hf Hin. apply in_map_iff in Hin. destruct Hin as (d & <- & Hd).
    pose proof (find_none _ _ Hf d Hd) as H. simpl in H.
    rewrite String.eqb_refl in H. discriminate.
  - intros Hn. destruct (find _ c) as [d|] eqn:Hf; trivial.
    apply find_some in Hf. destruct Hf as [Hin He].
    apply String.eqb_eq in He. elim Hn. rewrite <- He. apply in_map, Hin.
Qed.

Lemma findById_removeDoc c id : findById id_of (removeDoc id_of c id) id = None.
Proof.
  apply findById_None. intros Hin. apply in_map_iff in Hin.
  destruct Hin as (d & He & Hd). apply filter_In in Hd.
  destruct Hd as [_ Hd]. apply negb_true_iff, String.eqb_neq in Hd.
  contradiction.
Qed.

Lemma findById_removeDoc_other c id id' :
  id' <> id ->
  findById id_of (removeDoc id_of c id) id' = findById id_of c id'.
Proof.
  intros Hne. unfold findById, removeDoc. induction c as [|x c IH]; simpl.
  - reflexivity.
  - destruct (String.eqb (id_of x) id) eqn:Hx; simpl.
    + apply String.eqb_eq in Hx.
      assert (Hd : String.eqb (id_of x) id' = false)
        by (apply String.eqb_neq; congruence).
      rewrite Hd. exact IH.
    + destruct (String.eqb (id_of x) id'); [reflexivity | exact IH].
Qed.

Lemma removeDoc_absent c id :
  findById id_of c id = None -> removeDoc id_of c id = c.
Proof.
  intros Hf. unfold removeDoc, findById in *.
  induction c as [|x c IH]; simpl in *; trivial.
  destruct (String.eqb (id_of x) id); [discriminate|]. simpl.
  f_equal. apply IH, Hf.
Qed.

(** Removing what was just inserted under a new id gives the collection
    back. *)
Lemma removeDoc_insertDoc c d :
  findById id_of c (id_of d) = None ->
  removeDoc id_of (insertDoc c d) (id_of d) = c.
Proof.
  intros Hf. unfold insertDoc, removeDoc. rewrite filter_app. simpl.
  rewrite String.eqb_refl. simpl. rewrite app_nil_r.
  apply removeDoc_absent, Hf.
Qed.

Lemma findById_insertDoc_new c d :
  findById id_of c (id_of d) = None ->
  findById id_of (insertDoc c d) (id_of d) = Some d.
Proof.
  intros Hf. unfold findById, insertDoc in *.
  apply find_app_new; [exact Hf | apply String.eqb_refl].
Qed.

Lemma findById_insertDoc_old c d id x :
  findById id_of c id = Some x -> findById id_of (insertDoc c d) id = Some x.
Proof.
  unfold findById, insertDoc. induction c as [|y c IH]; simpl.
  - discriminate.
  - destruct (String.eqb (id_of y) id); [trivial | exact IH].
Qed.

Lemma replaceDoc_ids c d : map id_of (replaceDoc id_of c d) = map id_of c.
Proof.
  unfold replaceDoc. rewrite map_map. apply map_ext. intros x.
  destruct (String.eqb (id_of x) (id_of d)) eqn:Hx; trivial.
  symmetry. apply String.eqb_eq, Hx.
Qed.

Lemma replaceDoc_idempotent c d :
  replaceDoc id_of (replaceDoc id_of c d) d = replaceDoc id_of c d.
Proof.
  unfold replaceDoc. rewrite map_map. apply map_ext. intros x.
  destruct (String.eqb (id_of x) (id_of d)) eqn:Hx.
  - rewrite String.eqb_refl. reflexivity.
  - rewrite Hx. reflexivity.
Qed.

Lemma replaceDoc_absent c d :
  findById id_of c (id_of d) = None -> replaceDoc id_of c d = c.
Proof.
  intros Hf. unfold replaceDoc, findById in *.
  induction c as [|x c IH]; simpl in *; trivial.
  destruct (String.eqb (id_of x) (id_of d)); [discriminate|].
  f_equal. apply IH, Hf.
Qed.

Lemma replaceDoc_In c d x :
  In x (replaceDoc id_of c d) -> x = d \/ (In x c /\ id_of x <> id_of d).
Proof.
  unfold replaceDoc. intros Hin. apply in_map_iff in Hin.
  destruct Hin as (y & Hy & Hin).
  destruct (String.eqb (id_of y) (id_of d)) eqn:He.
  - left. congruence.
  - right. subst. split; [exact Hin | apply String.eqb_neq, He].
Qed.

Lemma Forall_replaceDoc (P : Doc -> Prop) c d :
  Forall P c -> P d -> Forall P (replaceDoc id_of c d).
Proof.
  intros Hc Hd. apply Forall_forall. intros x Hin.
  apply replaceDoc_In in Hin. destruct Hin as [-> | [Hin _]]; trivial.
  rewrite Forall_forall in Hc. apply Hc, Hin.
Qed.

Lemma Forall_removeDoc (P : Doc -> Prop) c id :
  Forall P c -> Forall P (removeDoc id_of c id).
Proof.
  intros Hc. apply Forall_forall. intros x Hin.
  apply filter_In in Hin. rewrite Forall_forall in Hc. apply Hc, Hin.
Qed.

(** With distinct ids, a key that is distinct over the collection stays
    distinct when one document is saved with a key that no other document
    has. *)
Lemma NoDup_key_replaceDoc {K} (f : Doc -> K) c d :
  NoDup (map id_of c) ->
  NoDup (map f c) ->
  (forall x, In x c -> id_of x <> id_of d -> f x <> f d) ->
  NoDup (map f (replaceDoc id_of c d)).
Proof.
  unfold replaceDoc. induction c as [|x c IH]; simpl; intros Hid Hf Hd.
  - constructor.
  - inversion Hid as [|? ? Hxid Hid']; subst.
    inversion Hf as [|? ? Hxf Hf']; subst.
    destruct (String.eqb (id_of x) (id_of d)) eqn:Hx.
    + apply String.eqb_eq in Hx.
      assert (Habs : findById id_of c (id_of d) = None)
        by (apply findById_None; rewrite <- Hx; exact Hxid).
      fold (replaceDoc id_of c d). rewrite (replaceDoc_absent c d Habs).
      constructor; [|exact Hf'].
      intros Hin. apply in_map_iff in Hin. destruct Hin as (y & Hy & Hin).
      apply (Hd y); [right; exact Hin | | exact Hy].
      intros He. apply Hxid. rewrite Hx, <- He. apply in_map, Hin.
    + apply String.eqb_neq in Hx. constructor.
      * intros Hin. apply in_map_iff in Hin. destruct Hin as (y & Hy & Hin).
        apply (replaceDoc_In c d) in Hin.
        destruct Hin as [-> | [Hin _]].
        -- apply (Hd x); [left; reflexivity | exact Hx | congruence].
        -- apply Hxf. rewrite <- Hy. apply in_map, Hin.
      * apply IH; trivial. intros y Hy. apply Hd. right. exact Hy.
Qed.

Lemma NoDup_map_removeDoc {K} (f : Doc -> K) c id :
  NoDup (map f c) -> NoDup (map f (removeDoc id_of c id)).
Proof.
  unfold removeDoc. induction c as [|x c IH]; simpl; intros Hf.
  - constructor.
  - inversion Hf as [|? ? Hx Hf']; subst.
    destruct (negb (String.eqb (id_of x) id)); simpl; [|apply IH, Hf'].
    constructor; [|apply IH, Hf'].
    intros Hin. apply Hx. apply in_map_iff in Hin.
    destruct Hin as (y & Hy & Hin). apply filter_In in Hin.
    rewrite <- Hy. apply in_map, Hin.
Qed.

Lemma NoDup_map_insertDoc {K} (f : Doc -> K) c d :
  NoDup (map f c) -> ~ In (f d) (map f c) -> NoDup (map f (insertDoc c d)).
Proof.
  intros Hf Hn. unfold insertDoc. rewrite map_app. simpl.
  apply NoDup_app; trivial.
  - constructor; [intros [] | constructor].
  - intros k Hk [<- | []]. contradiction.
Qed.

(** With a distinct key, two documents of the collection with the same
    key are the same document. *)
Lemma NoDup_map_inj {K} (f : Doc -> K) c x y :
  NoDup (map f c) -> In x c -> In y c -> f x = f y -> x = y.
Proof.
  induction c as [|z c IH]; simpl; intros Hf Hx Hy He; [contradiction|].
  inversion Hf as [|? ? Hz Hf']; subst.
  destruct Hx as [-> | Hx], Hy as [-> | Hy]; trivial.
  - elim Hz. rewrite He. apply in_map, Hy.
  - elim Hz. rewrite <- He. apply in_map, Hx.
  - apply IH; trivial.
Qed.

End MoreCollectionLemmas.

(** ** Owners and strangers *)

(** PUT /api/appointments/:id refuses nobody who is staff or the owner,
    unless a patient changes the status. *)
Lemma update_gates_passed env u id body st a :
  findById Appointment._id (appointments st) id = Some a ->
  includes ["doctor"; "assistant"] (User.role u)
  || String.eqb (Appointment.user a) (User._id u) = true ->
  String.eqb (User.role u) "patient"
  && match AppointmentRoutes.b_status body with
     | Wellformed s => negb (Appointment.Status_eqb s (Appointment.status a))
     | _ => false
     end = false ->
  statusCode (fst (AppointmentRoutes.update env u id body st)) <> 403.
Proof.
  intros Hf Hauth Hstat. unfold AppointmentRoutes.update.
  destruct (AppointmentRoutes.validateAppointment
              (AppointmentRoutes.sanitize body)); [|simpl; discriminate].
  rewrite Hf. cbv zeta.
  replace (negb (includes ["doctor"; "assistant"] (User.role u))
           && negb (String.eqb (Appointment.user a) (User._id u)))
    with false
    by (destruct (includes ["doctor"; "assistant"] (User.role u)),
                 (String.eqb (Appointment.user a) (User._id u));
        simpl in *; congruence).
  change (AppointmentRoutes.b_status (AppointmentRoutes.sanitize body))
    with (AppointmentRoutes.b_status body).
  rewrite Hstat.
  case_goal; simpl; discriminate.
Qed.

(** X5.  A patient who lists the appointments gets exactly their own, and
    is answered 200 for a single appointment only if it is theirs; when
    the user document of the owner is gone, the patient is answered 500.
    An actor of another role gets the whole collection and any
    appointment that is there. *)
Theorem appointments_read_by_role u st :
  (isPatient u ->
   AppointmentRoutes.getAll u st
   = respond 200 (Json (appointmentsOf st (User._id u)))
   /\ (forall id a,
         AppointmentRoutes.getById u id st = respond 200 (Json a) ->
         findById Appointment._id (appointments st) id = Some a
         /\ Appointment.user a = User._id u)
   /\ (forall id a,
         findById Appointment._id (appointments st) id = Some a ->
         findById User._id (users st) (Appointment.user a) = None ->
         statusCode (AppointmentRoutes.getById u id st) = 500))
  /\ (User.role u <> "patient" ->
      AppointmentRoutes.getAll u st = respond 200 (Json (appointments st))
      /\ (forall id a,
            findById Appointment._id (appointments st) id = Some a ->
            AppointmentRoutes.getById u id st = respond 200 (Json a))).
Proof.
  split.
  - intros Hp. split; [|split].
    + unfold AppointmentRoutes.getAll, appointmentsOf.
      rewrite (patient_eqb Hp). reflexivity.
    + intros id a. unfold AppointmentRoutes.getById.
      rewrite (patient_eqb Hp).
      destruct (findById Appointment._id (appointments st) id) as [a0|];
        [|discriminate].
      destruct (findById User._id (users st) (Appointment.user a0))
        as [owner|] eqn:Ho; [|discriminate].
      destruct (String.eqb (User._id owner) (User._id u)) eqn:He;
        [|discriminate].
      cbn [negb]. intros H. injection H as <-. split; trivial.
      apply String.eqb_eq in He. rewrite <- He.
      symmetry. apply (findById_id _ _ _ Ho).
    + intros id a Hf Ho. unfold AppointmentRoutes.getById.
      rewrite Hf, (patient_eqb Hp), Ho. reflexivity.
  - intros Hr. apply String.eqb_neq in Hr. split.
    + unfold AppointmentRoutes.getAll. rewrite Hr.
      f_equal. f_equal. induction (appointments st) as [|x l IH];
        simpl; congruence.
    + intros id a Hf. unfold AppointmentRoutes.getById.
      rewrite Hf, Hr. reflexivity.
Qed.

(** X6.  A patient who asks for something that belongs to another user (a
    list of that user, a document of that user, the patient data of that
    user, that user's account) is answered 403, and the store stays as it
    is. *)
Theorem patient_refused_on_foreign env u st req o :
  isPatient u ->
  ownerOf u st req = Some o ->
  o <> User._id u ->
  serve env u req st = (403, st).
Proof.
  intros Hp Ho Hne.
  assert (Hou : String.eqb o (User._id u) = false)
    by (apply String.eqb_neq, Hne).
  assert (Huo : String.eqb (User._id u) o = false)
    by (apply String.eqb_neq; congruence).
  pose proof (patient_not_staff Hp) as Hns.
  destruct req; cbn [ownerOf] in Ho; try discriminate Ho;
    cbn [serve reading writing].
  - (* GET_appointment *)
    unfold AppointmentRoutes.getById.
    destruct (findById Appointment._id (appointments st) id) as [a|];
      [|discriminate].
    destruct (findById User._id (users st) (Appointment.user a))
      as [owner|] eqn:Hw; [|discriminate].
    injection Ho as Ho. rewrite (patient_eqb Hp).
    rewrite (findById_id _ _ _ Hw), Ho, Hou. reflexivity.
  - (* GET_appointments_user *)
    injection Ho as ->. unfold AppointmentRoutes.getByUser.
    rewrite Huo, Hns. reflexivity.
  - (* PUT_appointment *)
    unfold AppointmentRoutes.update.
    change (AppointmentRoutes.validateAppointment
              (AppointmentRoutes.sanitize body))
      with (AppointmentRoutes.validateAppointment body).
    destruct (AppointmentRoutes.validateAppointment body); [|discriminate].
    destruct (findById Appointment._id (appointments st) id) as [a|];
      [|discriminate].
    injection Ho as Ho. cbv zeta. rewrite Hns, Ho, Hou. reflexivity.
  - (* DELETE_appointment *)
    unfold AppointmentRoutes.cancel.
    destruct (findById Appointment._id (appointments st) id) as [a|];
      [|discriminate].
    injection Ho as Ho. rewrite Ho, Hou. reflexivity.
  - (* DELETE_user *)
    injection Ho as ->. unfold UserRoutes.deleteUser.
    rewrite Huo, Hns. reflexivity.
  - (* GET_patient_info *)
    injection Ho as Ho. unfold UserRoutes.getPatientInfo. cbv zeta.
    unfold targetOf in Ho. rewrite Ho, Huo, Hns. reflexivity.
  - (* POST_patient_info *)
    injection Ho as Ho. unfold UserRoutes.createPatientInfo. cbv zeta.
    rewrite Ho, Huo, Hns. reflexivity.
  - (* PUT_patient_info *)
    injection Ho as Ho. unfold UserRoutes.updatePatientInfo. cbv zeta.
    unfold targetOf in Ho. rewrite Ho, Huo, Hns. reflexivity.
  - (* GET_payment *)
    unfold PaymentRoutes.getById.
    destruct (findById Payment._id (payments st) id) as [p|];
      [|discriminate].
    destruct (findById User._id (users st) (Payment.user p))
      as [owner|] eqn:Hw; [|discriminate].
    injection Ho as Ho.
    rewrite (findById_id _ _ _ Hw), Ho, Hou, Hns. reflexivity.
  - (* GET_payments_user *)
    injection Ho as ->. unfold PaymentRoutes.getByUser.
    rewrite Huo. rewrite Hp. reflexivity.
  - (* GET_reminders_user *)
    injection Ho as ->. unfold ReminderRoutes.getByUser.
    rewrite Huo, Hns. reflexivity.
  - (* PUT_reminder_read *)
    unfold ReminderRoutes.markRead.
    destruct (findById Reminder._id (reminders st) id) as [r|];
      [|discriminate].
    injection Ho as Ho. rewrite Ho, Hou. reflexivity.
  - (* DELETE_reminder *)
    unfold ReminderRoutes.delete.
    destruct (findById Reminder._id (reminders st) id) as [r|];
      [|discriminate].
    injection Ho as Ho. rewrite Ho, Hou, Hns. reflexivity.
Qed.

(** X7.  An actor who asks for something that belongs to them is never
    answered 403, with one exception: a patient who sends, in an update of
    their appointment, a status other than the one it has. *)
Theorem owner_not_refused env u st req :
  ownerOf u st req = Some (User._id u) ->
  (isPatient u -> changesStatus st req = false) ->
  fst (serve env u req st) <> 403.
Proof.
  intros Ho Hst.
  pose proof (String.eqb_refl (User._id u)) as Hrefl.
  destruct req; cbn [ownerOf] in Ho; try discriminate Ho;
    cbn [serve reading writing fst].
  - unfold AppointmentRoutes.getById.
    destruct (findById Appointment._id (appointments st) id) as [a|];
      [|discriminate].
    destruct (findById User._id (users st) (Appointment.user a))
      as [owner|] eqn:Hw; [|discriminate].
    injection Ho as Ho. rewrite (findById_id _ _ _ Hw), Ho, Hrefl.
    destruct (String.eqb (User.role u) "patient"); simpl; discriminate.
  - injection Ho as ->. unfold AppointmentRoutes.getByUser.
    rewrite Hrefl. simpl. discriminate.
  - destruct (AppointmentRoutes.validateAppointment body) eqn:Hv;
      [|discriminate].
    destruct (findById Appointment._id (appointments st) id) as [a|] eqn:Hf;
      [|discriminate].
    injection Ho as Ho. apply (update_gates_passed env u id body st Hf).
    + rewrite Ho, Hrefl. apply orb_true_r.
    + destruct (String.eqb (User.role u) "patient") eqn:Hr; trivial.
      apply String.eqb_eq in Hr. specialize (Hst Hr).
      cbn [changesStatus] in Hst. rewrite Hf in Hst. cbn [andb].
      destruct (AppointmentRoutes.b_status body); trivial.
  - unfold AppointmentRoutes.cancel.
    destruct (findById Appointment._id (appointments st) id) as [a|];
      [|discriminate].
    injection Ho as Ho. rewrite Ho, Hrefl. simpl. discriminate.
  - injection Ho as ->. unfold UserRoutes.deleteUser. rewrite Hrefl.
    cbn [negb andb]. case_goal; simpl; discriminate.
  - injection Ho as Ho. unfold UserRoutes.getPatientInfo. cbv zeta.
    unfold targetOf in Ho. rewrite Ho, Hrefl.
    cbn [negb andb]. case_goal; simpl; discriminate.
  - injection Ho as Ho. unfold UserRoutes.createPatientInfo. cbv zeta.
    rewrite Ho, Hrefl. cbn [negb andb]. case_goal; simpl; discriminate.
  - injection Ho as Ho. unfold UserRoutes.updatePatientInfo. cbv zeta.
    unfold targetOf in Ho. rewrite Ho, Hrefl.
    cbn [negb andb]. case_goal; simpl; discriminate.
  - unfold PaymentRoutes.getById.
    destruct (findById Payment._id (payments st) id) as [p|];
      [|discriminate].
    destruct (findById User._id (users st) (Payment.user p))
      as [owner|] eqn:Hw; [|discriminate].
    injection Ho as Ho. rewrite (findById_id _ _ _ Hw), Ho, Hrefl.
    simpl. discriminate.
  - injection Ho as ->. unfold PaymentRoutes.getByUser. rewrite Hrefl.
    simpl. discriminate.
  - injection Ho as ->. unfold ReminderRoutes.getByUser. rewrite Hrefl.
    simpl. discriminate.
  - unfold ReminderRoutes.markRead.
    destruct (findById Reminder._id (reminders st) id) as [r|];
      [|discriminate].
    injection Ho as Ho. rewrite Ho, Hrefl. simpl. discriminate.
  - unfold ReminderRoutes.delete.
    destruct (findById Reminder._id (reminders st) id) as [r|];
      [|discriminate].
    injection Ho as Ho. rewrite Ho, Hrefl. simpl. discriminate.
Qed.

(** ** Life of an appointment *)

(** What POST /api/appointments stores when it answers 201. *)
Lemma create_201 env u body st :
  statusCode (fst (AppointmentRoutes.create env u body st)) = 201 ->
  exists body' a tv s,
    body' = (if String.eqb (User.role u) "patient"
             then AppointmentRoutes.setUser (AppointmentRoutes.sanitize body)
                    (User._id u)
             else AppointmentRoutes.sanitize body)
    /\ AppointmentRoutes.validateAppointment body = []
    /\ AppointmentRoutes.new env body' = Some a
    /\ AppointmentRoutes.b_date body = Wellformed (Some tv)
    /\ bookable env tv
    /\ AppointmentRoutes.b_service body = Wellformed s
    /\ AppointmentRoutes.serviceUnavailable st s = false
    /\ AppointmentRoutes.create env u body st
       = (respond 201
            (Json (findById Appointment._id
                     (insertDoc (appointments st) a) (Appointment._id a))),
          created st a).
Proof.
  unfold AppointmentRoutes.create. cbv zeta.
  change (AppointmentRoutes.validateAppointment
            (AppointmentRoutes.sanitize body))
    with (AppointmentRoutes.validateAppointment body).
  destruct (AppointmentRoutes.validateAppointment body) eqn:Hv;
    [|simpl; discriminate].
  set (body' := if String.eqb (User.role u) "patient"
                then AppointmentRoutes.setUser
                       (AppointmentRoutes.sanitize body) (User._id u)
                else AppointmentRoutes.sanitize body).
  assert (Hsvc : AppointmentRoutes.b_service body'
                 = AppointmentRoutes.b_service body)
    by (unfold body'; destruct (String.eqb (User.role u) "patient");
        reflexivity).
  assert (Hdate : AppointmentRoutes.b_date body'
                  = AppointmentRoutes.b_date body)
    by (unfold body'; destruct (String.eqb (User.role u) "patient");
        reflexivity).
  rewrite Hsvc, Hdate.
  destruct (AppointmentRoutes.b_service body) as [| |s] eqn:Hs;
    try (simpl; discriminate).
  destruct (AppointmentRoutes.serviceUnavailable st s) eqn:Hun;
    [simpl; discriminate|].
  destruct (AppointmentRoutes.b_date body) as [| |[tv|]] eqn:Hd;
    try (simpl; discriminate).
  pose proof (workingHours_spec env tv) as Hw. cbv zeta in Hw.
  destruct (includesZ [6; 0; 1; 2; 3]
              (JsDate.getDay (LocalTZA env) (Some tv)));
    [|simpl; discriminate].
  destruct (js_lt (JsDate.getHours (LocalTZA env) (Some tv)) 8
            || js_ge (JsDate.getHours (LocalTZA env) (Some tv)) 18);
    [simpl; discriminate|].
  cbn [negb]. destruct (AppointmentRoutes.new env body') as [a|] eqn:Hn;
    [|simpl; discriminate].
  intros _. exists body', a, tv, s.
  split; [reflexivity|]. split; [first [assumption | reflexivity]|].
  split; [exact Hn|]. split; [first [assumption | reflexivity]|].
  split; [apply Hw; reflexivity|].
  split; [first [assumption | reflexivity]|].
  split; first [assumption | reflexivity].
Qed.

(** The fields of a new appointment. *)
Lemma new_fields env b a :
  AppointmentRoutes.new env b = Some a ->
  Appointment._id a = newObjectId env
  /\ AppointmentRoutes.b_user b = Wellformed (Appointment.user a)
  /\ AppointmentRoutes.b_doctor b = Wellformed (Appointment.doctor a)
  /\ AppointmentRoutes.b_date b = Wellformed (Some (Appointment.date a))
  /\ AppointmentRoutes.b_service b = Wellformed (Appointment.service a)
  /\ Appointment.status a
     = match AppointmentRoutes.b_status b with
       | Wellformed s => s
       | _ => Appointment.scheduled
       end
  /\ Appointment.createdAt a
     = orElse (AppointmentRoutes.b_createdAt b) (Date_now env).
Proof.
  unfold AppointmentRoutes.new.
  destruct (AppointmentRoutes.b_user b); try discriminate.
  destruct (AppointmentRoutes.b_doctor b); try discriminate.
  destruct (AppointmentRoutes.b_date b) as [| |[tv|]]; try discriminate.
  cbn [AppointmentRoutes.setDate].
  destruct (AppointmentRoutes.b_service b); try discriminate.
  destruct (AppointmentRoutes.b_status b); cbn [AppointmentRoutes.setPath];
    try discriminate; intros H; injection H as <-; repeat split.
Qed.

(** X8.  DELETE /api/appointments/:id by the owner answers 200 and removes
    the appointment: its id no longer leads to a document, every other id
    leads to what it led to before, and no other collection changes. *)
Theorem cancel_by_owner u id st a :
  findById Appointment._id (appointments st) id = Some a ->
  Appointment.user a = User._id u ->
  exists st',
    AppointmentRoutes.cancel u id st
    = (respond 200 (Message "Appointment cancelled successfully"), st')
    /\ findById Appointment._id (appointments st') id = None
    /\ (forall id', id' <> id ->
          findById Appointment._id (appointments st') id'
          = findById Appointment._id (appointments st) id')
    /\ users st' = users st /\ services st' = services st
    /\ payments st' = payments st /\ reminders st' = reminders st
    /\ patientInfos st' = patientInfos st.
Proof.
  intros Hf Hown. unfold AppointmentRoutes.cancel.
  rewrite Hf, Hown, String.eqb_refl. cbn [negb].
  rewrite (findById_id _ _ _ Hf).
  eexists. split; [reflexivity|]. cbn [appointments users services payments
                                       reminders patientInfos].
  split; [apply findById_removeDoc|].
  split; [intros id' Hne; apply findById_removeDoc_other, Hne|].
  repeat split.
Qed.

(** X9.  An appointment that a patient has just created under a new id
    can be cancelled by that patient, and the store is then what it was
    before the appointment was created. *)
Theorem create_then_cancel env u body st :
  isPatient u ->
  findById Appointment._id (appointments st) (newObjectId env) = None ->
  statusCode (fst (AppointmentRoutes.create env u body st)) = 201 ->
  AppointmentRoutes.cancel u (newObjectId env)
    (snd (AppointmentRoutes.create env u body st))
  = (respond 200 (Message "Appointment cancelled successfully"), st).
Proof.
  intros Hp Hfresh H201.
  destruct (create_201 env u body st H201)
    as (body' & a & tv & s & Hb & _ & Hn & _ & _ & _ & _ & ->).
  rewrite (patient_eqb Hp) in Hb. subst body'.
  pose proof (appointment_new_setUser _ _ _ Hn) as Hu.
  destruct (new_fields _ _ Hn) as (Hid & _).
  cbn [snd]. unfold AppointmentRoutes.cancel, created.
  cbn [appointments users services payments reminders patientInfos].
  rewrite <- Hid in Hfresh |- *.
  rewrite (findById_insertDoc_new Appointment._id _ _ Hfresh).
  rewrite Hu, String.eqb_refl. cbn [negb].
  rewrite (removeDoc_insertDoc Appointment._id _ _ Hfresh).
  destruct st; reflexivity.
Qed.

(** X10.  When POST /api/appointments answers 201 under a new id, the
    response carries the stored appointment, which is found under that id
    with the doctor, date and service of the body, the status of the body
    or scheduled, and the creation time of the body or the clock; every
    appointment that was there is still found. *)
Theorem create_then_find env u body st :
  findById Appointment._id (appointments st) (newObjectId env) = None ->
  statusCode (fst (AppointmentRoutes.create env u body st)) = 201 ->
  exists a,
    fst (AppointmentRoutes.create env u body st)
    = respond 201 (Json (Some a))
    /\ findById Appointment._id
         (appointments (snd (AppointmentRoutes.create env u body st)))
         (newObjectId env) = Some a
    /\ AppointmentRoutes.b_doctor body = Wellformed (Appointment.doctor a)
    /\ AppointmentRoutes.b_date body = Wellformed (Some (Appointment.date a))
    /\ AppointmentRoutes.b_service body
       = Wellformed (Appointment.service a)
    /\ Appointment.status a
       = match AppointmentRoutes.b_status body with
         | Wellformed s => s
         | _ => Appointment.scheduled
         end
    /\ Appointment.createdAt a
       = orElse (AppointmentRoutes.b_createdAt body) (Date_now env)
    /\ (forall id x,
          findById Appointment._id (appointments st) id = Some x ->
          findById Appointment._id
            (appointments (snd (AppointmentRoutes.create env u body st))) id
          = Some x).
Proof.
  intros Hfresh H201.
  destruct (create_201 env u body st H201)
    as (body' & a & tv & s & Hb & _ & Hn & _ & _ & _ & _ & ->).
  destruct (new_fields _ _ Hn) as (Hid & _ & Hdoc & Hd & Hs & Hst & Hc).
  assert (Hsame : AppointmentRoutes.b_doctor body'
                  = AppointmentRoutes.b_doctor body
                  /\ AppointmentRoutes.b_date body'
                     = AppointmentRoutes.b_date body
                  /\ AppointmentRoutes.b_service body'
                     = AppointmentRoutes.b_service body
                  /\ AppointmentRoutes.b_status body'
                     = AppointmentRoutes.b_status body
                  /\ AppointmentRoutes.b_createdAt body'
                     = AppointmentRoutes.b_createdAt body)
    by (subst body'; destruct (String.eqb (User.role u) "patient");
        repeat split).
  destruct Hsame as (E1 & E2 & E3 & E4 & E5).
  rewrite E1 in Hdoc. rewrite E2 in Hd. rewrite E3 in Hs.
  rewrite E4 in Hst. rewrite E5 in Hc.
  exists a. cbn [fst snd]. unfold created. cbn [appointments].
  rewrite <- Hid in Hfresh |- *.
  rewrite (findById_insertDoc_new Appointment._id _ _ Hfresh).
  repeat split; trivial.
  intros id x Hx. apply findById_insertDoc_old, Hx.
Qed.

(** A request that POST /api/appointments does not answer with 201
    leaves the store as it is. *)
Lemma create_else env u body st :
  statusCode (fst (AppointmentRoutes.create env u body st)) <> 201 ->
  snd (AppointmentRoutes.create env u body st) = st.
Proof.
  unfold AppointmentRoutes.create. cbv zeta.
  case_goal; cbn [fst snd statusCode]; intros H; trivial;
    elim H; reflexivity.
Qed.

(** What PUT /api/appointments/:id stores when it answers 200. *)
Lemma update_200 env u id body st :
  statusCode (fst (AppointmentRoutes.update env u id body st)) = 200 ->
  exists a tv,
    AppointmentRoutes.validateAppointment body = []
    /\ findById Appointment._id (appointments st) id = Some a
    /\ mayUpdate u a body st = true
    /\ AppointmentRoutes.b_date body = Wellformed (Some tv)
    /\ bookable env tv.
Proof.
  unfold AppointmentRoutes.update. cbv zeta.
  change (AppointmentRoutes.validateAppointment
            (AppointmentRoutes.sanitize body))
    with (AppointmentRoutes.validateAppointment body).
  change (AppointmentRoutes.b_status (AppointmentRoutes.sanitize body))
    with (AppointmentRoutes.b_status body).
  change (AppointmentRoutes.b_service (AppointmentRoutes.sanitize body))
    with (AppointmentRoutes.b_service body).
  change (AppointmentRoutes.b_date (AppointmentRoutes.sanitize body))
    with (AppointmentRoutes.b_date body).
  destruct (AppointmentRoutes.validateAppointment body) eqn:Hv;
    [|simpl; discriminate].
  destruct (validateAppointment_nil _ Hv) as (_ & _ & [dt Hd] & _ & _).
  destruct (findById Appointment._id (appointments st) id) as [a|] eqn:Hf;
    [|simpl; discriminate].
  unfold mayUpdate.
  destruct (negb (includes ["doctor"; "assistant"] (User.role u))
            && negb (String.eqb (Appointment.user a) (User._id u))) eqn:G1;
    [simpl; discriminate|].
  destruct (String.eqb (User.role u) "patient"
            && match AppointmentRoutes.b_status body with
               | Wellformed s =>
                   negb (Appointment.Status_eqb s (Appointment.status a))
               | _ => false
               end) eqn:G2; [simpl; discriminate|].
  destruct (match AppointmentRoutes.b_service body with
            | Wellformed s =>
                negb (String.eqb s (Appointment.service a))
                && AppointmentRoutes.serviceUnavailable st s
            | _ => false
            end) eqn:G3; [simpl; discriminate|].
  rewrite Hd. destruct dt as [tv|].
  - pose proof (workingHours_spec env tv) as Hw. cbv zeta in Hw.
    destruct (includesZ [6; 0; 1; 2; 3]
                (JsDate.getDay (LocalTZA env) (Some tv)));
      [|simpl; discriminate].
    destruct (js_lt (JsDate.getHours (LocalTZA env) (Some tv)) 8
              || js_ge (JsDate.getHours (LocalTZA env) (Some tv)) 18);
      [simpl; discriminate|].
    intros _. exists a, tv.
    split; [first [assumption | reflexivity]|].
    split; [first [assumption | reflexivity]|].
    split; [|split; [first [assumption | reflexivity]
                    | apply Hw; reflexivity]].
    rewrite G2, G3. cbn [negb]. rewrite !andb_true_r.
    destruct (includes ["doctor"; "assistant"] (User.role u)),
             (String.eqb (Appointment.user a) (User._id u));
      simpl in *; congruence.
  - simpl. discriminate.
Qed.

(** A request that PUT /api/appointments/:id does not answer with 200
    leaves the store as it is. *)
Lemma update_else env u id body st :
  statusCode (fst (AppointmentRoutes.update env u id body st)) <> 200 ->
  snd (AppointmentRoutes.update env u id body st) = st.
Proof.
  unfold AppointmentRoutes.update. cbv zeta.
  case_goal; cbn [fst snd statusCode]; intros H; trivial;
    elim H; reflexivity.
Qed.

Lemma serviceUnavailable_false st s :
  AppointmentRoutes.serviceUnavailable st s = false ->
  exists service,
    findById Service._id (services st) s = Some service
    /\ Service.isActive service = true.
Proof.
  unfold AppointmentRoutes.serviceUnavailable.
  destruct (findById Service._id (services st) s) as [service|];
    [|discriminate].
  intros H. apply negb_false_iff in H. eauto.
Qed.

(** X11.  The handlers of routes/appointments.js keep the appointments at
    bookable times: if every stored appointment is at a bookable time,
    that is so after a creation, an update and a cancellation, whatever the
    request. *)
Theorem appointments_stay_bookable env u id body st :
  allBookable env st ->
  allBookable env (snd (AppointmentRoutes.create env u body st))
  /\ allBookable env (snd (AppointmentRoutes.update env u id body st))
  /\ allBookable env (snd (AppointmentRoutes.cancel u id st)).
Proof.
  unfold allBookable. intros Hall. split; [|split].
  - destruct (Z.eq_dec
                (statusCode (fst (AppointmentRoutes.create env u body st)))
                201) as [H201 | Hn].
    + destruct (create_201 env u body st H201)
        as (body' & a & tv & s & Hb & _ & Hnew & Hd & Hbk & _ & _ & ->).
      destruct (new_fields _ _ Hnew) as (_ & _ & _ & Hda & _).
      assert (Hsame : AppointmentRoutes.b_date body'
                      = AppointmentRoutes.b_date body)
        by (subst body'; destruct (String.eqb (User.role u) "patient");
            reflexivity).
      rewrite Hsame, Hd in Hda. injection Hda as Hda.
      cbn [snd]. unfold created, insertDoc. cbn [appointments].
      apply Forall_app. split; trivial.
      constructor; [|constructor]. rewrite <- Hda. exact Hbk.
    + rewrite (create_else _ _ _ _ Hn). exact Hall.
  - destruct (Z.eq_dec
                (statusCode
                   (fst (AppointmentRoutes.update env u id body st)))
                200) as [H200 | Hn].
    + destruct (update_200 env u id body st H200)
        as (a & tv & Hv & Hf & Hm & Hd & Hbk).
      destruct (update_validated env u id body st Hv Hf Hm Hd) as [Hyes _].
      destruct (Hyes Hbk) as (a' & Ha & _ & ->).
      destruct (assign_validated a _ Hv Hd) as (? & ? & ? & _ & _ & _ & Ha').
      rewrite Ha' in Ha. injection Ha as <-.
      unfold updated. cbn [appointments].
      apply Forall_replaceDoc; trivial.
    + rewrite (update_else _ _ _ _ _ Hn). exact Hall.
  - unfold AppointmentRoutes.cancel.
    destruct (findById Appointment._id (appointments st) id) as [a|];
      trivial.
    destruct (negb (String.eqb (Appointment.user a) (User._id u))); trivial.
    cbn [snd appointments]. apply Forall_removeDoc, Hall.
Qed.

(** X12.  An appointment is stored by POST /api/appointments only with a
    service that is there and active, and by PUT /api/appointments/:id
    only with the service it had or with one that is there and active. *)
Theorem stored_service_is_active env u id body st :
  (statusCode (fst (AppointmentRoutes.create env u body st)) = 201 ->
   exists a service,
     snd (AppointmentRoutes.create env u body st) = created st a
     /\ findById Service._id (services st) (Appointment.service a)
        = Some service
     /\ Service.isActive service = true)
  /\ (statusCode (fst (AppointmentRoutes.update env u id body st)) = 200 ->
      exists a a',
        findById Appointment._id (appointments st) id = Some a
        /\ snd (AppointmentRoutes.update env u id body st) = updated st a'
        /\ (Appointment.service a' = Appointment.service a
            \/ exists service,
                 findById Service._id (services st) (Appointment.service a')
                 = Some service
                 /\ Service.isActive service = true)).
Proof.
  split.
  - intros H201.
    destruct (create_201 env u body st H201)
      as (body' & a & tv & s & Hb & _ & Hnew & _ & _ & Hs & Hun & ->).
    destruct (new_fields _ _ Hnew) as (_ & _ & _ & _ & Hsa & _).
    assert (Hsame : AppointmentRoutes.b_service body'
                    = AppointmentRoutes.b_service body)
      by (subst body'; destruct (String.eqb (User.role u) "patient");
          reflexivity).
    rewrite Hsame, Hs in Hsa. injection Hsa as Hsa.
    destruct (serviceUnavailable_false _ _ Hun) as (service & Hf & Hact).
    exists a, service. rewrite <- Hsa. repeat split; trivial.
  - intros H200.
    destruct (update_200 env u id body st H200)
      as (a & tv & Hv & Hf & Hm & Hd & Hbk).
    destruct (update_validated env u id body st Hv Hf Hm Hd) as [Hyes _].
    destruct (Hyes Hbk) as (a' & Ha & _ & Hsnd).
    destruct (assign_validated a _ Hv Hd)
      as (bu & bd & bs & _ & _ & Hs & Ha').
    rewrite Ha' in Ha. injection Ha as <-.
    eexists a, _. split; [exact Hf|]. split; [exact Hsnd|].
    cbn [Appointment.service].
    unfold mayUpdate in Hm. rewrite Hs in Hm.
    apply andb_true_iff in Hm. destruct Hm as [_ Hm].
    apply negb_true_iff, andb_false_iff in Hm. destruct Hm as [Hm | Hm].
    + left. apply negb_false_iff, String.eqb_eq in Hm. exact Hm.
    + right. apply serviceUnavailable_false, Hm.
Qed.

(** X13.  A date that passes validation but is an Invalid Date is turned
    down by the test on the day of the week: once the earlier checks are
    passed, the creation and the update are answered 400 with the message
    on the days, and nothing is stored. *)
Theorem invalid_date_rejected env u body st :
  AppointmentRoutes.validateAppointment body = [] ->
  AppointmentRoutes.b_date body = Wellformed None ->
  (serviceAvailable body st = true ->
   AppointmentRoutes.create env u body st
   = (respond 400
        (Message "Appointments can only be booked from Saturday to Wednesday"),
      st))
  /\ (forall id a,
        findById Appointment._id (appointments st) id = Some a ->
        mayUpdate u a body st = true ->
        AppointmentRoutes.update env u id body st
        = (respond 400
             (Message
                "Appointments can only be scheduled from Saturday to Wednesday"),
           st)).
Proof.
  intros Hv Hd. split.
  - intros Hs. unfold serviceAvailable in Hs.
    destruct (AppointmentRoutes.b_service body) as [| |s] eqn:Hsvc;
      try discriminate.
    apply negb_true_iff in Hs.
    unfold AppointmentRoutes.create. cbv zeta.
    change (AppointmentRoutes.validateAppointment
              (AppointmentRoutes.sanitize body))
      with (AppointmentRoutes.validateAppointment body).
    rewrite Hv.
    destruct (String.eqb (User.role u) "patient");
      cbn [AppointmentRoutes.b_service AppointmentRoutes.b_date
           AppointmentRoutes.setUser AppointmentRoutes.sanitize];
      rewrite Hsvc, Hs, Hd; reflexivity.
  - intros id a Hf Hm. unfold mayUpdate in Hm.
    apply andb_true_iff in Hm. destruct Hm as [Hm Hsvc].
    apply andb_true_iff in Hm. destruct Hm as [Hauth Hstat].
    apply negb_true_iff in Hsvc. apply negb_true_iff in Hstat.
    unfold AppointmentRoutes.update. cbv zeta.
    change (AppointmentRoutes.validateAppointment
              (AppointmentRoutes.sanitize body))
      with (AppointmentRoutes.validateAppointment body).
    change (AppointmentRoutes.b_status (AppointmentRoutes.sanitize body))
      with (AppointmentRoutes.b_status body).
    change (AppointmentRoutes.b_service (AppointmentRoutes.sanitize body))
      with (AppointmentRoutes.b_service body).
    change (AppointmentRoutes.b_date (AppointmentRoutes.sanitize body))
      with (AppointmentRoutes.b_date body).
    rewrite Hv, Hf, Hstat, Hsvc, Hd.
    replace (negb (includes ["doctor"; "assistant"] (User.role u))
             && negb (String.eqb (Appointment.user a) (User._id u)))
      with false
      by (destruct (includes ["doctor"; "assistant"] (User.role u)),
                   (String.eqb (Appointment.user a) (User._id u));
          simpl in *; congruence).
    reflexivity.
Qed.

(** The answer of PUT /api/appointments/:id to a request that passes every
    check. *)
Lemma update_result env u id body st a tv :
  AppointmentRoutes.validateAppointment body = [] ->
  findById Appointment._id (appointments st) id = Some a ->
  mayUpdate u a body st = true ->
  AppointmentRoutes.b_date body = Wellformed (Some tv) ->
  bookable env tv ->
  exists a',
    AppointmentRoutes.assign a (AppointmentRoutes.sanitize body) = Some a'
    /\ AppointmentRoutes.update env u id body st
       = (respond 200
            (Json (findById Appointment._id
                     (replaceDoc Appointment._id (appointments st) a')
                     (Appointment._id a'))),
          updated st a').
Proof.
  intros Hv Hf Hm Hd Hb.
  destruct (assign_validated a _ Hv Hd) as (bu & bd & bs & _ & _ & _ & Ha).
  apply workingHours_spec in Hb. cbv zeta in Hb.
  apply andb_true_iff in Hb. destruct Hb as [Hday Hhour].
  apply negb_true_iff in Hhour.
  unfold mayUpdate in Hm.
  apply andb_true_iff in Hm. destruct Hm as [Hm Hsvc].
  apply andb_true_iff in Hm. destruct Hm as [Hauth Hstat].
  apply negb_true_iff in Hsvc. apply negb_true_iff in Hstat.
  eexists. split; [exact Ha|].
  unfold AppointmentRoutes.update. cbv zeta.
  change (AppointmentRoutes.validateAppointment
            (AppointmentRoutes.sanitize body))
    with (AppointmentRoutes.validateAppointment body).
  change (AppointmentRoutes.b_status (AppointmentRoutes.sanitize body))
    with (AppointmentRoutes.b_status body).
  change (AppointmentRoutes.b_service (AppointmentRoutes.sanitize body))
    with (AppointmentRoutes.b_service body).
  change (AppointmentRoutes.b_date (AppointmentRoutes.sanitize body))
    with (AppointmentRoutes.b_date body).
  rewrite Hv, Hf, Hstat, Hsvc, Hd, Hday, Hhour, Ha.
  replace (negb (includes ["doctor"; "assistant"] (User.role u))
           && negb (String.eqb (Appointment.user a) (User._id u)))
    with false
    by (destruct (includes ["doctor"; "assistant"] (User.role u)),
                 (String.eqb (Appointment.user a) (User._id u));
        simpl in *; congruence).
  reflexivity.
Qed.

(** X14.  An update that staff got accepted can be sent again: it is
    accepted again, with the same response, and the store is what it was
    after the first time. *)
Theorem update_by_staff_idempotent env u id body st :
  isStaff u ->
  statusCode (fst (AppointmentRoutes.update env u id body st)) = 200 ->
  AppointmentRoutes.update env u id body
    (snd (AppointmentRoutes.update env u id body st))
  = AppointmentRoutes.update env u id body st.
Proof.
  intros Hs H200.
  destruct (update_200 env u id body st H200)
    as (a & tv & Hv & Hf & Hm & Hd & Hbk).
  destruct (@update_result env u id body st a tv Hv Hf Hm Hd Hbk)
    as (a' & Ha & Hup).
  destruct (assign_validated a _ Hv Hd)
    as (bu & bd & bs & Hu & Hdoc & Hsvc & Ha').
  rewrite Ha' in Ha. injection Ha as Ha.
  pose proof (findById_id _ _ _ Hf) as Hid.
  assert (Hida : Appointment._id a' = id) by (subst a'; exact Hid).
  assert (Hf' : findById Appointment._id (appointments (updated st a')) id
                = Some a').
  { unfold updated. cbn [appointments]. rewrite <- Hida.
    apply (findById_replaceDoc Appointment._id (appointments st) (d := a)).
    rewrite Hida. exact Hf. }
  assert (Hm' : mayUpdate u a' body (updated st a') = true).
  { unfold mayUpdate.
    rewrite (staff_includes Hs), (staff_not_patient Hs), Hsvc.
    subst a'. cbn [Appointment.service]. rewrite String.eqb_refl.
    reflexivity. }
  destruct (@update_result env u id body (updated st a') a' tv
              Hv Hf' Hm' Hd Hbk)
    as (a'' & Ha2 & Hup2).
  destruct (assign_validated a' _ Hv Hd)
    as (bu' & bd' & bs' & Hu' & Hdoc' & Hsvc' & Ha2').
  rewrite Ha2' in Ha2.
  assert (Hsame : a'' = a').
  { rewrite Hu in Hu'. rewrite Hdoc in Hdoc'. rewrite Hsvc in Hsvc'.
    injection Hu' as <-. injection Hdoc' as <-. injection Hsvc' as <-.
    injection Ha2 as <-. subst a'.
    cbn [Appointment._id Appointment.status Appointment.notes
         Appointment.createdAt].
    destruct (AppointmentRoutes.b_status body),
             (AppointmentRoutes.b_notes body),
             (AppointmentRoutes.b_createdAt body); reflexivity. }
  rewrite Hup. cbn [snd]. rewrite Hup2, Hsame.
  unfold updated. cbn [appointments users services payments reminders
                       patientInfos].
  rewrite replaceDoc_idempotent. reflexivity.
Qed.

(** X15.  Saving a document that was read keeps the documents of the
    collection under their ids and in their order: after an update of an
    appointment, an edit of a service, a change of the status of a payment
    or the marking of a reminder, the ids of the collection are what they
    were. *)
Theorem saves_keep_ids env u id abody sbody pstatus st :
  map Appointment._id
    (appointments (snd (AppointmentRoutes.update env u id abody st)))
  = map Appointment._id (appointments st)
  /\ map Service._id (services (snd (ServiceRoutes.edit id sbody st)))
     = map Service._id (services st)
  /\ map Payment._id
       (payments (snd (PaymentRoutes.updateStatus env id pstatus st)))
     = map Payment._id (payments st)
  /\ map Reminder._id (reminders (snd (ReminderRoutes.markRead u id st)))
     = map Reminder._id (reminders st).
Proof.
  split; [|split; [|split]].
  - destruct (Z.eq_dec
                (statusCode
                   (fst (AppointmentRoutes.update env u id abody st)))
                200) as [H200 | Hn].
    + destruct (update_200 env u id abody st H200)
        as (a & tv & Hv & Hf & Hm & Hd & Hbk).
      destruct (@update_result env u id abody st a tv Hv Hf Hm Hd Hbk)
        as (a' & _ & ->).
      cbn [snd]. unfold updated. cbn [appointments].
      apply replaceDoc_ids.
    + rewrite (update_else _ _ _ _ _ Hn). reflexivity.
  - unfold ServiceRoutes.edit.
    destruct (findById Service._id (services st) id); [|reflexivity].
    match goal with
    | |- context [if ?c then _ else _] => destruct c
    end; [reflexivity|].
    cbn [snd ServiceRoutes.setServices services]. apply replaceDoc_ids.
  - unfold PaymentRoutes.updateStatus.
    destruct pstatus; try reflexivity.
    destruct (castObjectId env id) as [msg | oid]; [reflexivity|].
    destruct (findById Payment._id (payments st) oid); [|reflexivity].
    cbn [snd PaymentRoutes.setPayments payments]. apply replaceDoc_ids.
  - unfold ReminderRoutes.markRead.
    destruct (findById Reminder._id (reminders st) id) as [r|];
      [|reflexivity].
    destruct (negb (String.eqb (Reminder.user r) (User._id u)));
      [reflexivity|].
    cbn [snd ReminderRoutes.setReminders reminders]. apply replaceDoc_ids.
Qed.

(** ** Payments *)

(** What POST /api/payments stores when it answers 201. *)
Lemma payment_create_201 env u body st :
  statusCode (fst (PaymentRoutes.create env u body st)) = 201 ->
  exists body' p,
    body' = (if String.eqb (User.role u) "patient"
             then PaymentRoutes.setUser (PaymentRoutes.sanitize body)
                    (User._id u)
             else PaymentRoutes.sanitize body)
    /\ PaymentRoutes.new env body' = Some p
    /\ snd (PaymentRoutes.create env u body st)
       = PaymentRoutes.setPayments st (insertDoc (payments st) p).
Proof.
  unfold PaymentRoutes.create. cbv zeta.
  destruct (PaymentRoutes.validatePayment (PaymentRoutes.sanitize body));
    [|simpl; discriminate].
  destruct (PaymentRoutes.new env _) as [p|] eqn:Hn; [|simpl; discriminate].
  intros _. eexists _, p. split; [reflexivity|]. split; [exact Hn|].
  reflexivity.
Qed.

Lemma payment_create_else env u body st :
  statusCode (fst (PaymentRoutes.create env u body st)) <> 201 ->
  snd (PaymentRoutes.create env u body st) = st.
Proof.
  unfold PaymentRoutes.create. cbv zeta.
  case_goal; cbn [fst snd statusCode]; intros H; trivial;
    elim H; reflexivity.
Qed.

(** The fields of a new payment. *)
Lemma payment_new_fields env b p :
  PaymentRoutes.new env b = Some p ->
  Payment._id p = newObjectId env
  /\ PaymentRoutes.b_user b = Wellformed (Payment.user p)
  /\ PaymentRoutes.b_appointment b = Wellformed (Payment.appointment p)
  /\ PaymentRoutes.b_amount b = Wellformed (Payment.amount p)
  /\ Number.leb Number.zero (Payment.amount p) = true
  /\ Payment.status p
     = match PaymentRoutes.b_status b with
       | Wellformed s => s
       | _ => Payment.pending
       end
  /\ Payment.createdAt p
     = orElse (PaymentRoutes.b_createdAt b) (Date_now env).
Proof.
  unfold PaymentRoutes.new.
  destruct (PaymentRoutes.b_user b); try discriminate.
  destruct (PaymentRoutes.b_appointment b); try discriminate.
  destruct (PaymentRoutes.b_amount b) as [| |n]; try discriminate.
  destruct (PaymentRoutes.b_status b); try discriminate;
    destruct (Number.leb Number.zero n) eqn:Hn; try discriminate;
    intros H; injection H as <-; repeat split; trivial.
Qed.

(** X16.  For an actor who is not a patient, the record stored by POST
    /api/appointments and by POST /api/payments has the user of the body:
    staff create appointments and payments for any user. *)
Theorem create_keeps_user_of_body env u st :
  User.role u <> "patient" ->
  (forall body,
     statusCode (fst (AppointmentRoutes.create env u body st)) = 201 ->
     exists a,
       snd (AppointmentRoutes.create env u body st) = created st a
       /\ AppointmentRoutes.b_user body = Wellformed (Appointment.user a))
  /\ (forall body,
        statusCode (fst (PaymentRoutes.create env u body st)) = 201 ->
        exists p,
          snd (PaymentRoutes.create env u body st)
          = PaymentRoutes.setPayments st (insertDoc (payments st) p)
          /\ PaymentRoutes.b_user body = Wellformed (Payment.user p)).
Proof.
  intros Hr. apply String.eqb_neq in Hr. split; intros body H201.
  - destruct (create_201 env u body st H201)
      as (body' & a & tv & s & Hb & _ & Hn & _ & _ & _ & _ & ->).
    rewrite Hr in Hb. subst body'.
    destruct (new_fields _ _ Hn) as (_ & Hu & _).
    exists a. split; [reflexivity | exact Hu].
  - destruct (payment_create_201 env u body st H201)
      as (body' & p & Hb & Hn & ->).
    rewrite Hr in Hb. subst body'.
    destruct (payment_new_fields _ _ Hn) as (_ & Hu & _).
    exists p. split; [reflexivity | exact Hu].
Qed.

(** X17.  PUT /api/payments/:id answers 400 without a valid status; with
    one, it answers 500, with the message of the CastError, when the id of
    the path is no ObjectId, and 404 when it is one under which no payment
    is stored; in these cases it stores nothing.  Otherwise it stores the
    payment found under the ObjectId of the path with the status of the
    request, whatever status it had, and with nothing else changed, and
    leaves the other payments alone. *)
Theorem payment_status_update env id st :
  (forall f,
     isWellformed f = false ->
     PaymentRoutes.updateStatus env id f st
     = (respond 400 (Message "Invalid status"), st))
  /\ (forall s message,
        castObjectId env id = CastError message ->
        PaymentRoutes.updateStatus env id (Wellformed s) st
        = (respond 500 (Message message), st))
  /\ (forall s oid,
        castObjectId env id = Casted oid ->
        findById Payment._id (payments st) oid = None ->
        PaymentRoutes.updateStatus env id (Wellformed s) st
        = (respond 404 (Message "Payment not found"), st))
  /\ (forall s oid p,
        castObjectId env id = Casted oid ->
        findById Payment._id (payments st) oid = Some p ->
        PaymentRoutes.updateStatus env id (Wellformed s) st
        = (respond 200 (Json (Some (withStatus p s))),
           PaymentRoutes.setPayments st
             (replaceDoc Payment._id (payments st) (withStatus p s)))
        /\ findById Payment._id
             (payments
                (snd (PaymentRoutes.updateStatus env id (Wellformed s) st)))
             oid = Some (withStatus p s)
        /\ (forall id', id' <> oid ->
              findById Payment._id
                (payments
                   (snd (PaymentRoutes.updateStatus env id (Wellformed s)
                           st)))
                id'
              = findById Payment._id (payments st) id')).
Proof.
  split; [|split; [|split]].
  - intros f Hf. destruct f; try discriminate; reflexivity.
  - intros s message Hc. unfold PaymentRoutes.updateStatus. rewrite Hc.
    reflexivity.
  - intros s oid Hc Hf. unfold PaymentRoutes.updateStatus.
    rewrite Hc, Hf. reflexivity.
  - intros s oid p Hc Hf. pose proof (findById_id _ _ _ Hf) as Hid.
    assert (Hfound : findById Payment._id
                       (replaceDoc Payment._id (payments st) (withStatus p s))
                       oid = Some (withStatus p s)).
    { rewrite <- Hid in Hf |- *.
      apply (findById_replaceDoc Payment._id (payments st)
               (d := p) (withStatus p s)). exact Hf. }
    unfold PaymentRoutes.updateStatus. rewrite Hc, Hf.
    fold (withStatus p s). cbn [snd PaymentRoutes.setPayments payments].
    change (Payment._id (withStatus p s)) with (Payment._id p).
    rewrite Hid, Hfound. repeat split; trivial.
    intros id' Hne. apply findById_replaceDoc_other.
    change (Payment._id (withStatus p s)) with (Payment._id p). congruence.
Qed.

(** Over the completed payments, what the payments add to the revenue. *)
Lemma sumOf_revenueOf l :
  sumOf (map wholeAmount
           (filter (fun p => Payment.Status_eqb (Payment.status p)
                                                Payment.completed) l))
  = sumOf (map revenueOf l).
Proof.
  induction l as [|x l IH]; simpl; trivial. unfold revenueOf at 1.
  destruct (Payment.Status_eqb (Payment.status x) Payment.completed);
    simpl; rewrite IH; reflexivity.
Qed.

Lemma revenueOf_range p :
  0 <= wholeAmount p -> 0 <= revenueOf p <= wholeAmount p.
Proof.
  intros H. unfold revenueOf.
  destruct (Payment.Status_eqb (Payment.status p) Payment.completed); lia.
Qed.

Lemma sumOf_revenueOf_range l :
  Forall (fun p => 0 <= wholeAmount p) l ->
  0 <= sumOf (map revenueOf l) <= sumOf (map wholeAmount l).
Proof.
  induction 1 as [|p l Hp Hl IH]; simpl; [lia|].
  pose proof (@revenueOf_range p Hp). lia.
Qed.

(** With whole amounts that add up to [2 ^ 53] at most, the revenue of
    the overview is what the payments add up to. *)
Lemma revenueSent_total st :
  amountsWhole st ->
  DashboardRoutes.revenueSent st
  = Some (Number.ofZ (sumOf (map revenueOf (payments st))))
  /\ Number.toZ (Number.ofZ (sumOf (map revenueOf (payments st))))
     = Some (sumOf (map revenueOf (payments st))).
Proof.
  intros [Hall Hb].
  assert (Hpos : Forall (fun p => 0 <= wholeAmount p) (payments st))
    by (eapply Forall_impl; [|exact Hall]; intros p Hp; apply Hp).
  pose proof (sumOf_revenueOf_range Hpos) as Hr.
  rewrite <- sumOf_revenueOf in *.
  apply revenueSent_whole.
  - unfold completedPayments. rewrite map_map.
    apply map_ext_in. intros p Hin. apply filter_In in Hin.
    rewrite Forall_forall in Hall. apply (Hall p), Hin.
  - apply Forall_map. apply Forall_forall. intros p Hin.
    apply filter_In in Hin. rewrite Forall_forall in Hpos.
    apply (Hpos p), Hin.
  - lia.
Qed.

Lemma sumOf_replaceDoc (f : Payment.doc -> Z) c p p' :
  NoDup (map Payment._id c) ->
  findById Payment._id c (Payment._id p') = Some p ->
  sumOf (map f (replaceDoc Payment._id c p'))
  = sumOf (map f c) - f p + f p'.
Proof.
  unfold findById. induction c as [|x c IH]; simpl; intros Hid Hf.
  - discriminate.
  - inversion Hid as [|? ? Hx Hid']; subst.
    destruct (String.eqb (Payment._id x) (Payment._id p')) eqn:He.
    + injection Hf as ->. apply String.eqb_eq in He.
      assert (Habs : findById Payment._id c (Payment._id p') = None)
        by (apply findById_None; rewrite <- He; exact Hx).
      fold (replaceDoc Payment._id c p').
      rewrite (replaceDoc_absent Payment._id c p' Habs). lia.
    + fold (replaceDoc Payment._id c p'). rewrite (IH Hid' Hf). lia.
Qed.

(** The amounts stay whole under a change of status. *)
Lemma amountsWhole_withStatus st p s :
  NoDup (map Payment._id (payments st)) ->
  findById Payment._id (payments st) (Payment._id p) = Some p ->
  amountsWhole st ->
  amountsWhole
    (PaymentRoutes.setPayments st
       (replaceDoc Payment._id (payments st) (withStatus p s))).
Proof.
  intros Hnd Hf [Hall Hb]. unfold amountsWhole.
  cbn [PaymentRoutes.setPayments payments]. split.
  - apply Forall_replaceDoc; trivial.
    rewrite Forall_forall in Hall. apply (Hall p).
    apply (findById_In _ _ _ Hf).
  - rewrite (@sumOf_replaceDoc wholeAmount (payments st) p (withStatus p s)
               Hnd Hf).
    change (wholeAmount (withStatus p s)) with (wholeAmount p). lia.
Qed.

(** X18.  With payments under distinct ids whose amounts are whole
    numbers, none negative, that add up to 2 ^ 53 at most, a change of the
    status of a payment moves the revenue of the overview by the amount of
    that payment: the revenue loses the amount if the payment was
    completed and gains it if the payment becomes completed. *)
Theorem revenue_after_status_update env id oid s st p :
  NoDup (map Payment._id (payments st)) ->
  amountsWhole st ->
  castObjectId env id = Casted oid ->
  findById Payment._id (payments st) oid = Some p ->
  exists before after,
    DashboardRoutes.revenueSent st = Some before
    /\ DashboardRoutes.revenueSent
         (snd (PaymentRoutes.updateStatus env id (Wellformed s) st))
       = Some after
    /\ exists b,
         Number.toZ before = Some b
         /\ Number.toZ after
            = Some (b - revenueOf p
                    + (if Payment.Status_eqb s Payment.completed
                       then wholeAmount p else 0)).
Proof.
  intros Hnd Hw Hc Hf.
  pose proof (findById_id _ _ _ Hf) as Hid.
  assert (Hf' : findById Payment._id (payments st) (Payment._id p) = Some p)
    by (rewrite Hid; exact Hf).
  destruct (revenueSent_total Hw) as [Hbefore Hb].
  destruct (revenueSent_total (amountsWhole_withStatus s Hnd Hf' Hw))
    as [Hafter Ha].
  cbn [PaymentRoutes.setPayments payments] in Hafter, Ha.
  rewrite (@sumOf_replaceDoc revenueOf (payments st) p (withStatus p s)
             Hnd Hf') in Hafter, Ha.
  unfold PaymentRoutes.updateStatus. rewrite Hc, Hf.
  fold (withStatus p s). cbn [snd].
  eexists. eexists. split; [exact Hbefore|]. split; [exact Hafter|].
  eexists. split; [exact Hb|]. exact Ha.
Qed.

(** X19.  The handlers of routes/payments.js keep the amounts from being
    negative, and with such amounts the revenue of the overview is not
    negative. *)
Theorem amounts_stay_nonnegative env u id body f st :
  amountsNonNegative st ->
  amountsNonNegative (snd (PaymentRoutes.create env u body st))
  /\ amountsNonNegative (snd (PaymentRoutes.updateStatus env id f st))
  /\ exists r,
       DashboardRoutes.revenueSent st = Some r
       /\ Number.leb Number.zero r = true.
Proof.
  unfold amountsNonNegative. intros Hall. split; [|split].
  - destruct (Z.eq_dec
                (statusCode (fst (PaymentRoutes.create env u body st))) 201)
      as [H201 | Hn].
    + destruct (payment_create_201 env u body st H201)
        as (body' & p & _ & Hnew & ->).
      destruct (payment_new_fields _ _ Hnew) as (_ & _ & _ & _ & Hpos & _).
      cbn [PaymentRoutes.setPayments payments]. unfold insertDoc.
      apply Forall_app. split; trivial. constructor; [exact Hpos|constructor].
    + rewrite (payment_create_else _ _ _ _ Hn). exact Hall.
  - unfold PaymentRoutes.updateStatus. destruct f; trivial.
    destruct (castObjectId env id) as [msg | oid]; trivial.
    destruct (findById Payment._id (payments st) oid) as [p|] eqn:Hf; trivial.
    cbn [snd PaymentRoutes.setPayments payments].
    apply Forall_replaceDoc; trivial. cbn [Payment.amount].
    rewrite Forall_forall in Hall. apply Hall.
    apply (findById_In _ _ _ Hf).
  - eexists. split; [apply revenueSent_sum|].
    apply orZero_nonneg. unfold DashboardRoutes.sum.
    apply fold_add_nonneg; [reflexivity|].
    apply Forall_map. unfold completedPayments.
    apply Forall_forall. intros p Hin. apply filter_In in Hin.
    rewrite Forall_forall in Hall. apply (Hall p), Hin.
Qed.

(** ** More on services *)

Section MoreServiceProperties.

Import Service ServiceRoutes.

Lemma findOne_None st n :
  findOne st n = None -> ~ In n (map name (services st)).
Proof.
  unfold findOne. intros Hf Hin. apply in_map_iff in Hin.
  destruct Hin as (x & <- & Hx). pose proof (find_none _ _ Hf x Hx) as H.
  simpl in H. rewrite String.eqb_refl in H. discriminate.
Qed.

(** What POST /api/services/create stores when it answers 201. *)
Lemma service_create_201 env u body st :
  statusCode (fst (create env u body st)) = 201 ->
  exists n service,
    b_name body = Some n /\ n <> ""
    /\ findOne st n = None
    /\ service = mk (newObjectId env) n (b_description body)
                    (orElse (b_duration body) 0) (orElse (b_price body) 0)
                    (Service_isActive_default env) (User._id u)
    /\ create env u body st
       = (respond 201 (Json service),
          setServices st (insertDoc (services st) service)).
Proof.
  unfold create.
  destruct (b_name body) as [n|] eqn:Hn; [|simpl; discriminate].
  cbn [truthy_string orElse].
  destruct (String.eqb n "") eqn:He; [simpl; discriminate|].
  cbn [negb orb].
  destruct (negb (truthy_number (b_duration body))
            || negb (truthy_number (b_price body))); [simpl; discriminate|].
  destruct (findOne st n) eqn:Hf; [simpl; discriminate|].
  intros _. exists n. eexists. split; [reflexivity|].
  split; [apply String.eqb_neq, He|]. split; [exact Hf|].
  split; reflexivity.
Qed.

Lemma service_create_else env u body st :
  statusCode (fst (create env u body st)) <> 201 ->
  snd (create env u body st) = st.
Proof.
  unfold create. case_goal; cbn [fst snd statusCode]; intros H; trivial;
    elim H; reflexivity.
Qed.

(** X20.  The handlers of routes/services.js keep the services distinct:
    if no two services share an id or a name, that is so after a creation
    under a new id, after an edit and after a deletion, whatever the
    request. *)
Theorem services_stay_distinct env u id body st :
  servicesDistinct st ->
  (~ In (newObjectId env) (map _id (services st)) ->
   servicesDistinct (snd (create env u body st)))
  /\ servicesDistinct (snd (edit id body st))
  /\ servicesDistinct (snd (delete id st)).
Proof.
  unfold servicesDistinct. intros [Hid Hname]. split; [|split].
  - intros Hfresh.
    destruct (Z.eq_dec (statusCode (fst (create env u body st))) 201)
      as [H201 | Hn].
    + destruct (service_create_201 env u body st H201)
        as (n & service & _ & _ & Hf & -> & ->).
      cbn [snd setServices services]. split.
      * apply NoDup_map_insertDoc; trivial.
      * apply NoDup_map_insertDoc; trivial. cbn [name].
        apply findOne_None, Hf.
    + rewrite (service_create_else _ _ _ _ Hn). split; assumption.
  - unfold edit.
    destruct (findById _id (services st) id) as [service|] eqn:Hf;
      [|split; assumption].
    pose proof (findById_In _ _ _ Hf) as Hin.
    match goal with
    | |- context [if ?c then _ else _] => destruct c eqn:Hc
    end; [split; assumption|].
    cbn [snd setServices services]. split.
    + rewrite replaceDoc_ids. exact Hid.
    + apply NoDup_key_replaceDoc; trivial. cbn [_id name].
      intros x Hx Hne Heq.
      assert (Hkeep : name x = name service -> False).
      { intros Hsame. apply Hne. f_equal.
        apply (NoDup_map_inj name (services st)); trivial. }
      destruct (b_name body) as [n|]; cbn [or_string] in Heq;
        [|exact (Hkeep Heq)].
      destruct (String.eqb n "") eqn:He; [exact (Hkeep Heq)|].
      destruct (String.eqb n (name service)) eqn:Hs.
      * apply String.eqb_eq in Hs. apply Hkeep. congruence.
      * cbn [negb andb] in Hc.
        destruct (findOne st n) eqn:Ho; [discriminate|].
        apply (findOne_None _ _ Ho). rewrite <- Heq. apply in_map, Hx.
  - unfold delete.
    destruct (findById _id (services st) id); [|split; assumption].
    cbn [snd setServices services].
    split; apply NoDup_map_removeDoc; assumption.
Qed.

(** X21.  Once POST /api/services/create has stored a service, a second
    creation under the same name, by anyone and at any time, is answered
    400 and stores nothing; it is a Conflict when it carries a duration
    and a price. *)
Theorem service_created_twice env u body st env' u' body' :
  statusCode (fst (create env u body st)) = 201 ->
  b_name body' = b_name body ->
  statusCode (fst (create env' u' body' (snd (create env u body st)))) = 400
  /\ snd (create env' u' body' (snd (create env u body st)))
     = snd (create env u body st)
  /\ (truthy_number (b_duration body') = true ->
      truthy_number (b_price body') = true ->
      Conflict (fst (create env' u' body' (snd (create env u body st))))).
Proof.
  intros H201 Hsame.
  destruct (service_create_201 env u body st H201)
    as (n & service & Hn & Hne & Hf & Hs & ->).
  cbn [snd]. unfold create at 1 2 3.
  rewrite Hsame, Hn. cbn [truthy_string orElse].
  apply String.eqb_neq in Hne. rewrite Hne. cbn [negb orb].
  assert (Hheld : findOne (setServices st (insertDoc (services st) service)) n
                  = Some service).
  { unfold findOne, setServices, insertDoc. cbn [services].
    apply find_app_new; [exact Hf|]. subst service. cbn [name].
    apply String.eqb_refl. }
  rewrite Hheld.
  destruct (truthy_number (b_duration body')),
           (truthy_number (b_price body')); cbn [negb orb fst snd statusCode];
    repeat split; try discriminate.
  eexists. split; [reflexivity|]. simpl. auto.
Qed.

(** X22.  A service cannot be created with a price of 0 or a duration of
    0: the request is answered 400 as incomplete.  An edit that leaves the
    name alone is stored; it sets the price it carries, 0 included, and
    the active flag it carries, but ignores a duration of 0. *)
Theorem service_zero_price_and_duration env u id body st :
  (b_price body = Some 0 \/ b_duration body = Some 0 ->
   create env u body st
   = (respond 400 (Message "Please provide name, duration, and price"), st))
  /\ (forall service,
        findById _id (services st) id = Some service ->
        b_name body = None ->
        exists service',
          edit id body st
          = (respond 200 (Json service'),
             setServices st (replaceDoc _id (services st) service'))
          /\ name service' = name service
          /\ (forall n, b_price body = Some n -> price service' = n)
          /\ (b_price body = None -> price service' = price service)
          /\ (forall n, b_duration body = Some n -> n <> 0 ->
                duration service' = n)
          /\ (b_duration body = Some 0 \/ b_duration body = None ->
              duration service' = duration service)
          /\ (forall b, b_isActive body = Some b -> isActive service' = b)).
Proof.
  split.
  - intros Hz. unfold create.
    assert (H : negb (truthy_number (b_duration body))
                || negb (truthy_number (b_price body)) = true)
      by (destruct Hz as [-> | ->]; simpl; auto using orb_true_r).
    destruct (negb (truthy_string (b_name body))); cbn [orb];
      [|rewrite H]; reflexivity.
  - intros service Hf Hn. unfold edit. rewrite Hf, Hn.
    eexists. split; [reflexivity|]. cbn [name price duration isActive].
    repeat split.
    + intros n ->. reflexivity.
    + intros ->. reflexivity.
    + intros n -> Hne. cbn [truthy_number orElse].
      apply Z.eqb_neq in Hne. rewrite Hne. reflexivity.
    + intros [-> | ->]; reflexivity.
    + intros b ->. reflexivity.
Qed.

End MoreServiceProperties.

(** X23.  Once a service has been deleted, or has been edited to be
    inactive, a validated request to create an appointment with it is
    answered 400, the service not being available, and nothing is
    stored. *)
Theorem booking_after_service_withdrawn env u body s st sbody :
  AppointmentRoutes.validateAppointment body = [] ->
  AppointmentRoutes.b_service body = Wellformed s ->
  (let st' := snd (ServiceRoutes.delete s st) in
   AppointmentRoutes.create env u body st'
   = (respond 400 (Message "Selected service is not available"), st'))
  /\ (statusCode (fst (ServiceRoutes.edit s sbody st)) = 200 ->
      ServiceRoutes.b_isActive sbody = Some false ->
      let st' := snd (ServiceRoutes.edit s sbody st) in
      AppointmentRoutes.create env u body st'
      = (respond 400 (Message "Selected service is not available"), st')).
Proof.
  intros Hv Hs.
  assert (Hrefused : forall st',
            AppointmentRoutes.serviceUnavailable st' s = true ->
            AppointmentRoutes.create env u body st'
            = (respond 400 (Message "Selected service is not available"),
               st')).
  { intros st' Hun. unfold AppointmentRoutes.create. cbv zeta.
    change (AppointmentRoutes.validateAppointment
              (AppointmentRoutes.sanitize body))
      with (AppointmentRoutes.validateAppointment body).
    rewrite Hv.
    destruct (String.eqb (User.role u) "patient");
      cbn [AppointmentRoutes.b_service AppointmentRoutes.setUser
           AppointmentRoutes.sanitize];
      rewrite Hs, Hun; reflexivity. }
  split.
  - intros st'. apply Hrefused. unfold AppointmentRoutes.serviceUnavailable.
    assert (Hgone : findById Service._id (services st') s = None).
    { unfold st', ServiceRoutes.delete.
      destruct (findById Service._id (services st) s) eqn:Hf; [|exact Hf].
      cbn [snd ServiceRoutes.setServices services].
      apply findById_removeDoc. }
    rewrite Hgone. reflexivity.
  - intros H200 Hoff st'. apply Hrefused.
    unfold AppointmentRoutes.serviceUnavailable.
    unfold st'. revert H200. unfold ServiceRoutes.edit.
    destruct (findById Service._id (services st) s) as [service|] eqn:Hf;
      [|simpl; discriminate].
    match goal with
    | |- context [if ?c then _ else _] => destruct c
    end; [simpl; discriminate|].
    intros _. cbn [snd ServiceRoutes.setServices services].
    match goal with
    | |- context [replaceDoc _ _ ?d] => set (saved := d)
    end.
    assert (Hid : Service._id saved = s)
      by (unfold saved; cbn [Service._id]; apply (findById_id _ _ _ Hf)).
    assert (Hsaved : findById Service._id
                       (replaceDoc Service._id (services st) saved) s
                     = Some saved).
    { rewrite <- Hid.
      apply (@findById_replaceDoc _ Service._id (services st) service saved).
      rewrite Hid. exact Hf. }
    rewrite Hsaved.
    unfold saved. cbn [Service.isActive]. rewrite Hoff. reflexivity.
Qed.

(** ** More on patient data *)

Section MorePatientInfoProperties.

Import PatientInfo UserRoutes.

Lemma setField_idempotent {A} (new old : option A) :
  setField new (setField new old) = setField new old.
Proof. destruct new; reflexivity. Qed.

Lemma findOne_None_patient st target :
  findOne st target = None -> ~ In target (map patientId (patientInfos st)).
Proof.
  unfold findOne. intros Hf Hin. apply in_map_iff in Hin.
  destruct Hin as (x & <- & Hx). pose proof (find_none _ _ Hf x Hx) as H.
  simpl in H. rewrite String.eqb_refl in H. discriminate.
Qed.

(** X24.  The handlers of patient data keep at most one record per
    patient: if no two records share an id or a patient, that is so after
    POST and after PUT /api/users/patient-info, whatever the request, as
    long as a new record gets a new id. *)
Theorem patient_infos_stay_distinct env u patientId' body st :
  patientInfosDistinct st ->
  ~ In (newObjectId env) (map _id (patientInfos st)) ->
  patientInfosDistinct (snd (createPatientInfo env u body st))
  /\ patientInfosDistinct
       (snd (updatePatientInfo env u patientId' body st)).
Proof.
  unfold patientInfosDistinct. intros [Hid Hpat] Hfresh. split.
  - unfold createPatientInfo. cbv zeta.
    destruct (negb _ && negb _); [split; assumption|].
    destruct (findOne st _) eqn:Hf; [split; assumption|].
    match goal with
    | |- context [if validate ?d then _ else _] =>
        destruct (validate d)
    end; [|split; assumption].
    cbn [snd setPatientInfos patientInfos]. split.
    + apply NoDup_map_insertDoc; trivial.
    + apply NoDup_map_insertDoc; trivial. cbn [patientId].
      apply findOne_None_patient, Hf.
  - unfold updatePatientInfo. cbv zeta.
    destruct (negb _ && negb _); [split; assumption|].
    destruct (findOne st _) as [found|] eqn:Hf.
    + match goal with
      | |- context [if validate ?d then _ else _] =>
          destruct (validate d)
      end; [|split; assumption].
      cbn [snd setPatientInfos patientInfos]. split.
      * rewrite replaceDoc_ids. exact Hid.
      * apply NoDup_key_replaceDoc; trivial. cbn [_id patientId].
        intros x Hx Hne Heq. apply Hne. f_equal.
        unfold findOne in Hf. apply find_some in Hf.
        apply (NoDup_map_inj patientId (patientInfos st)); tauto.
    + match goal with
      | |- context [if validate ?d then _ else _] =>
          destruct (validate d)
      end; [|split; assumption].
      cbn [snd setPatientInfos patientInfos]. split.
      * apply NoDup_map_insertDoc; trivial.
      * apply NoDup_map_insertDoc; trivial. cbn [patientId].
        apply findOne_None_patient, Hf.
Qed.

(** X25.  When POST /api/users/patient-info answers 201, the record sent
    back belongs to the target, has the fields of the body and no last
    visit, whatever the body says of the last visit; the actor then reads
    it back, under the id of the target or, for their own, under [me];
    and a second POST for the same target is answered Conflict and stores
    nothing. *)
Theorem patient_info_created_then_read env u body st :
  statusCode (fst (createPatientInfo env u body st)) = 201 ->
  let target := or_string (b_patientId body) (User._id u) in
  let st' := snd (createPatientInfo env u body st) in
  exists r,
    fst (createPatientInfo env u body st) = respond 201 (Json r)
    /\ patientId r = target
    /\ age r = b_age body /\ gender r = b_gender body
    /\ bloodType r = b_bloodType body
    /\ lastVisit r = None
    /\ (target <> "me" -> getPatientInfo u target st' = respond 200 (Json r))
    /\ (target = User._id u ->
        getPatientInfo u "me" st' = respond 200 (Json r))
    /\ (forall env' body',
          or_string (b_patientId body') (User._id u) = target ->
          Conflict (fst (createPatientInfo env' u body' st'))
          /\ snd (createPatientInfo env' u body' st') = st').
Proof.
  intros H201 target st'. revert H201. unfold st', createPatientInfo.
  cbv zeta. fold target.
  destruct (negb (String.eqb (User._id u) target)
            && negb (includes ["doctor"; "assistant"] (User.role u)))
    eqn:Hgate; [simpl; discriminate|].
  destruct (findOne st target) eqn:Hf; [simpl; discriminate|].
  match goal with
  | |- context [if validate ?d then _ else _] =>
      set (r := d); destruct (validate r)
  end; [|simpl; discriminate].
  intros _. cbn [fst snd]. exists r.
  assert (Hfound : findOne (setPatientInfos st (insertDoc (patientInfos st) r))
                     target = Some r).
  { unfold findOne, setPatientInfos, insertDoc. cbn [patientInfos].
    apply find_app_new; [exact Hf|]. unfold r. cbn [patientId].
    apply String.eqb_refl. }
  split; [reflexivity|]. split; [reflexivity|]. split; [reflexivity|].
  split; [reflexivity|]. split; [reflexivity|]. split; [reflexivity|].
  split; [|split].
  - intros Hme. apply String.eqb_neq in Hme. unfold getPatientInfo.
    cbv zeta. rewrite Hme, Hgate, Hfound. reflexivity.
  - intros Hown. unfold getPatientInfo. cbv zeta.
    rewrite (String.eqb_refl "me"), String.eqb_refl. cbn [negb andb].
    rewrite <- Hown, Hfound. reflexivity.
  - intros env' body' ->. rewrite Hgate, Hfound. cbn [fst snd].
    repeat split. eexists. split; [reflexivity|]. simpl. auto.
Qed.

(** X26.  A PUT /api/users/patient-info/:patientId that was answered 200
    can be sent again at the same reading of the clock: the response is
    the same and the store is what it was after the first time (a record
    made by the first request having got a new id). *)
Theorem patient_info_update_idempotent env u patientId' body st :
  statusCode (fst (updatePatientInfo env u patientId' body st)) = 200 ->
  findById _id (patientInfos st) (newObjectId env) = None ->
  updatePatientInfo env u patientId' body
    (snd (updatePatientInfo env u patientId' body st))
  = updatePatientInfo env u patientId' body st.
Proof.
  intros H200 Hfresh. revert H200.
  unfold updatePatientInfo at 1 3 4. cbv zeta.
  set (target := if String.eqb patientId' "me" then User._id u
                 else patientId').
  destruct (negb (String.eqb (User._id u) target)
            && negb (includes ["doctor"; "assistant"] (User.role u)))
    eqn:Hgate; [simpl; discriminate|].
  destruct (findOne st target) as [found|] eqn:Hf.
  - match goal with
    | |- context [if validate ?d then _ else _] =>
        set (saved := d); destruct (validate saved) eqn:Hval
    end; [|simpl; discriminate].
    intros _. cbn [snd].
    assert (Hfound : findOne
                       (setPatientInfos st
                          (replaceDoc _id (patientInfos st) saved)) target
                     = Some saved).
    { unfold findOne, setPatientInfos, replaceDoc. cbn [patientInfos].
      unfold findOne in Hf.
      apply (find_map_replace
               (fun d => String.eqb (patientId d) target)
               (fun x => String.eqb (_id x) (_id saved)) saved
               (patientInfos st) Hf).
      - unfold saved; cbn [_id]. apply String.eqb_refl.
      - unfold saved; cbn [patientId].
        apply find_some in Hf. exact (proj2 Hf). }
    unfold updatePatientInfo. cbv zeta. fold target.
    rewrite Hgate, Hfound.
    assert (Hsame :
      mk (_id saved) (patientId saved)
         (setField (b_age body) (age saved))
         (setField (b_gender body) (gender saved))
         (setField (b_address body) (address saved))
         (setField (b_bloodType body) (bloodType saved))
         (setField (b_medicalHistory body) (medicalHistory saved))
         (setField (b_allergies body) (allergies saved))
         (setField (b_medications body) (medications saved))
         (setField (b_emergencyContact body) (emergencyContact saved))
         (if truthy_bool (b_updateLastVisit body)
          then Some (Date_now env) else lastVisit saved)
         (createdAt saved) (Date_now env) = saved).
    { unfold saved.
      cbn [_id patientId age gender address bloodType medicalHistory
           allergies medications emergencyContact lastVisit createdAt].
      rewrite !setField_idempotent.
      destruct (truthy_bool (b_updateLastVisit body)); reflexivity. }
    rewrite Hsame, Hval. cbn [patientInfos setPatientInfos users
                              appointments services payments reminders].
    rewrite replaceDoc_idempotent. reflexivity.
  - match goal with
    | |- context [if validate ?d then _ else _] =>
        set (saved := d); destruct (validate saved) eqn:Hval
    end; [|simpl; discriminate].
    intros _. cbn [snd].
    assert (Hfound : findOne
                       (setPatientInfos st
                          (insertDoc (patientInfos st) saved)) target
                     = Some saved).
    { unfold findOne, setPatientInfos, insertDoc. cbn [patientInfos].
      apply find_app_new; [exact Hf|]. unfold saved. cbn [patientId].
      apply String.eqb_refl. }
    unfold updatePatientInfo. cbv zeta. fold target.
    rewrite Hgate, Hfound.
    assert (Hsame :
      mk (_id saved) (patientId saved)
         (setField (b_age body) (age saved))
         (setField (b_gender body) (gender saved))
         (setField (b_address body) (address saved))
         (setField (b_bloodType body) (bloodType saved))
         (setField (b_medicalHistory body) (medicalHistory saved))
         (setField (b_allergies body) (allergies saved))
         (setField (b_medications body) (medications saved))
         (setField (b_emergencyContact body) (emergencyContact saved))
         (if truthy_bool (b_updateLastVisit body)
          then Some (Date_now env) else lastVisit saved)
         (createdAt saved) (Date_now env) = saved).
    { unfold saved.
      cbn [_id patientId age gender address bloodType medicalHistory
           allergies medications emergencyContact lastVisit createdAt].
      rewrite !setField_idempotent.
      destruct (truthy_bool (b_updateLastVisit body)); reflexivity. }
    rewrite Hsame, Hval. cbn [patientInfos setPatientInfos users
                              appointments services payments reminders].
    assert (Hkeep : replaceDoc _id (insertDoc (patientInfos st) saved) saved
                    = insertDoc (patientInfos st) saved).
    { unfold insertDoc, replaceDoc. rewrite map_app. simpl.
      rewrite String.eqb_refl. f_equal.
      apply (replaceDoc_absent _id (patientInfos st) saved).
      unfold saved. cbn [_id]. exact Hfresh. }
    rewrite Hkeep. reflexivity.
Qed.

End MorePatientInfoProperties.

(** ** Reminders *)

Section ReminderProperties.

Import Reminder ReminderRoutes.

Lemma markRead_by_addressee u id st r :
  findById _id (reminders st) id = Some r ->
  String.eqb (user r) (User._id u) = true ->
  markRead u id st
  = (respond 200
       (Json (mk (_id r) (user r) (appointment r) (title r) (message r)
                 (date r) true)),
     setReminders st
       (replaceDoc _id (reminders st)
          (mk (_id r) (user r) (appointment r) (title r) (message r)
              (date r) true))).
Proof.
  intros Hf He. unfold markRead. rewrite Hf, He. reflexivity.
Qed.

(** X27.  PUT /api/reminders/:id/read by the addressee answers 200 with
    the reminder marked as read and nothing else of it changed, and
    stores it; sent again, it gives the same response and leaves the
    store as it is. *)
Theorem reminder_marked_read u id st r :
  findById _id (reminders st) id = Some r ->
  user r = User._id u ->
  let r' := mk (_id r) (user r) (appointment r) (title r) (message r)
               (date r) true in
  markRead u id st
  = (respond 200 (Json r'),
     setReminders st (replaceDoc _id (reminders st) r'))
  /\ findById _id (reminders (snd (markRead u id st))) id = Some r'
  /\ markRead u id (snd (markRead u id st))
     = (fst (markRead u id st), snd (markRead u id st)).
Proof.
  intros Hf Hown r'. pose proof (findById_id _ _ _ Hf) as Hid.
  assert (He : String.eqb (user r) (User._id u) = true)
    by (apply String.eqb_eq, Hown).
  pose proof (markRead_by_addressee u id st Hf He) as Hfirst.
  fold r' in Hfirst.
  assert (Hfound : findById _id (replaceDoc _id (reminders st) r') id
                   = Some r').
  { replace id with (_id r') by exact Hid.
    apply (@findById_replaceDoc _ _id (reminders st) r r').
    change (_id r') with (_id r). rewrite Hid. exact Hf. }
  split; [exact Hfirst|]. rewrite Hfirst. cbn [fst snd].
  split; [exact Hfound|].
  rewrite (@markRead_by_addressee u id
             (setReminders st (replaceDoc _id (reminders st) r')) r'
             Hfound He).
  change (mk (_id r') (user r') (appointment r') (title r') (message r')
             (date r') true) with r'.
  unfold setReminders. cbn [reminders users appointments services payments
                            patientInfos].
  rewrite replaceDoc_idempotent. reflexivity.
Qed.

(** X28.  DELETE /api/reminders/:id by the addressee or by staff answers
    200 and removes the reminder: its id no longer leads to a document,
    and every other id leads to what it led to before. *)
Theorem reminder_deleted u id st r :
  findById _id (reminders st) id = Some r ->
  user r = User._id u \/ isStaff u ->
  delete u id st
  = (respond 200 (Message "Reminder deleted successfully"),
     setReminders st (removeDoc _id (reminders st) id))
  /\ findById _id (reminders (snd (delete u id st))) id = None
  /\ (forall id', id' <> id ->
        findById _id (reminders (snd (delete u id st))) id'
        = findById _id (reminders st) id').
Proof.
  intros Hf Hauth.
  assert (Hfirst : delete u id st
                   = (respond 200 (Message "Reminder deleted successfully"),
                      setReminders st (removeDoc _id (reminders st) id))).
  { unfold delete. rewrite Hf, (findById_id _ _ _ Hf).
    replace (negb (String.eqb (user r) (User._id u))
             && negb (includes ["doctor"; "assistant"] (User.role u)))
      with false; [reflexivity|].
    destruct Hauth as [-> | Hs].
    - rewrite String.eqb_refl. reflexivity.
    - rewrite (staff_includes Hs). symmetry. apply andb_false_r. }
  rewrite Hfirst. cbn [snd setReminders reminders].
  split; [reflexivity|]. split; [apply findById_removeDoc|].
  intros id' Hne. apply findById_removeDoc_other, Hne.
Qed.

End ReminderProperties.

(** ** Deleted users *)

(** X29.  DELETE /api/users/:id by that user or by staff removes the user
    and nothing else: the appointments, payments, reminders and patient
    data of the user stay.  From then on a payment of that user cannot be
    read by anyone, staff included (the request is answered 500), and an
    appointment of that user is answered 500 to a patient, while an actor
    of another role still reads it. *)
Theorem user_deleted_without_cascade u id st x :
  User._id u = id \/ isStaff u ->
  findById User._id (users st) id = Some x ->
  let st' := snd (UserRoutes.deleteUser u id st) in
  UserRoutes.deleteUser u id st
  = (respond 200 (Message "User deleted successfully"), st')
  /\ findById User._id (users st') id = None
  /\ appointments st' = appointments st
  /\ payments st' = payments st
  /\ reminders st' = reminders st
  /\ patientInfos st' = patientInfos st
  /\ (forall actor pid p,
        findById Payment._id (payments st) pid = Some p ->
        Payment.user p = id ->
        PaymentRoutes.getById actor pid st'
        = respond 500 (Message nullReference))
  /\ (forall actor aid a,
        findById Appointment._id (appointments st) aid = Some a ->
        Appointment.user a = id ->
        AppointmentRoutes.getById actor aid st'
        = if String.eqb (User.role actor) "patient"
          then respond 500 (Message nullReference)
          else respond 200 (Json a)).
Proof.
  intros Hauth Hf st'.
  assert (Hst : UserRoutes.deleteUser u id st
                = (respond 200 (Message "User deleted successfully"),
                   mkStore (removeDoc User._id (users st) id)
                           (appointments st) (services st) (payments st)
                           (reminders st) (patientInfos st))).
  { unfold UserRoutes.deleteUser.
    rewrite (self_or_staff_gate Hauth), Hf. reflexivity. }
  unfold st'. rewrite Hst. cbn [snd users appointments payments reminders
                                patientInfos].
  split; [reflexivity|]. split; [apply findById_removeDoc|].
  repeat (split; [reflexivity|]). split.
  - intros actor pid p Hp Hu. unfold PaymentRoutes.getById.
    cbn [payments users]. rewrite Hp, Hu, findById_removeDoc. reflexivity.
  - intros actor aid a Ha Hu. unfold AppointmentRoutes.getById.
    cbn [appointments users]. rewrite Ha, Hu, findById_removeDoc.
    reflexivity.
Qed.

(** ** Slots *)

Lemma Day_of_hours tv : JsDate.Day tv = (tv / JsDate.msPerHour) / 24.
Proof.
  unfold JsDate.Day, JsDate.msPerDay, JsDate.msPerHour.
  rewrite Z.div_div by lia. reflexivity.
Qed.

(** X30.  The working-hours check looks at the hour of the wall clock and
    at nothing finer: two time values in the same hour of the host's
    civil time are both bookable or both not; and where the offset of the
    host is the same a week later, so is the answer of the check. *)
Theorem bookable_by_the_hour env tv :
  (forall tv',
     JsDate.LocalTime (LocalTZA env) tv / JsDate.msPerHour
     = JsDate.LocalTime (LocalTZA env) tv' / JsDate.msPerHour ->
     (bookable env tv <-> bookable env tv'))
  /\ (LocalTZA env (tv + 7 * JsDate.msPerDay) = LocalTZA env tv ->
      (bookable env tv <-> bookable env (tv + 7 * JsDate.msPerDay))).
Proof.
  assert (Hhour : forall a b,
            JsDate.LocalTime (LocalTZA env) a / JsDate.msPerHour
            = JsDate.LocalTime (LocalTZA env) b / JsDate.msPerHour ->
            dayOfWeek env a = dayOfWeek env b
            /\ hourOfDay env a = hourOfDay env b).
  { intros a b H. unfold dayOfWeek, hourOfDay, JsDate.WeekDay,
      JsDate.HourFromTime. rewrite !Day_of_hours, H. split; reflexivity. }
  split.
  - intros tv' H. destruct (Hhour _ _ H) as [Hd Hh].
    unfold bookable. rewrite Hd, Hh. reflexivity.
  - intros Htz.
    assert (Hd : dayOfWeek env (tv + 7 * JsDate.msPerDay) = dayOfWeek env tv).
    { unfold dayOfWeek, JsDate.WeekDay, JsDate.Day, JsDate.LocalTime.
      rewrite Htz.
      replace (tv + 7 * JsDate.msPerDay + LocalTZA env tv)
        with (tv + LocalTZA env tv + 7 * JsDate.msPerDay) by lia.
      unfold JsDate.msPerDay. rewrite Z.div_add by lia.
      replace ((tv + LocalTZA env tv) / 86400000 + 7 + 4)
        with ((tv + LocalTZA env tv) / 86400000 + 4 + 1 * 7) by lia.
      rewrite Z.mod_add by lia. reflexivity. }
    assert (Hh : hourOfDay env (tv + 7 * JsDate.msPerDay) = hourOfDay env tv).
    { unfold hourOfDay, JsDate.HourFromTime, JsDate.LocalTime,
        JsDate.HoursPerDay.
      rewrite Htz.
      replace (tv + 7 * JsDate.msPerDay + LocalTZA env tv)
        with (tv + LocalTZA env tv + 168 * JsDate.msPerHour)
        by (unfold JsDate.msPerDay, JsDate.msPerHour; lia).
      unfold JsDate.msPerHour. rewrite Z.div_add by lia.
      replace ((tv + LocalTZA env tv) / 3600000 + 168)
        with ((tv + LocalTZA env tv) / 3600000 + 7 * 24) by lia.
      rewrite Z.mod_add by lia. reflexivity. }
    unfold bookable. rewrite Hd, Hh. reflexivity.
Qed.

(** ** More worked requests *)

Section MoreWorked.

Import Sample MoreSample.

Ltac distinct :=
  repeat (constructor; [simpl; intuition discriminate|]); constructor.

Lemma sample_bookable : allBookable env store.
Proof.
  constructor; [|constructor]. apply workingHours_spec. reflexivity.
Qed.

Lemma appointments_of_user_latest_first_witness :
  exists l,
    AppointmentRoutes.getByUser alice "u1" store = respond 200 (Json l)
    /\ Permutation l (appointmentsOf store "u1")
    /\ newestFirst Appointment.date l
    /\ (forall a, In a l
          <-> In a (appointments store) /\ Appointment.user a = "u1").
Proof.
  exact (@appointments_of_user_latest_first alice "u1" store
           (or_introl eq_refl)).
Defined.

Lemma payments_latest_first_witness :
  exists l,
    PaymentRoutes.getByUser rho "u2" store = respond 200 (Json l)
    /\ Permutation l (paymentsOf store "u2")
    /\ newestFirst Payment.createdAt l
    /\ (forall p, In p l <-> In p (payments store) /\ Payment.user p = "u2").
Proof.
  exact (proj2 (payments_latest_first rho "u2" store) (or_intror eq_refl)).
Defined.

Lemma reminders_of_user_earliest_first_witness :
  exists l,
    ReminderRoutes.getByUser amy "u1" store = respond 200 (Json l)
    /\ Permutation l (remindersOf store "u1")
    /\ oldestFirst Reminder.date l
    /\ (forall r, In r l
          <-> In r (reminders store) /\ Reminder.user r = "u1").
Proof.
  exact (@reminders_of_user_earliest_first amy "u1" store
           (or_intror (or_intror eq_refl))).
Defined.

Lemma appointments_read_by_role_witness :
  AppointmentRoutes.getAll bob store = respond 200 (Json [])
  /\ AppointmentRoutes.getAll rho store = respond 200 (Json [visit])
  /\ AppointmentRoutes.getById amy "a1" store = respond 200 (Json visit).
Proof.
  destruct (proj1 (appointments_read_by_role bob store) eq_refl) as (Hb & _).
  destruct (proj2 (appointments_read_by_role rho store)
              ltac:(discriminate)) as (Hr & _).
  destruct (proj2 (appointments_read_by_role amy store)
              ltac:(discriminate)) as (_ & Ha).
  split; [exact Hb|]. split; [exact Hr|]. exact (Ha "a1" visit eq_refl).
Defined.

Lemma patient_refused_on_foreign_witness :
  serve env bob (GET_appointment "a1") store = (403, store)
  /\ serve env bob (PUT_patient_info "u1" noInfo) store = (403, store).
Proof.
  split.
  - exact (@patient_refused_on_foreign env bob store (GET_appointment "a1")
             "u1" eq_refl eq_refl ltac:(discriminate)).
  - exact (@patient_refused_on_foreign env bob store
             (PUT_patient_info "u1" noInfo) "u1" eq_refl eq_refl
             ltac:(discriminate)).
Defined.

Lemma owner_not_refused_witness :
  fst (serve env alice (PUT_appointment "a1" (booking saturday_08_00)) store)
  <> 403.
Proof.
  exact (@owner_not_refused env alice store
           (PUT_appointment "a1" (booking saturday_08_00))
           eq_refl (fun _ => eq_refl)).
Defined.

Lemma cancel_by_owner_witness :
  exists st',
    AppointmentRoutes.cancel alice "a1" store
    = (respond 200 (Message "Appointment cancelled successfully"), st')
    /\ findById Appointment._id (appointments st') "a1" = None.
Proof.
  destruct (@cancel_by_owner alice "a1" store visit eq_refl eq_refl)
    as (st' & H & Hgone & _).
  exists st'. split; assumption.
Defined.

Lemma create_then_cancel_witness :
  AppointmentRoutes.cancel alice "new"
    (snd (AppointmentRoutes.create env alice (booking saturday_08_00) store))
  = (respond 200 (Message "Appointment cancelled successfully"), store).
Proof.
  exact (@create_then_cancel env alice (booking saturday_08_00) store
           eq_refl eq_refl eq_refl).
Defined.

Lemma create_then_find_witness :
  exists a,
    findById Appointment._id
      (appointments
         (snd (AppointmentRoutes.create env rho (booking saturday_08_00)
                 store))) "new" = Some a
    /\ Appointment.status a = Appointment.scheduled
    /\ Appointment.createdAt a = 201600000.
Proof.
  destruct (@create_then_find env rho (booking saturday_08_00) store
              eq_refl eq_refl)
    as (a & _ & Hf & _ & _ & _ & Hs & Hc & _).
  exists a. split; [exact Hf|]. split; [exact Hs | exact Hc].
Defined.

Lemma appointments_stay_bookable_witness :
  allBookable env
    (snd (AppointmentRoutes.create env alice (booking saturday_08_00) store))
  /\ allBookable env
       (snd (AppointmentRoutes.update env amy "a1" (booking wednesday_17_59)
               store)).
Proof.
  split.
  - exact (proj1 (@appointments_stay_bookable env alice "a1"
                    (booking saturday_08_00) store sample_bookable)).
  - exact (proj1 (proj2 (@appointments_stay_bookable env amy "a1"
                           (booking wednesday_17_59) store sample_bookable))).
Defined.

Lemma stored_service_is_active_witness :
  exists a service,
    snd (AppointmentRoutes.create env alice (booking saturday_08_00) store)
    = created store a
    /\ findById Service._id (services store) (Appointment.service a)
       = Some service
    /\ Service.isActive service = true.
Proof.
  exact (proj1 (stored_service_is_active env alice "a1"
                  (booking saturday_08_00) store) eq_refl).
Defined.

Lemma invalid_date_rejected_witness :
  AppointmentRoutes.create env alice bookingInvalidDate store
  = (respond 400
       (Message "Appointments can only be booked from Saturday to Wednesday"),
     store)
  /\ AppointmentRoutes.update env alice "a1" bookingInvalidDate store
     = (respond 400
          (Message
             "Appointments can only be scheduled from Saturday to Wednesday"),
        store).
Proof.
  destruct (@invalid_date_rejected env alice bookingInvalidDate store
              eq_refl eq_refl) as [Hc Hu].
  split; [exact (Hc eq_refl) | exact (Hu "a1" visit eq_refl eq_refl)].
Defined.

Lemma update_by_staff_idempotent_witness :
  AppointmentRoutes.update env amy "a1" (booking saturday_08_00)
    (snd (AppointmentRoutes.update env amy "a1" (booking saturday_08_00)
            store))
  = AppointmentRoutes.update env amy "a1" (booking saturday_08_00) store.
Proof.
  exact (@update_by_staff_idempotent env amy "a1" (booking saturday_08_00)
           store (or_intror eq_refl) eq_refl).
Defined.

Lemma create_keeps_user_of_body_witness :
  (exists a,
     snd (AppointmentRoutes.create env rho (booking saturday_08_00) store)
     = created store a
     /\ Wellformed "u2" = Wellformed (Appointment.user a))
  /\ (exists p,
        snd (PaymentRoutes.create env amy payment store)
        = PaymentRoutes.setPayments store (insertDoc (payments store) p)
        /\ Wellformed "u2" = Wellformed (Payment.user p)).
Proof.
  split.
  - exact (proj1 (@create_keeps_user_of_body env rho store
                    ltac:(discriminate)) (booking saturday_08_00) eq_refl).
  - exact (proj2 (@create_keeps_user_of_body env amy store
                    ltac:(discriminate)) payment eq_refl).
Defined.

Lemma payment_status_update_witness :
  PaymentRoutes.updateStatus env "p1" Absent store
  = (respond 400 (Message "Invalid status"), store)
  /\ PaymentRoutes.updateStatus env EmptyString (Wellformed Payment.failed)
       store
     = (respond 500 (Message "Cast to ObjectId failed"), store)
  /\ PaymentRoutes.updateStatus env "p9" (Wellformed Payment.failed) store
     = (respond 404 (Message "Payment not found"), store)
  /\ findById Payment._id
       (payments
          (snd (PaymentRoutes.updateStatus env "P1"
                  (Wellformed Payment.pending) store))) "p1"
     = Some (withStatus paid Payment.pending).
Proof.
  destruct (payment_status_update env "p1" store) as (H400 & _).
  destruct (payment_status_update env EmptyString store) as (_ & H500 & _).
  destruct (payment_status_update env "p9" store) as (_ & _ & H404 & _).
  destruct (payment_status_update env "P1" store) as (_ & _ & _ & H200).
  split; [exact (H400 Absent eq_refl)|].
  split; [exact (H500 Payment.failed _ eq_refl)|].
  split; [exact (H404 Payment.failed "p9" eq_refl eq_refl)|].
  exact (proj1 (proj2 (H200 Payment.pending "p1" paid eq_refl eq_refl))).
Defined.

Lemma revenue_after_status_update_witness :
  exists before after,
    DashboardRoutes.revenueSent store = Some before
    /\ DashboardRoutes.revenueSent
         (snd (PaymentRoutes.updateStatus env "p2"
                 (Wellformed Payment.completed) store))
       = Some after
    /\ exists b,
         Number.toZ before = Some b
         /\ Number.toZ after = Some (b - revenueOf due + 25).
Proof.
  apply (@revenue_after_status_update env "p2" "p2" Payment.completed store
           due).
  - distinct.
  - split.
    + repeat (constructor; [split; [vm_compute; discriminate|reflexivity]|]).
      constructor.
    + vm_compute. discriminate.
  - reflexivity.
  - reflexivity.
Defined.

Lemma amounts_stay_nonnegative_witness :
  amountsNonNegative (snd (PaymentRoutes.create env alice payment store))
  /\ exists r,
       DashboardRoutes.revenueSent store = Some r
       /\ Number.leb Number.zero r = true.
Proof.
  assert (H : amountsNonNegative store)
    by (repeat (constructor; [reflexivity|]); constructor).
  destruct (@amounts_stay_nonnegative env alice "p1" payment Absent store H)
    as (Hc & _ & Hr).
  split; assumption.
Defined.

Lemma services_stay_distinct_witness :
  servicesDistinct (snd (ServiceRoutes.create env rho checkup store))
  /\ servicesDistinct (snd (ServiceRoutes.edit "v2" (rename "Scaling") store))
  /\ servicesDistinct (snd (ServiceRoutes.delete "v1" store)).
Proof.
  assert (H : servicesDistinct store) by (split; distinct).
  destruct (@services_stay_distinct env rho "v2" checkup store H)
    as (Hc & _ & _).
  destruct (@services_stay_distinct env rho "v2" (rename "Scaling") store H)
    as (_ & He & _).
  destruct (@services_stay_distinct env rho "v1" checkup store H)
    as (_ & _ & Hd).
  split; [apply Hc; simpl; intuition discriminate|].
  split; assumption.
Defined.

Lemma service_created_twice_witness :
  Conflict
    (fst (ServiceRoutes.create env amy checkup
            (snd (ServiceRoutes.create env rho checkup store))))
  /\ snd (ServiceRoutes.create env amy checkup
            (snd (ServiceRoutes.create env rho checkup store)))
     = snd (ServiceRoutes.create env rho checkup store).
Proof.
  destruct (@service_created_twice env rho checkup store env amy checkup
              eq_refl eq_refl) as (_ & Hs & Hc).
  split; [exact (Hc eq_refl eq_refl) | exact Hs].
Defined.

Lemma service_zero_price_and_duration_witness :
  ServiceRoutes.create env rho freeService store
  = (respond 400 (Message "Please provide name, duration, and price"), store)
  /\ exists service',
       fst (ServiceRoutes.edit "v1" makeFree store)
       = respond 200 (Json service')
       /\ Service.price service' = 0
       /\ Service.duration service' = 30.
Proof.
  destruct (service_zero_price_and_duration env rho "v1" freeService store)
    as [Hc _].
  destruct (service_zero_price_and_duration env rho "v1" makeFree store)
    as [_ He].
  split; [exact (Hc (or_introl eq_refl))|].
  destruct (He cleaning eq_refl eq_refl)
    as (service' & Hr & _ & Hp & _ & _ & Hd & _).
  exists service'. rewrite Hr. split; [reflexivity|].
  split; [exact (Hp 0 eq_refl) | exact (Hd (or_introl eq_refl))].
Defined.

Lemma booking_after_service_withdrawn_witness :
  statusCode
    (fst (AppointmentRoutes.create env alice (booking saturday_08_00)
            (snd (ServiceRoutes.delete "v1" store)))) = 400
  /\ statusCode
       (fst (AppointmentRoutes.create env alice (booking saturday_08_00)
               (snd (ServiceRoutes.edit "v1" withdraw store)))) = 400.
Proof.
  destruct (@booking_after_service_withdrawn env alice
              (booking saturday_08_00) "v1" store withdraw eq_refl eq_refl)
    as [Hd He].
  cbv zeta in Hd, He. split.
  - rewrite Hd. reflexivity.
  - rewrite (He eq_refl eq_refl). reflexivity.
Defined.

Lemma patient_infos_stay_distinct_witness :
  patientInfosDistinct (snd (UserRoutes.createPatientInfo env bob noInfo store))
  /\ patientInfosDistinct
       (snd (UserRoutes.updatePatientInfo env bob "me" bobInfo store)).
Proof.
  assert (H : patientInfosDistinct store) by (split; distinct).
  assert (Hfresh : ~ In (newObjectId env)
                       (map PatientInfo._id (patientInfos store)))
    by (simpl; intuition discriminate).
  split.
  - exact (proj1 (@patient_infos_stay_distinct env bob "me" noInfo store
                    H Hfresh)).
  - exact (proj2 (@patient_infos_stay_distinct env bob "me" bobInfo store
                    H Hfresh)).
Defined.

Lemma patient_info_created_then_read_witness :
  exists r,
    fst (UserRoutes.createPatientInfo env bob bobInfo store)
    = respond 201 (Json r)
    /\ PatientInfo.lastVisit r = None
    /\ UserRoutes.getPatientInfo bob "me"
         (snd (UserRoutes.createPatientInfo env bob bobInfo store))
       = respond 200 (Json r).
Proof.
  destruct (@patient_info_created_then_read env bob bobInfo store eq_refl)
    as (r & Hr & _ & _ & _ & _ & Hl & _ & Hme & _).
  exists r. split; [exact Hr|]. split; [exact Hl | exact (Hme eq_refl)].
Defined.

Lemma patient_info_update_idempotent_witness :
  UserRoutes.updatePatientInfo env bob "me" bobInfo
    (snd (UserRoutes.updatePatientInfo env bob "me" bobInfo store))
  = UserRoutes.updatePatientInfo env bob "me" bobInfo store.
Proof.
  exact (@patient_info_update_idempotent env bob "me" bobInfo store
           eq_refl eq_refl).
Defined.

Lemma reminder_marked_read_witness :
  exists r',
    fst (ReminderRoutes.markRead alice "r1" store) = respond 200 (Json r')
    /\ Reminder.isRead r' = true
    /\ ReminderRoutes.markRead alice "r1"
         (snd (ReminderRoutes.markRead alice "r1" store))
       = (fst (ReminderRoutes.markRead alice "r1" store),
          snd (ReminderRoutes.markRead alice "r1" store)).
Proof.
  destruct (@reminder_marked_read alice "r1" store note eq_refl eq_refl)
    as (H1 & _ & H3).
  eexists. rewrite H1 at 1. split; [reflexivity|].
  split; [reflexivity | exact H3].
Defined.

Lemma reminder_deleted_witness :
  findById Reminder._id
    (reminders (snd (ReminderRoutes.delete rho "r1" store))) "r1" = None.
Proof.
  exact (proj1 (proj2 (@reminder_deleted rho "r1" store note eq_refl
                         (or_intror (or_introl eq_refl))))).
Defined.

Lemma user_deleted_without_cascade_witness :
  PaymentRoutes.getById rho "p1" (snd (UserRoutes.deleteUser rho "u1" store))
  = respond 500 (Message nullReference)
  /\ AppointmentRoutes.getById rho "a1"
       (snd (UserRoutes.deleteUser rho "u1" store))
     = respond 200 (Json visit)
  /\ AppointmentRoutes.getById bob "a1"
       (snd (UserRoutes.deleteUser rho "u1" store))
     = respond 500 (Message nullReference).
Proof.
  destruct (@user_deleted_without_cascade rho "u1" store alice
              (or_intror (or_introl eq_refl)) eq_refl)
    as (_ & _ & _ & _ & _ & _ & Hp & Ha).
  cbv zeta in Hp, Ha.
  split; [exact (Hp rho "p1" paid eq_refl eq_refl)|].
  split; [exact (Ha rho "a1" visit eq_refl eq_refl)
         | exact (Ha bob "a1" visit eq_refl eq_refl)].
Defined.

Lemma bookable_by_the_hour_witness :
  (bookable env saturday_08_00 <-> bookable env (saturday_08_00 + 3599999))
  /\ (bookable env saturday_07_59
      <-> bookable env (saturday_07_59 + 7 * JsDate.msPerDay)).
Proof.
  split.
  - exact (proj1 (bookable_by_the_hour env saturday_08_00)
             (saturday_08_00 + 3599999) eq_refl).
  - exact (proj2 (bookable_by_the_hour env saturday_07_59) eq_refl).
Defined.

End MoreWorked.
